(** * ipeds_crawler: the document extraction and matching engine

    A shallow embedding of the static helper functions of
    [ipeds_crawler.py] (text classification, header inference, section
    location, table formatting, deep row search, graph discovery and the
    fallback cascade) and the properties their specification states.

    Conventions of the embedding.
    - A loaded page is a read-only snapshot: a table is a list of rows, a
      row a list of [th]/[td] cells, a cell carries its visible text and
      its images.  Element accessors do not raise on a snapshot; the only
      Selenium exception kept is [NoSuchElementException], as [None].
    - Text is a byte string.  [str.lower], [str.upper], [str.strip] and
      [\d] act on the ASCII range; bytes above 127 are letters of no case and
      no space.  Python maps the case of other alphabets too: a property
      that rests on the case mapping itself is stated for ASCII text.
    - [worker_all_data_list] is the state of a small emission monad: the
      functions that append to it are computations of type [Emit A]. *)

From Stdlib Require Import String Ascii List ZArith Bool Lia DecimalString.
From stdpp Require Import base option list strings gmap.

Import ListNotations.
Local Open Scope string_scope.
Local Open Scope list_scope.

(* stdpp freezes [String.append] under [simpl]; the proofs below unfold it
   on constructors. *)
#[local] Arguments String.append !s1 s2 : simpl nomatch.

(** ** Python string primitives *)

Module Py.

(** Truthiness of a string: [if s:]. *)
Definition truthy (s : string) : bool :=
  match s with EmptyString => false | String _ _ => true end.

(** [a or b] on strings. *)
Definition or_else (a b : string) : string := if truthy a then a else b.

(** [x or ""] on an attribute that may be absent. *)
Definition attr_or_empty (a : option string) : string :=
  match a with Some s => s | None => "" end.

Definition lower_char (c : ascii) : ascii :=
  let n := nat_of_ascii c in
  if (65 <=? n)%nat && (n <=? 90)%nat then ascii_of_nat (n + 32) else c.

Definition upper_char (c : ascii) : ascii :=
  let n := nat_of_ascii c in
  if (97 <=? n)%nat && (n <=? 122)%nat then ascii_of_nat (n - 32) else c.

(** [s.lower()] and [s.upper()] on the ASCII range; a byte above 127 is
    left as it is. *)
Fixpoint lower (s : string) : string :=
  match s with
  | EmptyString => EmptyString
  | String c s' => String (lower_char c) (lower s')
  end.

Fixpoint upper (s : string) : string :=
  match s with
  | EmptyString => EmptyString
  | String c s' => String (upper_char c) (upper s')
  end.

(** The ASCII characters [str.strip] removes. *)
Definition is_space (c : ascii) : bool :=
  let n := nat_of_ascii c in
  ((9 <=? n)%nat && (n <=? 13)%nat) || ((28 <=? n)%nat && (n <=? 32)%nat).

Fixpoint lstrip (s : string) : string :=
  match s with
  | EmptyString => EmptyString
  | String c s' => if is_space c then lstrip s' else s
  end.

Fixpoint rstrip (s : string) : string :=
  match s with
  | EmptyString => EmptyString
  | String c s' =>
      match rstrip s' with
      | EmptyString => if is_space c then EmptyString else String c EmptyString
      | r => String c r
      end
  end.

(** [s.strip()]. *)
Definition strip (s : string) : string := rstrip (lstrip s).

Fixpoint startswith (p s : string) : bool :=
  match p, s with
  | EmptyString, _ => true
  | String a p', String b s' => Ascii.eqb a b && startswith p' s'
  | String _ _, EmptyString => false
  end.

(** [needle in hay]. *)
Fixpoint contains (needle hay : string) : bool :=
  startswith needle hay ||
  match hay with
  | EmptyString => false
  | String _ hay' => contains needle hay'
  end.

(** [s.endswith(p)]. *)
Fixpoint endswith (p s : string) : bool :=
  String.eqb p s ||
  match s with
  | EmptyString => false
  | String _ s' => endswith p s'
  end.

(** [sep.join(parts)]. *)
Fixpoint join (sep : string) (parts : list string) : string :=
  match parts with
  | [] => ""
  | [p] => p
  | p :: rest => p +:+ sep +:+ join sep rest
  end.

(** [str(n)] for a non-negative integer. *)
Definition of_nat (n : nat) : string := NilEmpty.string_of_uint (Nat.to_uint n).

Definition is_digit (c : ascii) : bool :=
  let n := nat_of_ascii c in (48 <=? n)%nat && (n <=? 57)%nat.

Fixpoint all_digits (s : string) : bool :=
  match s with
  | EmptyString => true
  | String c s' => is_digit c && all_digits s'
  end.

(** [s.isdigit()]. *)
Definition isdigit (s : string) : bool := truthy s && all_digits s.

(** [s.replace(".", "", 1)]. *)
Fixpoint drop_first_dot (s : string) : string :=
  match s with
  | EmptyString => EmptyString
  | String c s' => if Ascii.eqb c "." then s' else String c (drop_first_dot s')
  end.

(** [x in xs] for a list of strings. *)
Definition mem (x : string) (xs : list string) : bool :=
  existsb (String.eqb x) xs.

(** [enumerate(xs, start)]. *)
Fixpoint enumerate {A : Type} (start : nat) (xs : list A) : list (nat * A) :=
  match xs with
  | [] => []
  | x :: xs' => (start, x) :: enumerate (S start) xs'
  end.

(** The substring relation behind [contains]. *)
Definition Infix (needle hay : string) : Prop :=
  exists pre post, hay = pre +:+ needle +:+ post.

End Py.

(** ** The page snapshot *)

Inductive CellTag : Type := Th | Td.

Definition tag_eqb (a b : CellTag) : bool :=
  match a, b with
  | Th, Th | Td, Td => true
  | _, _ => false
  end.

(** An [<img>]: its [alt] and [src] attributes, [None] when absent. *)
Record Img : Type := { img_alt : option string; img_src : option string }.

(** A [<th>] or [<td>]: its visible text and the images it holds. *)
Record Cell : Type :=
  { cell_tag : CellTag; cell_text : string; cell_imgs : list Img }.

(** A [<tr>]: its [class] attribute and its cells in document order. *)
Record Row : Type := { row_class : option string; row_cells : list Cell }.

(** A [<table>].  The rows of its [<thead>] (when it has one) come before
    the other rows in document order. *)
Record Table : Type :=
  { tbl_class : option string;
    tbl_text : string;               (* table_element.text *)
    tbl_captions : list string;      (* text of each <caption> *)
    tbl_thead : option (list Row);   (* the <tr> of <thead>; None: no <thead> *)
    tbl_body : list Row;             (* the <tr> outside <thead> *)
    tbl_svg_title : option string;   (* textContent of .//svg/title *)
    tbl_y : option Z }.              (* top + scrollY; None: the script fails *)

(** A [.tabtitles] section marker. *)
Record SectionHeader : Type := { hdr_text : string; hdr_y : option Z }.

(** What the driver exposes of the loaded page. *)
Record Driver : Type :=
  { page_tables : list Table; page_tabtitles : list SectionHeader }.

(** [processing_input]: the query of one document visit. *)
Record Query : Type := { search_terms : list string; keywords : list string }.

(** One entry of [worker_all_data_list]. *)
Record DataRow : Type :=
  { Category : string; Value : string; Section_ : string; Source : string }.

(** An entry of [matching_tables_info] / [matching_graphs_info]. *)
Record MatchInfo : Type :=
  { mi_index : nat; mi_element : Table; mi_match_type : string;
    mi_section : string }.

(** [row.find_elements(By.TAG_NAME, tag)]. *)
Definition find_cells (t : CellTag) (row : Row) : list Cell :=
  List.filter (fun c => tag_eqb (cell_tag c) t) (row_cells row).

(** [table_element.find_elements(By.TAG_NAME, "tr")]. *)
Definition table_rows (tbl : Table) : list Row :=
  match tbl_thead tbl with
  | Some thead_rows => thead_rows ++ tbl_body tbl
  | None => tbl_body tbl
  end.

(** [table_element.find_elements(By.CSS_SELECTOR, "thead th")]. *)
Definition thead_ths (tbl : Table) : list Cell :=
  match tbl_thead tbl with
  | Some thead_rows => flat_map (find_cells Th) thead_rows
  | None => []
  end.

(** [container.find_elements(By.TAG_NAME, "img")]. *)
Definition table_imgs (tbl : Table) : list Img :=
  flat_map (fun row => flat_map cell_imgs (row_cells row)) (table_rows tbl).

(** ** The emission monad over [worker_all_data_list] *)

Definition Emit (A : Type) : Type := list DataRow -> A * list DataRow.

Definition ret {A : Type} (a : A) : Emit A := fun out => (a, out).

Definition bind {A B : Type} (m : Emit A) (k : A -> Emit B) : Emit B :=
  fun out => let '(a, out') := m out in k a out'.

Notation "'let*' x ':=' m 'in' k" := (bind m (fun x => k))
  (at level 10, x name, m at level 100, k at level 200).
Notation "m ;; k" := (bind m (fun _ => k))
  (at level 100, k at level 200, right associativity).

(** [worker_all_data_list.append(r)] and [.extend(rs)]. *)
Definition append (r : DataRow) : Emit unit := fun out => (tt, out ++ [r]).
Definition extend (rs : list DataRow) : Emit unit := fun out => (tt, out ++ rs).

(** [for x in xs: body(x)]. *)
Fixpoint for_each {A : Type} (xs : list A) (body : A -> Emit unit) : Emit unit :=
  match xs with
  | [] => ret tt
  | x :: xs' => body x ;; for_each xs' body
  end.

(** [flag = False; for x in xs: (if body(x): flag = True)]: every body
    runs, the flag records whether one of them succeeded. *)
Fixpoint for_any {A : Type} (xs : list A) (body : A -> Emit bool) : Emit bool :=
  match xs with
  | [] => ret false
  | x :: xs' =>
      let* b := body x in
      let* r := for_any xs' body in
      ret (b || r)
  end.

(** The records a computation appends, started on an empty list. *)
Definition emitted {A : Type} (m : Emit A) : list DataRow := snd (m []).
Definition result {A : Type} (m : Emit A) : A := fst (m []).

(** ** TextClassifier *)

(** [keyword_match_static] (lines 27-33). *)
Definition keyword_match_static (text_to_search : string)
    (keywords_list : list string) : bool :=
  match keywords_list with
  | [] => false
  | _ =>
      let text_to_search_lower := Py.lower text_to_search in
      forallb
        (fun keyword_item =>
           Py.contains (Py.lower keyword_item) text_to_search_lower)
        keywords_list
  end.

(** The term test the source writes inline (lines 324-327, 790-795):
    [any(term.lower() in text for term in search_terms_list)], on a text
    the caller has already lower-cased. *)
Definition term_match_static (text_lower : string)
    (search_terms_list : list string) : bool :=
  existsb (fun term => Py.contains (Py.lower term) text_lower) search_terms_list.

(** ** HeaderInference *)

(** [[cell.text.strip() if cell.text.strip() else f"{prefix}{i+1}"
      for i, cell in enumerate(cells)]]. *)
Definition header_labels (prefix : string) (cells : list Cell) : list string :=
  map (fun '(i, cell) =>
         Py.or_else (Py.strip (cell_text cell)) (prefix +:+ Py.of_nat (i + 1)))
      (Py.enumerate 0 cells).

(** Attempt 1 (lines 56-75): the last row of [<thead>], its [<th>] cells or,
    when it has none, its [<td>] cells.  [None] stands for falling through
    to attempt 2. *)
Definition headers_from_thead (table_element : Table)
    : option (list string * nat) :=
  match tbl_thead table_element with
  | None => None
  | Some thead_rows =>
      match last thead_rows with
      | None => None
      | Some last_row =>
          let header_cells_in_thead :=
            match find_cells Th last_row with
            | [] => find_cells Td last_row
            | ths => ths
            end in
          match header_cells_in_thead with
          | [] => None
          | _ => Some (header_labels "HeadCol" header_cells_in_thead,
                       length thead_rows)
          end
      end
  end.

(** [get_table_headers_and_data_start_idx_static] (lines 37-93). *)
Definition get_table_headers_and_data_start_idx_static
    (table_element : Table) (all_rows : list Row) : list string * nat :=
  match all_rows with
  | [] => ([], 0)
  | first_row :: _ =>
      match headers_from_thead table_element with
      | Some found => found
      | None =>
          match find_cells Th first_row with
          | [] => ([], 0)
          | first_row_th_cells => (header_labels "Row1Col" first_row_th_cells, 1)
          end
      end
  end.

(** ** SectionLocator *)

(** One turn of the loop over [page_headers] (lines 152-166); the state is
    [(closest, best_dist)], [None] standing for [float('inf')]. *)
Definition closer_header (section_titles : list string) (elem_y : Z)
    (st : string * option Z) (header : SectionHeader) : string * option Z :=
  let title := Py.strip (hdr_text header) in
  if negb (Py.mem title section_titles) then st
  else
    match hdr_y header with
    | None => st
    | Some hdr_y =>
        let dist := (elem_y - hdr_y)%Z in
        if (0 <=? dist)%Z &&
           match snd st with None => true | Some best => (dist <? best)%Z end
        then (title, Some dist)
        else st
    end.

(** [determine_section_static] (lines 130-174). *)
Definition determine_section_static (driver : Driver) (element : Table)
    (section_titles : list string) : string :=
  match tbl_y element with
  | None => "Unknown Section (JS Error)"
  | Some elem_y =>
      match section_titles with
      | [] => "Unknown Section (No Titles Provided)"
      | _ =>
          match page_tabtitles driver with
          | [] => "Unknown Section (No Headers On Page)"
          | page_headers =>
              fst (fold_left (closer_header section_titles elem_y) page_headers
                     ("Unknown Section (No Match)", None))
          end
      end
  end.

(** ** Header summary *)

(** The record [emit_cached_header_row] builds (lines 978-985). *)
Definition header_row_record (headers : list string) (section_name : string)
    : DataRow :=
  let first :=
    match headers with
    | h0 :: _ => Py.or_else (Py.strip h0) "blank"
    | [] => "blank"
    end in
  let rest := List.filter (fun h => Py.truthy (Py.strip h)) (List.tl headers) in
  {| Category := first;
     Value := Py.or_else (Py.join "; " rest) "blank";
     Section_ := section_name;
     Source := "Deep Table Search – Table Headers" |}.

(** [emit_cached_header_row] (lines 972-985). *)
Definition emit_cached_header_row (headers : list string)
    (section_name : string) : Emit unit :=
  append (header_row_record headers section_name).

(** ** DeepRowSearch *)

(** [row.get_attribute("class") or ""] contains ["subrow"]. *)
Definition is_subrow (row : Row) : bool :=
  Py.contains "subrow" (Py.attr_or_empty (row_class row)).

(** The value of a cell (lines 306-314): its stripped text; when that is
    empty, the stripped [alt] of its first image if it is not empty. *)
Definition cell_value (c : Cell) : string :=
  let v := Py.strip (cell_text c) in
  if Py.truthy v then v
  else
    match cell_imgs c with
    | [] => v                                   (* NoSuchElementException *)
    | img :: _ =>
        let alt := Py.attr_or_empty (img_alt img) in
        if Py.truthy (Py.strip alt) then Py.strip alt else v
    end.

(** [headers[i] if i < len(headers) and headers[i] else f"Col{i}"]. *)
Definition header_or_col (headers : list string) (i : nat) : string :=
  match headers !! i with
  | Some h => if Py.truthy h then h else "Col" +:+ Py.of_nat i
  | None => "Col" +:+ Py.of_nat i
  end.

(** The two searchable strings of a row (lines 317-321). *)
Definition full_text (headers vals : list string) : string :=
  Py.lower
    (Py.join " "
       (map (fun '(i, v) => header_or_col headers i +:+ " " +:+ v)
            (Py.enumerate 0 vals))).

Definition simple_text (vals : list string) : string :=
  Py.join " " (map Py.lower vals).

(** [term_hit] (lines 324-327). *)
Definition term_hit (search_terms_list : list string)
    (full simple : string) : bool :=
  existsb
    (fun term =>
       Py.contains (Py.lower term) full || Py.contains (Py.lower term) simple)
    search_terms_list.

(** [key_hit] (lines 330-332). *)
Definition key_hit (keywords_list : list string) (term_hit : bool)
    (full simple : string) : bool :=
  match keywords_list with
  | [] => false
  | _ =>
      if term_hit then false
      else keyword_match_static full keywords_list
           || keyword_match_static simple keywords_list
  end.

(** [v if v and v != "-" else "blank"]. *)
Definition blank_if_absent (v : string) : string :=
  if Py.truthy v && negb (String.eqb v "-") then v else "blank".

(** ["; ".join(v if v and v != "-" else "blank" for v in vals[1:])]. *)
Definition raw_value (vals : list string) : string :=
  Py.join "; " (map blank_if_absent (List.tl vals)).

Definition group_record (section_name : string) (vals : list string) : DataRow :=
  {| Category := List.hd "" vals;
     Value := "";
     Section_ := section_name;
     Source := "DeepSearch - Subrow Group" |}.

Definition detail_record (section_name : string) (dvals : list string) : DataRow :=
  {| Category := "  ↳ " +:+ List.hd "" dvals;
     Value := raw_value dvals;
     Section_ := section_name;
     Source := "DeepSearch - Subrow Detail" |}.

Definition normal_record (section_name : string) (vals : list string)
    (term_hit : bool) : DataRow :=
  {| Category := List.hd "" vals;
     Value := raw_value vals;
     Section_ := section_name;
     Source := "DeepSearch - " +:+ (if term_hit then "Term" else "Keyword")
               +:+ " Match" |}.

(** The loop over [all_rows[idx+1:]] after a matching group row
    (lines 348-362). *)
Fixpoint subrow_details (section_name : string) (following : list Row)
    : list DataRow :=
  match following with
  | [] => []
  | det :: following' =>
      if is_subrow det then []                              (* break *)
      else
        match find_cells Td det with
        | [] => subrow_details section_name following'      (* continue *)
        | dtds =>
            let dvals := map (fun c => Py.strip (cell_text c)) dtds in
            detail_record section_name dvals
            :: subrow_details section_name following'
        end
  end.

Section DeepSearch.

Variable headers : list string.
Variable data_start_idx : nat.
Variable search_terms_list keywords_list : list string.
Variable section_name : string.

(** Whether the cell values of a row satisfy the query: [(term_hit, key_hit)]. *)
Definition row_hits (vals : list string) : bool * bool :=
  let full := full_text headers vals in
  let simple := simple_text vals in
  let th := term_hit search_terms_list full simple in
  (th, key_hit keywords_list th full simple).

(** One turn of the loop over [enumerate(all_rows)] (lines 297-371): what
    row [idx] adds to [found]; [following] is [all_rows[idx+1:]]. *)
Definition search_row (idx : nat) (row : Row) (following : list Row)
    : list DataRow :=
  if (idx <? data_start_idx)%nat then []
  else
    match find_cells Td row with
    | [] => []
    | cells =>
        let vals := map cell_value cells in
        let '(th, kh) := row_hits vals in
        if negb (th || kh) then []
        else if is_subrow row then
          group_record section_name vals
          :: subrow_details section_name following
        else [normal_record section_name vals th]
    end.

Fixpoint search_rows (idx : nat) (rows : list Row) : list DataRow :=
  match rows with
  | [] => []
  | row :: following =>
      search_row idx row following ++ search_rows (S idx) following
  end.

End DeepSearch.

Definition search_section_marker (section_name : string) : DataRow :=
  {| Category := "--- " +:+ section_name +:+ " - SEARCH RESULTS IN TABLE ---";
     Value := "";
     Section_ := section_name;
     Source := "Deep Table Search Section Header" |}.

(** [deep_search_in_table_static] (lines 270-393). *)
Definition deep_search_in_table_static (table_element : Table)
    (table_index : nat) (headers_cache : gmap nat (list string * nat))
    (search_terms_list keywords_list : list string) (section_name : string)
    : Emit bool :=
  let '(headers, data_start_idx) :=
    default ([], 0) (headers_cache !! table_index) in
  match table_rows table_element with
  | [] => ret false
  | all_rows =>
      let found :=
        search_rows headers data_start_idx search_terms_list keywords_list
          section_name 0 all_rows in
      match found with
      | [] => ret false
      | _ =>
          append (search_section_marker section_name) ;;
          emit_cached_header_row headers section_name ;;
          extend found ;;
          ret true
      end
  end.

(** ** TableRecordFormatter *)

(** [re.compile(r'^\d{4}-\d{4}$').match(s)]: four digits, a dash, four
    digits, then the end of the string or one final newline. *)
Definition year_pattern_match (s : string) : bool :=
  match s with
  | String d1 (String d2 (String d3 (String d4 (String dash
      (String d5 (String d6 (String d7 (String d8 rest)))))))) =>
      Py.is_digit d1 && Py.is_digit d2 && Py.is_digit d3 && Py.is_digit d4
      && Ascii.eqb dash "-"
      && Py.is_digit d5 && Py.is_digit d6 && Py.is_digit d7 && Py.is_digit d8
      && (String.eqb rest "" || String.eqb rest (String "010" ""))
  | _ => false
  end.

(** [[h for h in headers[1:] if year_pattern.match(str(h).strip())]]
    (line 401). *)
Definition year_headers_of (headers : list string) : list string :=
  List.filter (fun h => year_pattern_match (Py.strip h)) (List.tl headers).

(** A cell that carries a value: [val and val != "-"]. *)
Definition present (val : string) : bool :=
  Py.truthy val && negb (String.eqb val "-").

(** The loop [for idx, year in enumerate(year_headers, start=1)]
    (lines 414-418), started at [idx]. *)
Fixpoint year_parts (idx : nat) (year_headers row : list string) : list string :=
  match year_headers with
  | [] => []
  | year :: years =>
      match row !! idx with
      | Some cell =>
          let val := Py.strip cell in
          if present val
          then (year +:+ ": " +:+ val) :: year_parts (S idx) years row
          else year_parts (S idx) years row
      | None => year_parts (S idx) years row
      end
  end.

(** One turn of the multi-year loop (lines 408-426). *)
Definition multi_year_row (year_headers : list string)
    (section_name source_description : string) (row : list string)
    : list DataRow :=
  match row with
  | [] | [_] => []                      (* not row or len(row) < 2 *)
  | row0 :: _ =>
      let category := Py.strip row0 in
      match year_parts 1 year_headers row with
      | [] => []
      | parts =>
          [ {| Category := category;
               Value := Py.join "; " parts;
               Section_ := section_name;
               Source := source_description +:+ " (all years)" |} ]
      end
  end.

(** One turn of the label-based loop (lines 436-445). *)
Definition label_row (section_name source_description : string)
    (row : list string) : list DataRow :=
  match row with
  | [] => []
  | row0 :: cells =>
      let label := Py.strip row0 in
      let values :=
        map Py.strip
          (List.filter
             (fun v => Py.truthy (Py.strip v) && negb (String.eqb v "-"))
             cells) in
      [ {| Category := label;
           Value := Py.join "; " values;
           Section_ := section_name;
           Source := source_description |} ]
  end.

(** The loop [for col_idx, cell in enumerate(row[1:], start=1)]
    (lines 455-461), started at [col_idx]. *)
Fixpoint columnar_parts (headers : list string) (col_idx : nat)
    (cells : list string) : list string :=
  match cells with
  | [] => []
  | cell :: cells' =>
      let val := Py.strip cell in
      if negb (present val) then columnar_parts headers (S col_idx) cells'
      else
        let hdr :=
          match headers !! col_idx with
          | Some h =>
              if Py.truthy (Py.strip h) then Py.strip h
              else "Col" +:+ Py.of_nat col_idx
          | None => "Col" +:+ Py.of_nat col_idx
          end in
        (hdr +:+ ": " +:+ val) :: columnar_parts headers (S col_idx) cells'
  end.

(** One turn of the standard columnar loop (lines 451-469); the
    ["Unnamed"] alternative of line 453 is behind [if not row: continue]. *)
Definition columnar_row (headers : list string)
    (section_name source_description : string) (row : list string)
    : list DataRow :=
  match row with
  | [] => []
  | row0 :: cells =>
      let category := Py.strip row0 in
      match columnar_parts headers 1 cells with
      | [] => []
      | parts =>
          [ {| Category := category;
               Value := Py.join "; " parts;
               Section_ := section_name;
               Source := source_description |} ]
      end
  end.

(** [is_label_based] (line 432). *)
Definition is_label_based (headers : list string) : bool :=
  match headers with
  | [] => true
  | [h0] => negb (Py.truthy (Py.strip h0))
  | _ => false
  end.

(** [add_table_to_data_static] (lines 395-469). *)
Definition add_table_to_data_static (headers : list string)
    (data_rows : list (list string)) (section_name source_description : string)
    : Emit unit :=
  let year_headers := year_headers_of headers in
  match year_headers with
  | _ :: _ =>
      for_each data_rows
        (fun row =>
           extend (multi_year_row year_headers section_name source_description row))
  | [] =>
      if is_label_based headers then
        for_each data_rows
          (fun row => extend (label_row section_name source_description row))
      else
        for_each data_rows
          (fun row =>
             extend (columnar_row headers section_name source_description row))
  end.

(** ** Whole-table emission *)

(** The data rows of a table (lines 497-501): the stripped [<td>] texts of
    each row from [data_start_idx] on that has a [<td>]. *)
Definition collect_data_rows (data_start_idx : nat) (all_rows : list Row)
    : list (list string) :=
  flat_map
    (fun row =>
       match find_cells Td row with
       | [] => []
       | cells => [map (fun c => Py.strip (cell_text c)) cells]
       end)
    (drop data_start_idx all_rows).

Definition entire_table_marker (section_name : string) (index : nat) : DataRow :=
  {| Category := "--- " +:+ section_name +:+ " - ENTIRE TABLE "
                 +:+ Py.of_nat (index + 1) +:+ " CONTENT ---";
     Value := "";
     Section_ := section_name;
     Source := "Full Table " +:+ Py.of_nat (index + 1) +:+ " (Header)" |}.

(** One turn of the row loop (lines 517-526). *)
Definition raw_row_record (section_name : string) (index : nat)
    (row_vals : list string) : DataRow :=
  let cat := Py.or_else (Py.strip (List.hd "" row_vals)) "blank" in
  let vals := map blank_if_absent (List.tl row_vals) in
  {| Category := cat;
     Value := Py.or_else (Py.join "; " vals) "blank";
     Section_ := section_name;
     Source := "Full Table " +:+ Py.of_nat (index + 1) |}.

(** [process_regular_table_static] (lines 472-534). *)
Definition process_regular_table_static (table_element : Table) (index : nat)
    (headers_cache : gmap nat (list string * nat)) (section_name : string)
    : Emit bool :=
  let '(headers, data_start_idx) := default ([], 0) (headers_cache !! index) in
  match table_rows table_element with
  | [] => ret false
  | all_rows =>
      match collect_data_rows data_start_idx all_rows with
      | [] => ret false
      | data_rows =>
          append (entire_table_marker section_name index) ;;
          emit_cached_header_row headers section_name ;;
          for_each data_rows
            (fun row_vals => append (raw_row_record section_name index row_vals)) ;;
          ret true
      end
  end.

(** ** Discovery of matching data tables *)

(** [combined_searchable_text] of a table (lines 746-778). *)
Definition combined_searchable_text (table_element : Table)
    (section_name : string) : string :=
  let texts_to_check :=
    [Py.lower (tbl_text table_element)]
    ++ map Py.lower (tbl_captions table_element)
    ++ map (fun th_element => Py.lower (cell_text th_element))
           (thead_ths table_element)
    ++ (if Py.truthy section_name
           && negb (Py.contains "Unknown Section" section_name)
        then [Py.lower section_name] else []) in
  Py.join " " (List.filter Py.truthy texts_to_check).

(** The match decision of one table (lines 786-801): the reason, if any. *)
Definition table_match_reason (search_terms_list keywords_list : list string)
    (combined : string) : option string :=
  match List.find (fun term => Py.contains (Py.lower term) combined)
                  search_terms_list with
  | Some term =>
      Some ("exact_term '" +:+ term +:+ "' in table_text/caption/thead/section")
  | None =>
      match keywords_list with
      | [] => None
      | _ =>
          if keyword_match_static combined keywords_list
          then Some "all_keywords in table_text/caption/thead/section"
          else None
      end
  end.

(** [find_matching_tables_static] (lines 733-820). *)
Definition find_matching_tables_static (driver : Driver)
    (all_tables_on_page : list Table)
    (search_terms_list keywords_list section_titles_on_page : list string)
    : list MatchInfo :=
  fold_left
    (fun matching_tables_info '(i, table_element) =>
       let section_name :=
         determine_section_static driver table_element section_titles_on_page in
       let combined := combined_searchable_text table_element section_name in
       match table_match_reason search_terms_list keywords_list combined with
       | None => matching_tables_info
       | Some match_reason =>
           let is_already_added :=
             existsb (fun info => (mi_index info =? i)%nat) matching_tables_info in
           if is_already_added then matching_tables_info
           else matching_tables_info
                ++ [ {| mi_index := i; mi_element := table_element;
                        mi_match_type := match_reason;
                        mi_section := section_name |} ]
       end)
    (Py.enumerate 0 all_tables_on_page) [].

(** ** Discovery of matching graph widgets *)

(** The first definition of [find_matching_graph_tables_static]
    (lines 664-730).  The module binds the name a second time at line 822,
    so no call reaches this one. *)
Module Shadowed.

(** [" ".join(img.get_attribute("alt") or "" for img in imgs).strip().lower()]. *)
Definition graph_alt_text (container : Table) : string :=
  Py.lower
    (Py.strip
       (Py.join " "
          (map (fun img => Py.attr_or_empty (img_alt img))
               (table_imgs container)))).

(** The three tests of one widget (lines 686-724): its match type. *)
Definition graph_match_type (search_terms_list : list string)
    (alt_text : string) : option string :=
  let matched_term :=
    List.find (fun term => Py.contains (Py.lower term) alt_text)
              search_terms_list in
  let by_heuristics :=
    if Py.contains "%" alt_text then Some "percent_graph"
    else if Py.truthy alt_text then Some "any_graph_with_alt"
    else None in
  match matched_term with
  | Some term =>
      if Py.truthy term
      then Some ("term_match_graph (" +:+ term +:+ ")")
      else by_heuristics
  | None => by_heuristics
  end.

Definition find_matching_graph_tables_static (driver : Driver)
    (all_graph_elements_on_page : list Table)
    (search_terms_list keywords_list section_titles_on_page : list string)
    : list MatchInfo :=
  flat_map
    (fun '(idx, container) =>
       let section_name :=
         determine_section_static driver container section_titles_on_page in
       match graph_match_type search_terms_list (graph_alt_text container) with
       | Some match_type =>
           [ {| mi_index := idx; mi_element := container;
                mi_match_type := match_type; mi_section := section_name |} ]
       | None => []
       end)
    (Py.enumerate 0 all_graph_elements_on_page).

End Shadowed.

(** [find_element(By.CSS_SELECTOR, "thead th, caption").text]: the first
    such element in document order, a caption coming before the header. *)
Definition first_title_element (container_element : Table) : option string :=
  match tbl_captions container_element with
  | caption :: _ => Some caption
  | [] =>
      match thead_ths container_element with
      | th :: _ => Some (cell_text th)
      | [] => None
      end
  end.

(** [title_text] (lines 831-840). *)
Definition graph_title_text (container_element : Table) : string :=
  let title_text :=
    match first_title_element container_element with
    | Some t => Py.lower (Py.strip t)
    | None => ""
    end in
  if Py.truthy title_text then title_text
  else
    match tbl_svg_title container_element with
    | Some t => Py.lower (Py.strip t)
    | None => title_text
    end.

(** [alt_text] (lines 841-844). *)
Definition graph_alt_text (container_element : Table) : string :=
  Py.strip
    (fold_left
       (fun alt_text img =>
          let a := Py.lower (Py.strip (Py.attr_or_empty (img_alt img))) in
          if Py.truthy a then alt_text +:+ a +:+ " " else alt_text)
       (table_imgs container_element) "").

(** The tests of one widget (lines 849-863): its match type. *)
Definition graph_match_type (search_terms_list keywords_list : list string)
    (title_text alt_text container_text : string) : option string :=
  let matched_term :=
    List.find
      (fun term =>
         Py.contains (Py.lower term) title_text
         || Py.contains (Py.lower term) alt_text
         || Py.contains (Py.lower term) container_text)
      search_terms_list in
  let by_keywords :=
    match keywords_list with
    | [] => None
    | _ =>
        if keyword_match_static container_text keywords_list
           || keyword_match_static title_text keywords_list
           || keyword_match_static alt_text keywords_list
        then Some "keyword_graph" else None
    end in
  match matched_term with
  | Some term =>
      if Py.truthy term
      then Some ("term_match_graph (" +:+ term +:+ ")")
      else by_keywords
  | None => by_keywords
  end.

(** [find_matching_graph_tables_static] as the module binds it
    (lines 822-865). *)
Definition find_matching_graph_tables_static (driver : Driver)
    (all_graph_elements_on_page : list Table)
    (search_terms_list keywords_list section_titles_on_page : list string)
    : list MatchInfo :=
  flat_map
    (fun '(idx, container_element) =>
       let section_name :=
         determine_section_static driver container_element
           section_titles_on_page in
       let title_text := graph_title_text container_element in
       let alt_text := graph_alt_text container_element in
       let container_text := Py.lower (Py.strip (tbl_text container_element)) in
       match graph_match_type search_terms_list keywords_list
               title_text alt_text container_text with
       | Some match_type =>
           [ {| mi_index := idx; mi_element := container_element;
                mi_match_type := match_type; mi_section := section_name |} ]
       | None => []
       end)
    (Py.enumerate 0 all_graph_elements_on_page).

(** ** GraphExtractor and the orchestrator *)

(** [img_info] and [graph_data_dict] of [extract_graph_data_static]. *)
Record ImgInfo : Type :=
  { info_alt : string; info_src : string;
    info_extracted_data : list (string * string) }.

Record GraphData : Type :=
  { graph_title : string; graph_images : list ImgInfo;
    graph_text_data : list (string * string) }.

(** [d[k] = v] on a dict kept in insertion order. *)
Fixpoint dict_set (k v : string) (d : list (string * string))
    : list (string * string) :=
  match d with
  | [] => [(k, v)]
  | (k', v') :: d' =>
      if String.eqb k k' then (k, v) :: d' else (k', v') :: dict_set k v d'
  end.

(** [table.get_attribute("class") or ""] contains ["graphtabs"]. *)
Definition is_graph_table (t : Table) : bool :=
  Py.contains "graphtabs" (Py.attr_or_empty (tbl_class t)).

Section Orchestrator.

(** The regular-expression engine, at its one use (lines 562-565):
    [percent_after TERM alt_upper] is group 1 of
    [re.search(rf"{re.escape(TERM)}.*?(\d+(?:\.\d+)?)%", alt_upper)]. *)
Variable percent_after : string -> string -> option string.

(** [extract_graph_data_static] (lines 537-576). *)
Definition extract_graph_data_static (table_element_or_container : Table)
    (search_terms_list : list string) : GraphData :=
  let title :=
    match thead_ths table_element_or_container with
    | th :: _ => Py.strip (cell_text th)
    | [] => "Unknown Graph"
    end in
  let images_data_list :=
    flat_map
      (fun img_element =>
         let alt := Py.attr_or_empty (img_alt img_element) in
         let alt_upper := Py.upper alt in
         let extracted_data :=
           fold_left
             (fun d metric_term =>
                match percent_after (Py.upper metric_term) alt_upper with
                | Some group1 => dict_set metric_term group1 d
                | None => d
                end)
             search_terms_list [] in
         match extracted_data, Py.truthy alt with
         | [], false => []
         | _, _ =>
             [ {| info_alt := alt;
                  info_src := Py.attr_or_empty (img_src img_element);
                  info_extracted_data := extracted_data |} ]
         end)
      (table_imgs table_element_or_container) in
  {| graph_title := title; graph_images := images_data_list;
     graph_text_data := [] |}.

(** [process_graph_table_static] (lines 578-662). *)
Definition process_graph_table_static (graph_element : Table) (index : nat)
    (section_name : string) (search_terms_list : list string) : Emit unit :=
  let graph_data := extract_graph_data_static graph_element search_terms_list in
  let title_known := negb (String.eqb (graph_title graph_data) "Unknown Graph") in
  let has_data :=
    title_known
    || match graph_images graph_data with [] => false | _ => true end
    || match graph_text_data graph_data with [] => false | _ => true end in
  if negb has_data then ret tt
  else
    let source_prefix :=
      "Graph " +:+ Py.of_nat (index + 1) +:+ " ("
      +:+ graph_title graph_data +:+ ")" in
    append {| Category := "--- " +:+ section_name +:+ " - " +:+ source_prefix
                          +:+ " ---";
              Value := "";
              Section_ := section_name;
              Source := source_prefix +:+ " (Header)" |} ;;
    (if title_known then
       append {| Category := "Graph Title"; Value := graph_title graph_data;
                 Section_ := section_name; Source := source_prefix |}
     else ret tt) ;;
    for_each (Py.enumerate 1 (graph_images graph_data))
      (fun '(j, img) =>
         (if Py.truthy (info_alt img) then
            append {| Category := "Image " +:+ Py.of_nat j +:+ " Description";
                      Value := info_alt img;
                      Section_ := section_name; Source := source_prefix |}
          else ret tt) ;;
         for_each (info_extracted_data img)
           (fun '(metric, val) =>
              let text_val :=
                if negb (Py.endswith "%" val)
                   && Py.isdigit (Py.drop_first_dot val)
                then val +:+ "%" else val in
              append {| Category := metric; Value := text_val;
                        Section_ := section_name;
                        Source := source_prefix +:+ " - Image "
                                  +:+ Py.of_nat j |})) ;;
    for_each (graph_text_data graph_data)
      (fun '(label, val) =>
         append {| Category := label; Value := val;
                   Section_ := section_name;
                   Source := source_prefix +:+ " - Text Data" |}).

(** One turn of the loop over [matching_tables_info] (lines 880-902): deep
    search first, the whole table when it finds nothing. *)
Definition process_matched_table (processing_input : Query)
    (headers_cache : gmap nat (list string * nat)) (tbl : MatchInfo)
    : Emit bool :=
  let el := mi_element tbl in
  let idx := mi_index tbl in
  let sect := mi_section tbl in
  let* deep :=
    deep_search_in_table_static el idx headers_cache
      (search_terms processing_input) (keywords processing_input) sect in
  if deep then ret true
  else process_regular_table_static el idx headers_cache sect.

(** [process_matching_elements_static] (lines 868-917). *)
Definition process_matching_elements_static
    (matching_tables_info matching_graphs_info : list MatchInfo)
    (processing_input : Query) (headers_cache : gmap nat (list string * nat))
    : Emit bool :=
  let search_terms := search_terms processing_input in
  let* from_tables :=
    for_any matching_tables_info
      (process_matched_table processing_input headers_cache) in
  let* from_graphs :=
    for_any matching_graphs_info
      (fun g =>
         process_graph_table_static (mi_element g) (mi_index g)
           (mi_section g) search_terms ;;
         ret true) in
  ret (from_tables || from_graphs).

(** The deep-search pass of the fallback (lines 933-943). *)
Definition fallback_deep_search (driver : Driver)
    (all_page_tables : list Table) (processing_input : Query)
    (section_titles_on_page : list string)
    (headers_cache : gmap nat (list string * nat)) : Emit bool :=
  for_any (Py.enumerate 0 all_page_tables)
    (fun '(i, tbl) =>
       let sect := determine_section_static driver tbl section_titles_on_page in
       deep_search_in_table_static tbl i headers_cache
         (search_terms processing_input) (keywords processing_input) sect).

(** [kw_tables] (lines 947-952). *)
Definition kw_tables_of (driver : Driver) (all_page_tables : list Table)
    (keywords : list string) (section_titles_on_page : list string)
    : list (nat * Table * string) :=
  flat_map
    (fun '(i, tbl) =>
       let sect := determine_section_static driver tbl section_titles_on_page in
       if keyword_match_static (Py.lower (tbl_text tbl)) keywords
       then [(i, tbl, sect)] else [])
    (Py.enumerate 0 all_page_tables).

(** One turn of the loop over [kw_tables] (lines 954-969). *)
Definition keyword_fallback_table (headers_cache : gmap nat (list string * nat))
    (entry : nat * Table * string) : Emit unit :=
  let '(idx, tbl, sect) := entry in
  append (search_section_marker sect) ;;
  process_regular_table_static tbl idx headers_cache sect ;;
  ret tt.

(** [handle_no_matches_static] (lines 920-969). *)
Definition handle_no_matches_static (driver : Driver)
    (all_page_tables : list Table) (all_page_graph_elements : list MatchInfo)
    (processing_input : Query) (section_titles_on_page : list string)
    (headers_cache : gmap nat (list string * nat)) : Emit unit :=
  let keywords := keywords processing_input in
  let* deep_found :=
    fallback_deep_search driver all_page_tables processing_input
      section_titles_on_page headers_cache in
  match deep_found, keywords with
  | false, _ :: _ =>
      for_each
        (kw_tables_of driver all_page_tables keywords section_titles_on_page)
        (keyword_fallback_table headers_cache)
  | _, _ => ret tt
  end.

(** [headers_cache] (lines 1025-1029). *)
Definition build_headers_cache (data_tables : list Table)
    : gmap nat (list string * nat) :=
  fold_left
    (fun cache '(i, tbl) =>
       let rows := table_rows tbl in
       <[ i := get_table_headers_and_data_start_idx_static tbl rows ]> cache)
    (Py.enumerate 0 data_tables) ∅.

(** [find_and_process_tables_graphs_static] (lines 1012-1091). *)
Definition find_and_process_tables_graphs_static (driver : Driver)
    (processing_input : Query) (section_titles_on_page : list string)
    : Emit unit :=
  let all_tables := page_tables driver in
  let graph_tables := List.filter is_graph_table all_tables in
  let data_tables := List.filter (fun t => negb (is_graph_table t)) all_tables in
  let headers_cache := build_headers_cache data_tables in
  let matching_tables :=
    find_matching_tables_static driver data_tables
      (search_terms processing_input) (keywords processing_input)
      section_titles_on_page in
  let matching_graphs :=
    find_matching_graph_tables_static driver graph_tables
      (search_terms processing_input) (keywords processing_input)
      section_titles_on_page in
  let* added_tables :=
    match matching_tables with
    | [] => ret false
    | _ => process_matching_elements_static matching_tables []
             processing_input headers_cache
    end in
  let* added_graphs :=
    match matching_graphs with
    | [] => ret false
    | _ => process_matching_elements_static [] matching_graphs
             processing_input headers_cache
    end in
  let data_added := added_tables || added_graphs in
  if data_added then ret tt
  else
    handle_no_matches_static driver data_tables matching_graphs
      processing_input
      section_titles_on_page headers_cache.

End Orchestrator.

(** ** File names *)

(** [\w] of [re] on the ASCII range: a letter, a digit or the underscore;
    a byte above 127 stands for a letter. *)
Definition is_word_char (c : ascii) : bool :=
  let n := nat_of_ascii c in
  ((48 <=? n)%nat && (n <=? 57)%nat)
  || ((65 <=? n)%nat && (n <=? 90)%nat)
  || ((97 <=? n)%nat && (n <=? 122)%nat)
  || (n =? 95)%nat
  || (128 <=? n)%nat.

(** [re.sub(r'[^\w\s-]', '', text)]. *)
Fixpoint drop_punctuation (text : string) : string :=
  match text with
  | EmptyString => EmptyString
  | String c text' =>
      if is_word_char c || Py.is_space c || Ascii.eqb c "-"
      then String c (drop_punctuation text')
      else drop_punctuation text'
  end.

(** [re.sub(r'[-\s]+', '_', text)]: each maximal run of dashes and white
    space becomes one underscore; [in_run] tells that the previous character
    belonged to such a run. *)
Fixpoint underscore_runs (in_run : bool) (text : string) : string :=
  match text with
  | EmptyString => EmptyString
  | String c text' =>
      if Ascii.eqb c "-" || Py.is_space c then
        if in_run then underscore_runs true text'
        else String "_" (underscore_runs true text')
      else String c (underscore_runs false text')
  end.

(** [clean_filename_static] (lines 21-24). *)
Definition clean_filename_static (text : string) : string :=
  Py.lower (underscore_runs false (drop_punctuation text)).

(** ** General information *)

(** [worker_institution_info_dict]: the entries in insertion order. *)
Definition InfoDict : Type := list (string * string).

(** The filter of [add_general_info_to_data_static] (lines 240-250). *)
Definition should_add_section (info : InfoDict) (search_terms_list : list string)
    : bool :=
  match search_terms_list with
  | [] => true
  | _ =>
      existsb
        (fun '(key, value) =>
           let key_lower := Py.lower key in
           let value_lower := Py.lower value in
           existsb
             (fun term =>
                Py.contains (Py.lower term) key_lower
                || Py.contains (Py.lower term) value_lower)
             search_terms_list)
        info
  end.

Definition general_info_header : DataRow :=
  {| Category := "GENERAL INFORMATION"; Value := "";
     Section_ := "General Information"; Source := "Institution Dashboard" |}.

Definition general_info_record (entry : string * string) : DataRow :=
  {| Category := fst entry; Value := snd entry;
     Section_ := "General Information"; Source := "Institution Dashboard" |}.

(** [add_general_info_to_data_static] (lines 234-265); an absent list of
    search terms reads as the empty list. *)
Definition add_general_info_to_data_static (info : InfoDict)
    (search_terms_list : list string) : Emit unit :=
  match info with
  | [] => ret tt
  | _ =>
      if negb (should_add_section info search_terms_list) then ret tt
      else
        append general_info_header ;;
        for_each info (fun entry => append (general_info_record entry))
  end.

(** One turn of the loop of [check_general_info_for_search_static]
    (lines 994-1008). *)
Definition check_general_info_entry (search_terms_list keywords_list : list string)
    (entry : string * string) : list string :=
  let '(key, value) := entry in
  let combined_text := Py.lower key +:+ " " +:+ Py.lower value in
  match List.find (fun term => Py.contains (Py.lower term) combined_text)
                  search_terms_list with
  | Some term =>
      [ "'" +:+ key +:+ ": " +:+ value +:+ "' (Matched by term: '" +:+ term
        +:+ "')" ]
  | None =>
      match keywords_list with
      | [] => []
      | _ =>
          if keyword_match_static combined_text keywords_list
          then [ "'" +:+ key +:+ ": " +:+ value +:+ "' (Matched by keywords)" ]
          else []
      end
  end.

(** [check_general_info_for_search_static] (lines 988-1009). *)
Definition check_general_info_for_search_static (info : InfoDict)
    (search_terms_list keywords_list : list string) : list string :=
  flat_map (check_general_info_entry search_terms_list keywords_list) info.

(** ** The page of one institution *)

(** [all_page_section_titles] (lines 1101-1102). *)
Definition all_page_section_titles (driver : Driver) : list string :=
  List.filter Py.truthy
    (map (fun h => Py.strip (hdr_text h)) (page_tabtitles driver)).

(** The loop over the titles (lines 1108-1113); [started] is
    [valid_sections_started]. *)
Fixpoint titles_from_start (started : bool) (titles : list string) : list string :=
  match titles with
  | [] => []
  | title :: titles' =>
      if negb (Py.truthy title) then titles_from_start started titles'
      else
        let started' :=
          started || String.eqb (Py.upper title) "GENERAL INFORMATION" in
        if started' then title :: titles_from_start started' titles'
        else titles_from_start started' titles'
  end.

(** [section_titles_to_use] (lines 1105-1121). *)
Definition section_titles_to_use (driver : Driver) : list string :=
  let all_titles := all_page_section_titles driver in
  match titles_from_start false all_titles with
  | [] => all_titles
  | titles => titles
  end.

(** [process_institution_page_static] (lines 1094-1138). *)
Definition process_institution_page_static
    (percent_after : string -> string -> option string) (driver : Driver)
    (processing_input : Query) : Emit unit :=
  find_and_process_tables_graphs_static percent_after driver processing_input
    (section_titles_to_use driver).

(** Steps 6 and 8 of [scrape_college_data_worker] (lines 1187-1209): what
    the worker puts in [worker_all_data] once the page is loaded. *)
Definition collect_worker_data
    (percent_after : string -> string -> option string) (driver : Driver)
    (info : InfoDict) (user_overall_input : Query) : Emit unit :=
  add_general_info_to_data_static info (search_terms user_overall_input) ;;
  process_institution_page_static percent_after driver user_overall_input.

(** ** Keywords of a query *)

(** [s.split()]: the maximal runs of characters that are not white space. *)
Fixpoint split_words (s : string) : list string :=
  match s with
  | EmptyString => []
  | String c s' =>
      if Py.is_space c then split_words s'
      else
        match s' with
        | EmptyString => [String c EmptyString]
        | String c' _ =>
            if Py.is_space c' then String c EmptyString :: split_words s'
            else
              match split_words s' with
              | word :: words => String c word :: words
              | [] => [String c EmptyString]
              end
        end
  end.

(** [stop_words] (line 1280). *)
Definition stop_words : list string :=
  ["of"; "the"; "and"; "in"; "for"; "to"; "a"; "is"; "with"; "on"].

(** [meaningful_words] of one phrase (lines 1282-1283). *)
Definition meaningful_words (term_phrase : string) : list string :=
  List.filter
    (fun word => (2 <? String.length word)%nat && negb (Py.mem word stop_words))
    (split_words term_phrase).

(** [_extract_keywords] (lines 1278-1286): the set [all_keywords]; the list
    the method returns holds its elements in an order the source does not
    fix. *)
Definition extract_keywords (search_terms_list : list string) : gset string :=
  list_to_set (flat_map meaningful_words search_terms_list).

(** ** Vocabulary of the properties *)

(** [dtds] is not empty: the row has a [<td>]. *)
Definition has_td (row : Row) : bool :=
  match find_cells Td row with [] => false | _ :: _ => true end.

(** [vals] and [dvals] of a row: the values, resp. stripped texts, of its
    [<td>] cells. *)
Definition row_values (row : Row) : list string :=
  map cell_value (find_cells Td row).

Definition row_texts (row : Row) : list string :=
  map (fun c => Py.strip (cell_text c)) (find_cells Td row).

(** The rows after a group row up to, and excluding, the next group row. *)
Fixpoint detail_span (following : list Row) : list Row :=
  match following with
  | [] => []
  | det :: following' =>
      if is_subrow det then [] else det :: detail_span following'
  end.

(** A row satisfies the query: it has a [<td>] and its values hit a term
    or, failing that, all the keywords. *)
Definition row_matches (headers search_terms_list keywords_list : list string)
    (row : Row) : bool :=
  has_td row
  && (fst (row_hits headers search_terms_list keywords_list (row_values row))
      || snd (row_hits headers search_terms_list keywords_list (row_values row))).


(** The record the main scan emits for a matching row that is not a group
    row. *)
Definition normal_row_record (headers search_terms_list keywords_list : list string)
    (section_name : string) (row : Row) : DataRow :=
  normal_record section_name (row_values row)
    (fst (row_hits headers search_terms_list keywords_list (row_values row))).

(** The record emitted for a row of a matching group. *)
Definition detail_row_record (section_name : string) (det : Row) : DataRow :=
  detail_record section_name (row_texts det).

(** ** Sample pages *)

Definition td (text : string) : Cell :=
  {| cell_tag := Td; cell_text := text; cell_imgs := [] |}.

Definition th (text : string) : Cell :=
  {| cell_tag := Th; cell_text := text; cell_imgs := [] |}.

(** An empty [<td>] holding one image. *)
Definition td_img (text alt : string) : Cell :=
  {| cell_tag := Td; cell_text := text;
     cell_imgs := [ {| img_alt := Some alt; img_src := None |} ] |}.

Definition tr (cells : list Cell) : Row :=
  {| row_class := None; row_cells := cells |}.

Definition subrow_tr (cells : list Cell) : Row :=
  {| row_class := Some "subrow"; row_cells := cells |}.

(** A table without [<thead>], caption or class. *)
Definition plain_table (text : string) (rows : list Row) : Table :=
  {| tbl_class := None; tbl_text := text; tbl_captions := [];
     tbl_thead := None; tbl_body := rows; tbl_svg_title := None;
     tbl_y := Some 100%Z |}.

(** A group of tuition rows: a group row, three detail rows, the next
    group row. *)
Definition tuition_group : Row := subrow_tr [td "Tuition and fees"; td "2023"].
Definition tuition_details : list Row :=
  [ tr [td "In-state"; td "$9,000"];
    tr [td "Out-of-state"; td "-"];
    tr [td "Books"; td "$1,200"] ].
Definition housing_group : Row := subrow_tr [td "Housing"; td "2023"].

(** The same group with a header-only row among its detail rows. *)
Definition tuition_details_with_th_row : list Row :=
  [ tr [th "Undergraduate"]; tr [td "In-state"; td "$9,000"] ].

(** A dash cell read as an empty one. *)
Definition undash (v : string) : string := if String.eqb v "-" then "" else v.

(** A row of cell texts with the dashes after its first cell emptied. *)
Definition undash_tail (row : list string) : list string :=
  match row with
  | [] => []
  | row0 :: cells => row0 :: map undash cells
  end.

(** The text of a cell replaced, its tag and images kept. *)
Definition with_text (text : string) (c : Cell) : Cell :=
  {| cell_tag := cell_tag c; cell_text := text; cell_imgs := cell_imgs c |}.

(** A table with a matching group row and, in its span, a row that matches
    by itself. *)
Definition fees_table : Table :=
  plain_table "Tuition and fees"
    [ tr [td "Costs 2023"; td "Amount"];
      subrow_tr [td "Tuition and fees"; td "2023"];
      tr [td "Books"; td "$1,200"];
      tr [td "In-state tuition"; td "$9,000"];
      tr [td "Room"; td "-"] ].

(** Two rows that differ in one cell only, a dash against an empty text,
    the cell holding the same image. *)
Definition chart_row_empty : Row :=
  tr [td "Graduation"; td_img "" "Retention chart"].
Definition chart_row_dash : Row :=
  tr [td "Graduation"; td_img "-" "Retention chart"].

(** The cells the labels come from in the last [<thead>] row: its [<th>]
    cells or, when it has none, its [<td>] cells. *)
Definition thead_label_cells (last_row : Row) : list Cell :=
  match find_cells Th last_row with
  | [] => find_cells Td last_row
  | ths => ths
  end.

(** A table with a two-row [<thead>] and a first body row of [<th>] cells. *)
Definition enrollment_table : Table :=
  {| tbl_class := None; tbl_text := "Enrollment";
     tbl_captions := [];
     tbl_thead := Some [ tr [th "Enrollment"];
                         tr [th "Level"; th ""; th " Fall 2023 "] ];
     tbl_body := [ tr [th "Program"; th "Men"; th "Women"];
                   tr [td "Undergraduate"; td "1,200"; td "1,350"] ];
     tbl_svg_title := None; tbl_y := Some 100%Z |}.

(** *** The multi-year layout in the words of the specification *)

(** Modelled from the spec: section 4.4, mode 1, read column by column.
    Every header after the first that matches the year pattern is paired
    with the cell of the row under that header's own column [col]; the
    pair is kept when the cell is not empty and not a dash. *)
Fixpoint spec_year_pairs (col : nat) (headers_from_col row : list string)
    : list string :=
  match headers_from_col with
  | [] => []
  | h :: hs =>
      (if year_pattern_match (Py.strip h) then
         match row !! col with
         | Some cell => if present cell then [h +:+ ": " +:+ cell] else []
         | None => []
         end
       else [])
      ++ spec_year_pairs (S col) hs row
  end.

(** Modelled from the spec: the [(Category, Value)] of the record of one
    data row in mode 1, none when the row gives no pair. *)
Definition spec_multi_year_row (headers row : list string)
    : list (string * string) :=
  match row with
  | [] => []
  | row0 :: _ =>
      match spec_year_pairs 1 (List.tl headers) row with
      | [] => []
      | parts => [(row0, Py.join "; " parts)]
      end
  end.

(** [(Category, Value)] of a record. *)
Definition category_value (r : DataRow) : string * string :=
  (Category r, Value r).

(** Every header after the first is a year header. *)
Definition all_year_headers (headers : list string) : Prop :=
  Forall (fun h => year_pattern_match (Py.strip h) = true) (List.tl headers).

(** The text carries no outer white space, as a cell text read with
    [.text.strip()] does. *)
Definition stripped (v : string) : Prop := Py.strip v = v.

(** The retention table of the specification. *)
Definition retention_headers : list string :=
  ["Category"; "2020-2021"; "2021-2022"].
Definition retention_rows : list (list string) :=
  [ ["Retention rate"; "82%"; "85%"]; ["Transfer rate"; "-"; "-"] ].

(** A wide table with a column that is not a year before the year columns. *)
Definition program_headers : list string :=
  ["Program"; "Level"; "2019-2020"; "2020-2021"].
Definition program_rows : list (list string) :=
  [ ["Nursing"; "BS"; "120"; "135"] ].

(** *** Computations that only append *)

(** A computation leaves the records already in the list in place and puts
    its own after them. *)
Definition appends_only {A : Type} (m : Emit A) : Prop :=
  forall out : list DataRow, m out = (result m, out ++ emitted m).

(** The records of the whole-table emission of a table. *)
Definition regular_table_records (table_element : Table) (index : nat)
    (headers_cache : gmap nat (list string * nat)) (section_name : string)
    : list DataRow :=
  emitted (process_regular_table_static table_element index headers_cache
             section_name).

(** The records of the deep search of a table, and whether it matched. *)
Definition deep_search_records (table_element : Table) (table_index : nat)
    (headers_cache : gmap nat (list string * nat))
    (processing_input : Query) (section_name : string) : list DataRow :=
  emitted (deep_search_in_table_static table_element table_index headers_cache
             (search_terms processing_input) (keywords processing_input)
             section_name).

Definition deep_search_matched (table_element : Table) (table_index : nat)
    (headers_cache : gmap nat (list string * nat))
    (processing_input : Query) (section_name : string) : bool :=
  result (deep_search_in_table_static table_element table_index headers_cache
            (search_terms processing_input) (keywords processing_input)
            section_name).

(** A table under a section marker at offset 50, matched through the name
    of its section, with no row on retention. *)
Definition cost_table : Table :=
  plain_table "Total cost $25,000 Net price $18,500"
    [ tr [td "Total cost"; td "$25,000"]; tr [td "Net price"; td "$18,500"] ].

Definition retention_page : Driver :=
  {| page_tables := [cost_table];
     page_tabtitles := [ {| hdr_text := "Retention and Graduation Rates";
                            hdr_y := Some 50%Z |} ] |}.

Definition retention_query : Query :=
  {| search_terms := ["retention"]; keywords := ["retention"] |}.

(** A regular-expression engine that finds nothing. *)
Definition no_percent (term alt_upper : string) : option string := None.

Definition retention_titles : list string := ["Retention and Graduation Rates"].

(** The entry discovery records for [cost_table] on [retention_page]. *)
Definition cost_table_match : MatchInfo :=
  {| mi_index := 0; mi_element := cost_table;
     mi_match_type := "exact_term 'retention' in table_text/caption/thead/section";
     mi_section := "Retention and Graduation Rates" |}.

(** A table whose only row is a row of [<th>] cells. *)
Definition heading_only_table : Table :=
  plain_table "Retention rates" [ tr [th "Retention rates"] ].

(** *** The fallback cascade, table by table *)

(** What the deep-search pass of the fallback emits: the deep-search
    records of every table, in page order. *)
Definition fallback_deep_records (driver : Driver) (all_page_tables : list Table)
    (processing_input : Query) (section_titles_on_page : list string)
    (headers_cache : gmap nat (list string * nat)) : list DataRow :=
  flat_map
    (fun '(i, tbl) =>
       deep_search_records tbl i headers_cache processing_input
         (determine_section_static driver tbl section_titles_on_page))
    (Py.enumerate 0 all_page_tables).

(** What the keyword pass emits: for every table whose text holds all the
    keywords, the section marker, then the whole-table records. *)
Definition fallback_keyword_records (driver : Driver)
    (all_page_tables : list Table) (processing_input : Query)
    (section_titles_on_page : list string)
    (headers_cache : gmap nat (list string * nat)) : list DataRow :=
  flat_map
    (fun '(i, tbl) =>
       let sect := determine_section_static driver tbl section_titles_on_page in
       if keyword_match_static (Py.lower (tbl_text tbl))
            (keywords processing_input)
       then search_section_marker sect
            :: regular_table_records tbl i headers_cache sect
       else [])
    (Py.enumerate 0 all_page_tables).

(** A page whose table matches in a row only through the alt text of an
    image, which is no part of the text of the table. *)
Definition chart_table : Table := plain_table "Graduation" [chart_row_empty].
Definition chart_page : Driver :=
  {| page_tables := [chart_table]; page_tabtitles := [] |}.

(** A chart widget: one image, no title, no text of its own. *)
Definition graduation_chart : Table :=
  {| tbl_class := Some "graphtabs"; tbl_text := ""; tbl_captions := [];
     tbl_thead := None;
     tbl_body := [ tr [ td_img "" "Graduation rates: 45% overall" ] ];
     tbl_svg_title := None; tbl_y := Some 100%Z |}.

(** The same widget with an alt text that holds no percent sign. *)
Definition enrollment_chart : Table :=
  {| tbl_class := Some "graphtabs"; tbl_text := ""; tbl_captions := [];
     tbl_thead := None;
     tbl_body := [ tr [ td_img "" "Enrollment by level" ] ];
     tbl_svg_title := None; tbl_y := Some 100%Z |}.

(** Two tables whose [<thead>] gives no label: one with an empty header
    row, one without any header row. *)
Definition empty_thead_row_table : Table :=
  {| tbl_class := None; tbl_text := "Level"; tbl_captions := [];
     tbl_thead := Some [ tr [] ];
     tbl_body := [ tr [th "Level"; th "Men"] ];
     tbl_svg_title := None; tbl_y := Some 100%Z |}.

Definition empty_thead_table : Table :=
  {| tbl_class := None; tbl_text := "Level"; tbl_captions := [];
     tbl_thead := Some [];
     tbl_body := [ tr [th "Level"; th "Men"] ];
     tbl_svg_title := None; tbl_y := Some 100%Z |}.

(** *** Section markers *)

(** The distance from a section marker down to an element at [elem_y], when
    the marker qualifies: its stripped text is one of the titles, its
    position is known and it is not below the element. *)
Definition marker_distance (section_titles : list string) (elem_y : Z)
    (header : SectionHeader) : option Z :=
  if Py.mem (Py.strip (hdr_text header)) section_titles then
    match hdr_y header with
    | Some hdr_y =>
        if (0 <=? elem_y - hdr_y)%Z then Some (elem_y - hdr_y)%Z else None
    | None => None
    end
  else None.

(** A page with three section markers; a table between the second and the
    third. *)
Definition three_section_page : Driver :=
  {| page_tables := [cost_table];
     page_tabtitles :=
       [ {| hdr_text := "GENERAL INFORMATION"; hdr_y := Some 10%Z |};
         {| hdr_text := " Tuition, Fees "; hdr_y := Some 60%Z |};
         {| hdr_text := "Enrollment"; hdr_y := Some 400%Z |} ] |}.


(** The state of the loop of [determine_section_static] after the markers
    [hs]: still the initial one when none qualifies, else the first of the
    closest ones. *)
Definition located (section_titles : list string) (elem_y : Z)
    (hs : list SectionHeader) (st : string * option Z) : Prop :=
  (st = ("Unknown Section (No Match)", None)
   /\ Forall (fun h => marker_distance section_titles elem_y h = None) hs)
  \/ (exists pre h post d,
        hs = pre ++ h :: post
        /\ marker_distance section_titles elem_y h = Some d
        /\ st = (Py.strip (hdr_text h), Some d)
        /\ Forall (fun h' => forall d',
                     marker_distance section_titles elem_y h' = Some d' ->
                     (d < d')%Z) pre
        /\ Forall (fun h' => forall d',
                     marker_distance section_titles elem_y h' = Some d' ->
                     (d <= d')%Z) post).


(** *** Discovery, table by table *)

(** The entry discovery records for the table [table_element] of index [i],
    if it matches. *)
Definition table_match_info (driver : Driver)
    (search_terms_list keywords_list section_titles_on_page : list string)
    (i : nat) (table_element : Table) : list MatchInfo :=
  let section_name :=
    determine_section_static driver table_element section_titles_on_page in
  match table_match_reason search_terms_list keywords_list
          (combined_searchable_text table_element section_name) with
  | Some match_reason =>
      [ {| mi_index := i; mi_element := table_element;
           mi_match_type := match_reason; mi_section := section_name |} ]
  | None => []
  end.


(** *** What the matched elements add *)

Definition matched_tables_records (processing_input : Query)
    (headers_cache : gmap nat (list string * nat))
    (matching_tables_info : list MatchInfo) : list DataRow :=
  flat_map
    (fun tbl => emitted (process_matched_table processing_input headers_cache tbl))
    matching_tables_info.

Definition matched_graphs_records
    (percent_after : string -> string -> option string)
    (processing_input : Query) (matching_graphs_info : list MatchInfo)
    : list DataRow :=
  flat_map
    (fun g =>
       emitted (process_graph_table_static percent_after (mi_element g)
                  (mi_index g) (mi_section g) (search_terms processing_input)))
    matching_graphs_info.

(** A widget that discovery matches on its text and that carries no title
    and no image, beside a table that only the deep search matches. *)
Definition bare_widget : Table :=
  {| tbl_class := Some "graphtabs"; tbl_text := "Retention"; tbl_captions := [];
     tbl_thead := None; tbl_body := [ tr [td "Retention"] ];
     tbl_svg_title := None; tbl_y := Some 200%Z |}.

Definition chart_and_widget_page : Driver :=
  {| page_tables := [chart_table; bare_widget]; page_tabtitles := [] |}.


(** *** General information *)

(** An entry of the dictionary holds a search term, in its key or in its
    value, whatever the case. *)
Definition entry_holds_term (search_terms_list : list string)
    (entry : string * string) : Prop :=
  exists term,
    In term search_terms_list
    /\ (Py.Infix (Py.lower term) (Py.lower (fst entry))
        \/ Py.Infix (Py.lower term) (Py.lower (snd entry))).

(** The dashboard of an institution. *)
Definition sample_info : InfoDict :=
  [ ("Institution Name", "Example State University");
    ("Location", "Springfield");
    ("Student-to-faculty ratio", "17 to 1") ].


(** *** Section titles and file names *)

(** The title opens the valid sections: it reads "GENERAL INFORMATION"
    once upper-cased. *)
Definition is_start_title (title : string) : bool :=
  String.eqb (Py.upper title) "GENERAL INFORMATION".

(** Every character of a string satisfies a test. *)
Fixpoint string_all (p : ascii -> bool) (s : string) : bool :=
  match s with
  | EmptyString => true
  | String c s' => p c && string_all p s'
  end.

Definition is_ascii (c : ascii) : bool := (nat_of_ascii c <? 128)%nat.

(** A lower-case letter, a digit or the underscore. *)
Definition is_filename_char (c : ascii) : bool :=
  let n := nat_of_ascii c in
  ((48 <=? n)%nat && (n <=? 57)%nat)
  || ((97 <=? n)%nat && (n <=? 122)%nat)
  || (n =? 95)%nat.


(** *** Graph widgets *)

(** An image that gives a widget nothing: no alt text, and no search term
    followed by a percentage in it. *)
Definition silent_image (percent_after : string -> string -> option string)
    (search_terms_list : list string) (img : Img) : Prop :=
  Py.attr_or_empty (img_alt img) = ""
  /\ Forall
       (fun term =>
          percent_after (Py.upper term)
            (Py.upper (Py.attr_or_empty (img_alt img))) = None)
       search_terms_list.


(** *** Absent values *)

(** How the deep search and the whole-table emission write the text of one
    cell in a Value: "blank" for an empty text and for a dash, the text
    itself otherwise. *)
Definition piece_of (v piece : string) : Prop :=
  ((v = "" \/ v = "-") /\ piece = "blank")
  \/ (v <> "" /\ v <> "-" /\ piece = v).

(** The Value of a row of the deep search: the cells after the first, each
    written so, joined by "; ". *)
Definition value_of_cells (vals : list string) (value : string) : Prop :=
  exists pieces : list string,
    Forall2 piece_of (List.tl vals) pieces /\ value = Py.join "; " pieces.

(** The Value of a row of the whole-table emission: the same, "blank" when
    the row has no cell after the first. *)
Definition value_or_blank_of_cells (vals : list string) (value : string) : Prop :=
  exists pieces : list string,
    Forall2 piece_of (List.tl vals) pieces
    /\ value = match pieces with [] => "blank" | _ => Py.join "; " pieces end.

(** *** A table that only the keyword pass selects *)

(** The text of the table holds both keywords, no row of it does, and no
    row holds the search term. *)
Definition rates_table : Table :=
  plain_table "Retention 82% Rate -"
    [ tr [td "Retention"; td "82%"]; tr [td "Rate"; td "-"] ].

Definition rates_page : Driver :=
  {| page_tables := [rates_table]; page_tabtitles := [] |}.

Definition rates_query : Query :=
  {| search_terms := ["retention rate"]; keywords := ["retention"; "rate"] |}.

Definition heading_only_page : Driver :=
  {| page_tables := [heading_only_table]; page_tabtitles := [] |}.


(** * Properties *)

(** ** Substring search *)

Lemma append_assoc (a b c : string) : (a +:+ b) +:+ c = a +:+ b +:+ c.
Proof. induction a as [|x a IH]; simpl; [reflexivity | now f_equal]. Qed.

Lemma append_empty_r (a : string) : a +:+ "" = a.
Proof. induction a as [|x a IH]; simpl; [reflexivity | now f_equal]. Qed.

Lemma startswith_spec (p s : string) :
  Py.startswith p s = true <-> exists post, s = p +:+ post.
Proof.
  revert s. induction p as [|a p IH]; intros s; simpl.
  - split; [intros _; now exists s | reflexivity].
  - destruct s as [|b s].
    + split; [discriminate | intros [post H]; discriminate].
    + rewrite andb_true_iff, Ascii.eqb_eq, IH. split.
      * intros [-> [post ->]]. now exists post.
      * intros [post H]. injection H as -> ->. split; [reflexivity | now exists post].
Qed.

Lemma contains_spec (needle hay : string) :
  Py.contains needle hay = true <-> Py.Infix needle hay.
Proof.
  unfold Py.Infix. induction hay as [|c hay IH].
  - simpl. rewrite orb_false_r, startswith_spec. split.
    + intros [post H]. now exists "", post.
    + intros [pre [post H]]. destruct pre; [now exists post | discriminate].
  - cbn [Py.contains]. rewrite orb_true_iff, startswith_spec, IH. split.
    + intros [[post H] | [pre [post H]]].
      * now exists "", post.
      * exists (String c pre), post. simpl. now rewrite H.
    + intros [pre [post H]]. destruct pre as [|x pre].
      * left. now exists post.
      * right. simpl in H. injection H as _ H. now exists pre, post.
Qed.

Lemma contains_false (needle hay : string) :
  Py.contains needle hay = false <-> ~ Py.Infix needle hay.
Proof.
  rewrite <- contains_spec. destruct (Py.contains needle hay); split; auto;
    try discriminate. intros H. now contradiction H.
Qed.

Lemma Infix_refl (s : string) : Py.Infix s s.
Proof. exists "", "". simpl. now rewrite append_empty_r. Qed.

Lemma Infix_empty (s : string) : Py.Infix "" s.
Proof. now exists "", s. Qed.

(** ** TextClassifier *)

Lemma keyword_match_static_iff (text : string) (kws : list string) :
  keyword_match_static text kws = true <->
  kws <> [] /\ Forall (fun k => Py.Infix (Py.lower k) (Py.lower text)) kws.
Proof.
  unfold keyword_match_static. destruct kws as [|k kws].
  - split; [discriminate | intros [H _]; now contradiction H].
  - rewrite forallb_forall, Forall_forall. split.
    + intros H. split; [discriminate |]. intros x Hx.
      apply contains_spec, H. now apply list_elem_of_In.
    + intros [_ H] x Hx. apply contains_spec, H. now apply list_elem_of_In.
Qed.

Lemma term_match_static_iff (text_lower : string) (terms : list string) :
  term_match_static text_lower terms = true <->
  Exists (fun t => Py.Infix (Py.lower t) text_lower) terms.
Proof.
  unfold term_match_static. rewrite existsb_exists, Exists_exists. split.
  - intros [x [Hx H]]. exists x. split; [now apply list_elem_of_In | now apply contains_spec].
  - intros [x [Hx H]]. exists x. split; [now apply list_elem_of_In | now apply contains_spec].
Qed.

Lemma term_hit_is_term_match (terms : list string) (full simple : string) :
  term_hit terms full simple
  = term_match_static full terms || term_match_static simple terms.
Proof.
  unfold term_hit, term_match_static.
  induction terms as [|t terms IH]; simpl; [reflexivity |].
  rewrite IH.
  destruct (Py.contains (Py.lower t) full), (Py.contains (Py.lower t) simple);
    simpl; try reflexivity.
  repeat match goal with
         | |- context [existsb ?f terms] => destruct (existsb f terms)
         end; reflexivity.
Qed.

(** C5.  [keyword_match_static] is true exactly when the keyword list is
    not empty and every keyword, lower-cased, is a substring of the
    lower-cased text, so it is false on an empty keyword list; the term test
    is true exactly when some term, lower-cased, is a substring of the
    lower-cased text, and it is the test DeepRowSearch applies to each of
    its two strings.  With the keywords "retention" and "rate", in either
    order, a text with "retention" and without "rate" does not match, and a
    text that contains both matches wherever they stand. *)
Theorem C5_keyword_and_term_semantics :
  (forall text kws,
      keyword_match_static text kws = true <->
      kws <> [] /\ Forall (fun k => Py.Infix (Py.lower k) (Py.lower text)) kws)
  /\ (forall text, keyword_match_static text [] = false)
  /\ (forall text terms,
        term_match_static (Py.lower text) terms = true <->
        Exists (fun t => Py.Infix (Py.lower t) (Py.lower text)) terms)
  /\ (forall terms full simple,
        term_hit terms full simple
        = term_match_static full terms || term_match_static simple terms)
  /\ (forall text kws,
        kws = ["retention"; "rate"] \/ kws = ["rate"; "retention"] ->
        (keyword_match_static text kws = true <->
         Py.Infix "retention" (Py.lower text) /\ Py.Infix "rate" (Py.lower text)))
  /\ keyword_match_static "Student retention, first year" ["retention"; "rate"]
     = false
  /\ keyword_match_static "Retention Rate" ["retention"; "rate"] = true
  /\ keyword_match_static "The RATE of first-year retention" ["retention"; "rate"]
     = true.
Proof.
  split; [exact keyword_match_static_iff |].
  split; [reflexivity |].
  split; [intros; apply term_match_static_iff |].
  split; [exact term_hit_is_term_match |].
  split; [| repeat split; reflexivity].
  intros text kws [-> | ->]; rewrite keyword_match_static_iff; split.
  - intros [_ H]. inversion H as [|? ? H1 H2]; subst.
    inversion H2; subst. now split.
  - intros [H1 H2]. split; [discriminate | now repeat constructor].
  - intros [_ H]. inversion H as [|? ? H1 H2]; subst.
    inversion H2; subst. now split.
  - intros [H1 H2]. split; [discriminate | now repeat constructor].
Qed.

(** ** The emission monad *)

Lemma for_each_extend {A : Type} (xs : list A) (f : A -> list DataRow)
    (out : list DataRow) :
  for_each xs (fun x => extend (f x)) out = (tt, out ++ flat_map f xs).
Proof.
  revert out. induction xs as [|x xs IH]; intros out; simpl.
  - unfold ret. now rewrite app_nil_r.
  - unfold bind, extend at 1. rewrite IH. now rewrite <- app_assoc.
Qed.

Lemma for_each_append {A : Type} (xs : list A) (f : A -> DataRow)
    (out : list DataRow) :
  for_each xs (fun x => append (f x)) out = (tt, out ++ map f xs).
Proof.
  revert out. induction xs as [|x xs IH]; intros out; simpl.
  - unfold ret. now rewrite app_nil_r.
  - unfold bind, append at 1. rewrite IH. now rewrite <- app_assoc.
Qed.

(** ** DeepRowSearch *)

Section DeepSearchFacts.

Variable headers : list string.
Variable data_start_idx : nat.
Variable search_terms_list keywords_list : list string.
Variable section_name : string.

#[local] Abbreviation scan_row :=
  (search_row headers data_start_idx search_terms_list keywords_list section_name).
#[local] Abbreviation scan :=
  (search_rows headers data_start_idx search_terms_list keywords_list section_name).
#[local] Abbreviation matches := (row_matches headers search_terms_list keywords_list).
#[local] Abbreviation hits := (row_hits headers search_terms_list keywords_list).

(** What one row contributes, by cases on whether it is in the data range
    and matches. *)
Lemma search_row_cases (idx : nat) (row : Row) (following : list Row) :
  scan_row idx row following =
  if (data_start_idx <=? idx)%nat && matches row then
    if is_subrow row then
      group_record section_name (row_values row)
      :: subrow_details section_name following
    else [normal_record section_name (row_values row)
            (fst (hits (row_values row)))]
  else [].
Proof.
  unfold search_row, row_matches, has_td, row_values.
  destruct (Nat.ltb_spec idx data_start_idx) as [Hlt | Hge].
  - replace (data_start_idx <=? idx)%nat with false; [reflexivity |].
    symmetry. apply Nat.leb_gt. lia.
  - replace (data_start_idx <=? idx)%nat with true
      by (symmetry; apply Nat.leb_le; lia).
    destruct (find_cells Td row) as [|c cells]; [reflexivity |].
    cbn [andb]. destruct (row_hits _ _ _ _) as [th kh]. cbn [fst snd].
    destruct (th || kh); reflexivity.
Qed.

Lemma search_row_nonempty (idx : nat) (row : Row) (following : list Row) :
  scan_row idx row following <> [] <->
  (data_start_idx <= idx)%nat /\ matches row = true.
Proof.
  rewrite search_row_cases.
  destruct (Nat.leb_spec data_start_idx idx) as [Hle | Hgt]; cbn [andb].
  - destruct (matches row).
    + split; [now split |]. intros _. now destruct (is_subrow row).
    + split; [intros H; now contradiction H | intros [_ H]; discriminate].
  - split; [intros H; now contradiction H | intros [H _]; lia].
Qed.

(** [found] is empty exactly when no row of the data range matches. *)
Lemma search_rows_nonempty (idx : nat) (rows : list Row) :
  scan idx rows <> [] <->
  exists (i : nat) (row : Row),
    rows !! i = Some row /\ (data_start_idx <= idx + i)%nat
    /\ matches row = true.
Proof.
  revert idx. induction rows as [|row rows IH]; intros idx; cbn [search_rows].
  - split; [intros H; now contradiction H | intros [i [r [H _]]]; discriminate].
  - split.
    + intros H.
      destruct (scan_row idx row rows) as [|r0 l] eqn:E.
      * simpl in H. apply IH in H as [i [r [Hi [Hle Hm]]]].
        exists (S i), r. repeat split; [exact Hi | lia | exact Hm].
      * assert (Hne : scan_row idx row rows <> []) by now rewrite E.
        apply search_row_nonempty in Hne as [Hle Hm].
        exists 0%nat, row. repeat split; [lia | exact Hm].
    + intros [i [r [Hi [Hle Hm]]]] Hnil.
      apply app_eq_nil in Hnil as [H1 H2]. destruct i as [|i].
      * injection Hi as <-. revert H1. apply search_row_nonempty.
        split; [lia | exact Hm].
      * revert H2. apply IH. exists i, r. repeat split; [exact Hi | lia | exact Hm].
Qed.

End DeepSearchFacts.

Lemma join_truthy (sep x : string) (xs : list string) :
  Py.truthy x = true -> Py.truthy (Py.join sep (x :: xs)) = true.
Proof.
  intros Hx. destruct x as [|c x]; [discriminate |].
  destruct xs; reflexivity.
Qed.

Lemma header_row_record_value (headers : list string) (section_name : string) :
  Value (header_row_record headers section_name) =
  match List.filter (fun h => Py.truthy (Py.strip h)) (List.tl headers) with
  | [] => "blank"
  | rest => Py.join "; " rest
  end.
Proof.
  unfold header_row_record; cbn [Value].
  destruct (List.filter _ (List.tl headers)) as [|h rest] eqn:E; [reflexivity |].
  assert (Hin : In h (List.filter (fun h => Py.truthy (Py.strip h)) (List.tl headers)))
    by (rewrite E; now left).
  apply filter_In in Hin as [_ Hh].
  assert (Ht : Py.truthy h = true).
  { destruct h; [discriminate Hh | reflexivity]. }
  unfold Py.or_else. now rewrite (join_truthy "; " h rest Ht).
Qed.

(** What [deep_search_in_table_static] does to the list, in terms of
    [found]. *)
Lemma deep_search_run (table_element : Table) (table_index : nat)
    (headers_cache : gmap nat (list string * nat))
    (search_terms_list keywords_list : list string) (section_name : string)
    (out : list DataRow) :
  let hs := default ([], 0%nat) (headers_cache !! table_index) in
  let found :=
    search_rows (fst hs) (snd hs) search_terms_list keywords_list section_name
      0 (table_rows table_element) in
  deep_search_in_table_static table_element table_index headers_cache
    search_terms_list keywords_list section_name out
  = match found with
    | [] => (false, out)
    | _ => (true, out ++ search_section_marker section_name
                      :: header_row_record (fst hs) section_name :: found)
    end.
Proof.
  cbv zeta. unfold deep_search_in_table_static.
  destruct (default ([], 0%nat) (headers_cache !! table_index)) as [headers start].
  cbn [fst snd].
  destruct (table_rows table_element) as [|row rows]; [reflexivity |].
  destruct (search_rows _ _ _ _ _ 0 (row :: rows)) as [|r found]; [reflexivity |].
  unfold bind, append, emit_cached_header_row, append, extend, ret.
  f_equal. rewrite <- !app_assoc. reflexivity.
Qed.

(** C6.  [deep_search_in_table_static] either returns [False] and leaves the
    output list as it was, or returns [True] having appended, in this
    order, the section marker, the header summary (first label, or "blank",
    as Category; the other non-blank labels joined by "; ", or "blank", as
    Value) and the records of the matching rows; the second case is the one
    where a row of the data range matches. *)
Theorem C6_deep_search_all_or_nothing
    (table_element : Table) (table_index : nat)
    (headers_cache : gmap nat (list string * nat))
    (search_terms_list keywords_list : list string) (section_name : string)
    (out : list DataRow) :
  let headers := fst (default ([], 0%nat) (headers_cache !! table_index)) in
  let data_start_idx := snd (default ([], 0%nat) (headers_cache !! table_index)) in
  let found :=
    search_rows headers data_start_idx search_terms_list keywords_list
      section_name 0 (table_rows table_element) in
  let run :=
    deep_search_in_table_static table_element table_index headers_cache
      search_terms_list keywords_list section_name out in
  ((run = (false, out) /\ found = [])
   \/ (run = (true, out ++ [search_section_marker section_name;
                            header_row_record headers section_name] ++ found)
       /\ found <> []))
  /\ (found <> [] <->
      exists (i : nat) (row : Row),
        table_rows table_element !! i = Some row
        /\ (data_start_idx <= i)%nat
        /\ row_matches headers search_terms_list keywords_list row = true)
  /\ Category (header_row_record headers section_name)
     = match headers with
       | h0 :: _ => if Py.truthy (Py.strip h0) then Py.strip h0 else "blank"
       | [] => "blank"
       end
  /\ Value (header_row_record headers section_name)
     = match List.filter (fun h => Py.truthy (Py.strip h)) (List.tl headers) with
       | [] => "blank"
       | rest => Py.join "; " rest
       end.
Proof.
  cbv zeta. split; [| split; [| split]].
  - rewrite deep_search_run. cbv zeta.
    destruct (search_rows _ _ _ _ _ 0 (table_rows table_element)) as [|r found].
    + left. now split.
    + right. split; [reflexivity | discriminate].
  - apply search_rows_nonempty.
  - unfold header_row_record; cbn [Category].
    now destruct (fst (default ([], 0%nat) (headers_cache !! table_index))).
  - apply header_row_record_value.
Qed.

(** ** Group and detail rows *)

Lemma subrow_details_span (section_name : string) (following : list Row) :
  subrow_details section_name following =
  map (detail_row_record section_name)
      (List.filter has_td (detail_span following)).
Proof.
  induction following as [|det following IH]; [reflexivity |].
  cbn [subrow_details detail_span].
  destruct (is_subrow det); [reflexivity |].
  cbn [List.filter]. unfold has_td at 1.
  destruct (find_cells Td det) as [|c cells] eqn:E; [exact IH |].
  cbn [map]. unfold detail_row_record at 1, row_texts. now rewrite E, IH.
Qed.

Lemma detail_span_app (ds following : list Row) :
  Forall (fun r => is_subrow r = false) ds ->
  detail_span (ds ++ following) = ds ++ detail_span following.
Proof.
  induction 1 as [|d ds Hd _ IH]; [reflexivity |].
  cbn [app detail_span]. now rewrite Hd, IH.
Qed.

Section GroupFacts.

Variable headers : list string.
Variable data_start_idx : nat.
Variable search_terms_list keywords_list : list string.
Variable section_name : string.

#[local] Abbreviation gscan_row :=
  (search_row headers data_start_idx search_terms_list keywords_list section_name).
#[local] Abbreviation gscan :=
  (search_rows headers data_start_idx search_terms_list keywords_list section_name).
#[local] Abbreviation gmatches :=
  (row_matches headers search_terms_list keywords_list).
#[local] Abbreviation ghits := (row_hits headers search_terms_list keywords_list).

#[local] Abbreviation as_normal :=
  (normal_row_record headers search_terms_list keywords_list section_name).

Lemma search_row_group (idx : nat) (g : Row) (following : list Row) :
  (data_start_idx <= idx)%nat -> gmatches g = true -> is_subrow g = true ->
  gscan_row idx g following =
  group_record section_name (row_values g)
  :: map (detail_row_record section_name)
         (List.filter has_td (detail_span following)).
Proof.
  intros Hle Hm Hg. rewrite search_row_cases, Hm, Hg.
  replace (data_start_idx <=? idx)%nat with true
    by (symmetry; apply Nat.leb_le; lia).
  cbn [andb]. now rewrite subrow_details_span.
Qed.

Lemma search_row_plain (idx : nat) (d : Row) (following : list Row) :
  (data_start_idx <= idx)%nat -> is_subrow d = false ->
  gscan_row idx d following = if gmatches d then [as_normal d] else [].
Proof.
  intros Hle Hd. rewrite search_row_cases, Hd.
  replace (data_start_idx <=? idx)%nat with true
    by (symmetry; apply Nat.leb_le; lia).
  reflexivity.
Qed.

Lemma search_row_no_match (idx : nat) (row : Row) (following : list Row) :
  gmatches row = false -> gscan_row idx row following = [].
Proof. intros Hm. rewrite search_row_cases, Hm. now rewrite andb_false_r. Qed.

(** The main scan over rows that are not group rows: each matching one
    gives its normal record, whatever comes after. *)
Lemma search_rows_plain (idx : nat) (ds rest : list Row) :
  (data_start_idx <= idx)%nat ->
  Forall (fun r => is_subrow r = false) ds ->
  gscan idx (ds ++ rest) =
  flat_map (fun d => if gmatches d then [as_normal d] else []) ds
  ++ gscan (idx + length ds) rest.
Proof.
  intros Hle Hds. revert idx Hle.
  induction Hds as [|d ds Hd _ IH]; intros idx Hle.
  - cbn [app flat_map length]. now rewrite Nat.add_0_r.
  - cbn [app search_rows flat_map length].
    rewrite (search_row_plain idx d (ds ++ rest) Hle Hd).
    rewrite IH by lia. rewrite <- app_assoc.
    now replace (S idx + length ds)%nat with (idx + S (length ds))%nat by lia.
Qed.

Lemma search_rows_app (idx : nat) (pre rows : list Row) :
  exists l, gscan idx (pre ++ rows) = l ++ gscan (idx + length pre) rows.
Proof.
  revert idx. induction pre as [|r pre IH]; intros idx.
  - exists []. cbn [app length]. now rewrite Nat.add_0_r.
  - destruct (IH (S idx)) as [l Hl].
    exists (gscan_row idx r (pre ++ rows) ++ l).
    cbn [app search_rows length]. rewrite Hl, <- app_assoc.
    now replace (S idx + length pre)%nat with (idx + S (length pre))%nat by lia.
Qed.

End GroupFacts.

(** C7, as amended.  A matching group row of the data range gives exactly
    one group record (its first value as Category, an empty Value, the
    group Source), followed by one detail record for each later row that has
    a [<td>], up to and excluding the next group row or the end of the
    table.  With three detail rows that have a [<td>] and then a second
    group row, none of which matches by itself, the scan from the group row
    gives the group record and the three detail records, and nothing
    else. *)
Theorem C7_group_record_then_detail_rows
    (headers : list string) (data_start_idx : nat)
    (search_terms_list keywords_list : list string) (section_name : string)
    (idx : nat) (g : Row) (following : list Row) :
  (data_start_idx <= idx)%nat ->
  row_matches headers search_terms_list keywords_list g = true ->
  is_subrow g = true ->
  search_row headers data_start_idx search_terms_list keywords_list
    section_name idx g following
  = {| Category := List.hd "" (row_values g); Value := "";
       Section_ := section_name; Source := "DeepSearch - Subrow Group" |}
    :: map (detail_row_record section_name)
         (List.filter has_td (detail_span following))
  /\ (forall d1 d2 d3 g2 : Row,
        following = [d1; d2; d3; g2] ->
        is_subrow d1 = false -> is_subrow d2 = false -> is_subrow d3 = false ->
        is_subrow g2 = true ->
        has_td d1 = true -> has_td d2 = true -> has_td d3 = true ->
        row_matches headers search_terms_list keywords_list d1 = false ->
        row_matches headers search_terms_list keywords_list d2 = false ->
        row_matches headers search_terms_list keywords_list d3 = false ->
        row_matches headers search_terms_list keywords_list g2 = false ->
        search_rows headers data_start_idx search_terms_list keywords_list
          section_name idx (g :: following)
        = [ group_record section_name (row_values g);
            detail_row_record section_name d1;
            detail_row_record section_name d2;
            detail_row_record section_name d3 ]).
Proof.
  intros Hle Hm Hg. split.
  - now rewrite search_row_group.
  - intros d1 d2 d3 g2 -> H1 H2 H3 H4 T1 T2 T3 M1 M2 M3 M4.
    cbn [search_rows].
    rewrite (search_row_group _ _ _ _ _ idx g _ Hle Hm Hg).
    rewrite !search_row_no_match by assumption.
    cbn [detail_span]. rewrite H1, H2, H3, H4.
    cbn [List.filter]. rewrite T1, T2, T3. reflexivity.
Qed.

Lemma C7_group_record_then_detail_rows_witness :
  search_rows [] 0 ["tuition"] [] "Costs" 0
    (tuition_group :: tuition_details ++ [housing_group])
  = [ {| Category := "Tuition and fees"; Value := "";
         Section_ := "Costs"; Source := "DeepSearch - Subrow Group" |};
      {| Category := "  ↳ In-state"; Value := "$9,000";
         Section_ := "Costs"; Source := "DeepSearch - Subrow Detail" |};
      {| Category := "  ↳ Out-of-state"; Value := "blank";
         Section_ := "Costs"; Source := "DeepSearch - Subrow Detail" |};
      {| Category := "  ↳ Books"; Value := "$1,200";
         Section_ := "Costs"; Source := "DeepSearch - Subrow Detail" |} ].
Proof.
  refine (proj2 (C7_group_record_then_detail_rows [] 0 ["tuition"] [] "Costs" 0
                   tuition_group (tuition_details ++ [housing_group]) _ _ _)
            _ _ _ _ eq_refl _ _ _ _ _ _ _ _ _ _ _);
    solve [ lia | vm_compute; reflexivity ].
Defined.

(** C7, as stated, fails on a group whose span holds a row without [<td>]:
    the span has two rows, and one detail record is emitted. *)
Lemma C7_counterexample_row_without_td :
  row_matches [] ["tuition"] [] tuition_group = true
  /\ is_subrow tuition_group = true
  /\ detail_span tuition_details_with_th_row = tuition_details_with_th_row
  /\ search_row [] 0 ["tuition"] [] "Costs" 0 tuition_group
       tuition_details_with_th_row
     = [ {| Category := "Tuition and fees"; Value := "";
            Section_ := "Costs"; Source := "DeepSearch - Subrow Group" |};
         {| Category := "  ↳ In-state"; Value := "$9,000";
            Section_ := "Costs"; Source := "DeepSearch - Subrow Detail" |} ]
  /\ length (search_row [] 0 ["tuition"] [] "Costs" 0 tuition_group
               tuition_details_with_th_row)
     <> (1 + length (detail_span tuition_details_with_th_row))%nat.
Proof. repeat split; vm_compute; congruence. Qed.

(** A match in a detail row alone gives that row's normal record and no
    group record. *)
Lemma detail_row_match_alone :
  search_rows [] 0 ["books"] [] "Costs" 0
    (tuition_group :: tuition_details ++ [housing_group])
  = [ {| Category := "Books"; Value := "$1,200";
         Section_ := "Costs"; Source := "DeepSearch - Term Match" |} ].
Proof. vm_compute. reflexivity. Qed.

Lemma filter_has_td_app (ds rest : list Row) :
  List.filter has_td (ds ++ rest)
  = List.filter has_td ds ++ List.filter has_td rest.
Proof. apply List.filter_app. Qed.

Lemma row_matches_has_td (headers terms kws : list string) (row : Row) :
  row_matches headers terms kws row = true -> has_td row = true.
Proof. unfold row_matches. now intros [H _]%andb_true_iff. Qed.

(** [found] for a table that holds a matching group row [g] with a matching
    row [d] in its span. *)
Lemma search_rows_group_with_matching_detail
    (headers : list string) (data_start_idx : nat)
    (search_terms_list keywords_list : list string) (section_name : string)
    (pre : list Row) (g : Row) (ds : list Row) (d : Row) (rest : list Row) :
  (data_start_idx <= length pre)%nat ->
  row_matches headers search_terms_list keywords_list g = true ->
  is_subrow g = true ->
  Forall (fun r => is_subrow r = false) ds ->
  is_subrow d = false ->
  row_matches headers search_terms_list keywords_list d = true ->
  exists l1 l2 l3 : list DataRow,
    search_rows headers data_start_idx search_terms_list keywords_list
      section_name 0 (pre ++ g :: ds ++ d :: rest)
    = l1 ++ detail_row_record section_name d
         :: l2 ++ normal_row_record headers search_terms_list keywords_list
                    section_name d
         :: l3.
Proof.
  intros Hle Hg Hsub Hds Hd Hm.
  destruct (search_rows_app headers data_start_idx search_terms_list
              keywords_list section_name 0 pre (g :: ds ++ d :: rest))
    as [lp Hlp].
  rewrite Hlp. cbn [Nat.add search_rows].
  rewrite (search_row_group _ _ _ _ _ (length pre) g _ Hle Hg Hsub).
  rewrite (detail_span_app ds (d :: rest) Hds).
  cbn [detail_span]. rewrite Hd.
  rewrite filter_has_td_app. cbn [List.filter].
  rewrite (row_matches_has_td _ _ _ _ Hm).
  rewrite map_app. cbn [map].
  rewrite (search_rows_plain _ _ _ _ _ (S (length pre)) ds (d :: rest))
    by (lia || assumption).
  cbn [search_rows].
  rewrite (search_row_plain _ _ _ _ _ _ d rest) by (lia || assumption).
  rewrite Hm.
  exists (lp ++ group_record section_name (row_values g)
             :: map (detail_row_record section_name) (List.filter has_td ds)),
         (map (detail_row_record section_name)
            (List.filter has_td (detail_span rest))
          ++ flat_map
               (fun d0 =>
                  if row_matches headers search_terms_list keywords_list d0
                  then [normal_row_record headers search_terms_list
                          keywords_list section_name d0]
                  else [])
               ds),
         (search_rows headers data_start_idx search_terms_list keywords_list
            section_name (S (S (length pre) + length ds)) rest).
  repeat (rewrite <- ?app_assoc; cbn [app]).
  reflexivity.
Qed.

(** C10.  After a matching group row the scan goes on with the row right
    after it, not after its detail rows.  So a row of the span that
    matches the query by itself is emitted twice by
    [deep_search_in_table_static]: first as a detail record of the group
    (Category with the indent marker), later as a normal record (Category
    its first value, without the marker). *)
Theorem C10_matching_detail_row_emitted_twice
    (table_element : Table) (table_index : nat)
    (headers_cache : gmap nat (list string * nat))
    (search_terms_list keywords_list : list string) (section_name : string)
    (out : list DataRow)
    (pre : list Row) (g : Row) (ds : list Row) (d : Row) (rest : list Row) :
  let headers := fst (default ([], 0%nat) (headers_cache !! table_index)) in
  let data_start_idx := snd (default ([], 0%nat) (headers_cache !! table_index)) in
  table_rows table_element = pre ++ g :: ds ++ d :: rest ->
  (data_start_idx <= length pre)%nat ->
  row_matches headers search_terms_list keywords_list g = true ->
  is_subrow g = true ->
  Forall (fun r => is_subrow r = false) ds ->
  is_subrow d = false ->
  row_matches headers search_terms_list keywords_list d = true ->
  search_rows headers data_start_idx search_terms_list keywords_list
    section_name (length pre) (g :: ds ++ d :: rest)
  = search_row headers data_start_idx search_terms_list keywords_list
      section_name (length pre) g (ds ++ d :: rest)
    ++ search_rows headers data_start_idx search_terms_list keywords_list
         section_name (S (length pre)) (ds ++ d :: rest)
  /\ (exists l1 l2 l3 : list DataRow,
        deep_search_in_table_static table_element table_index headers_cache
          search_terms_list keywords_list section_name out
        = (true,
           out ++ l1 ++ detail_row_record section_name d
               :: l2 ++ normal_row_record headers search_terms_list
                          keywords_list section_name d
               :: l3))
  /\ Category (detail_row_record section_name d)
     = "  ↳ " +:+ List.hd "" (row_texts d)
  /\ Category (normal_row_record headers search_terms_list keywords_list
                 section_name d)
     = List.hd "" (row_values d)
  /\ Value (normal_row_record headers search_terms_list keywords_list
              section_name d)
     = Py.join "; " (map blank_if_absent (List.tl (row_values d))).
Proof.
  cbv zeta. intros Hrows Hle Hg Hsub Hds Hd Hm.
  split; [reflexivity |]. split; [| repeat split].
  destruct (search_rows_group_with_matching_detail _ _ _ _ section_name
              pre g ds d rest Hle Hg Hsub Hds Hd Hm) as [l1 [l2 [l3 Hfound]]].
  rewrite deep_search_run. cbv zeta. rewrite Hrows, Hfound.
  exists (search_section_marker section_name
          :: header_row_record
               (fst (default ([], 0%nat) (headers_cache !! table_index)))
               section_name
          :: l1), l2, l3.
  destruct l1; reflexivity.
Qed.

Lemma C10_matching_detail_row_emitted_twice_witness :
  exists l1 l2 l3 : list DataRow,
    deep_search_in_table_static fees_table 0 ∅ ["tuition"] [] "Costs" []
    = (true,
       [] ++ l1 ++ {| Category := "  ↳ In-state tuition"; Value := "$9,000";
                      Section_ := "Costs";
                      Source := "DeepSearch - Subrow Detail" |}
          :: l2 ++ {| Category := "In-state tuition"; Value := "$9,000";
                      Section_ := "Costs";
                      Source := "DeepSearch - Term Match" |}
          :: l3).
Proof.
  refine (proj1 (proj2
    (C10_matching_detail_row_emitted_twice fees_table 0 ∅ ["tuition"] []
       "Costs" []
       [tr [td "Costs 2023"; td "Amount"]]
       (subrow_tr [td "Tuition and fees"; td "2023"])
       [tr [td "Books"; td "$1,200"]]
       (tr [td "In-state tuition"; td "$9,000"])
       [tr [td "Room"; td "-"]]
       eq_refl _ _ _ _ _ _)));
    solve [ vm_compute; lia | vm_compute; reflexivity
          | repeat constructor ].
Defined.

(** ** Dash and empty cells *)

Lemma undash_cases (v : string) : (v = "-" /\ undash v = "") \/ (v <> "-" /\ undash v = v).
Proof.
  unfold undash. destruct (String.eqb_spec v "-") as [-> | Hne]; [now left | now right].
Qed.

Lemma present_strip_undash (v : string) :
  present (Py.strip (undash v)) = present (Py.strip v).
Proof. destruct (undash_cases v) as [[-> ->] | [_ ->]]; reflexivity. Qed.

Lemma strip_undash_present (v : string) :
  present (Py.strip v) = true -> Py.strip (undash v) = Py.strip v.
Proof.
  destruct (undash_cases v) as [[-> _] | [_ ->]]; [discriminate | reflexivity].
Qed.

Lemma blank_if_absent_undash (v : string) :
  blank_if_absent (undash v) = blank_if_absent v.
Proof. destruct (undash_cases v) as [[-> ->] | [_ ->]]; reflexivity. Qed.

Lemma blank_if_absent_not_dash (v : string) : blank_if_absent v <> "-".
Proof.
  unfold blank_if_absent.
  destruct (Py.truthy v); cbn [andb]; [| discriminate].
  destruct (String.eqb_spec v "-"); cbn [negb]; [discriminate | assumption].
Qed.

Lemma year_parts_undash (years : list string) (i : nat) (row0 : string)
    (cells : list string) :
  year_parts (S i) years (row0 :: map undash cells)
  = year_parts (S i) years (row0 :: cells).
Proof.
  revert i. induction years as [|year years IH]; intros i; [reflexivity |].
  cbn [year_parts]. change ((row0 :: ?l) !! S i) with (l !! i).
  rewrite list_lookup_fmap.
  destruct (cells !! i) as [cell|]; cbn [fmap option_fmap option_map]; [| apply IH].
  rewrite present_strip_undash.
  destruct (present (Py.strip cell)) eqn:E; [| apply IH].
  now rewrite (strip_undash_present cell E), IH.
Qed.

Lemma columnar_parts_undash (headers : list string) (col_idx : nat)
    (cells : list string) :
  columnar_parts headers col_idx (map undash cells)
  = columnar_parts headers col_idx cells.
Proof.
  revert col_idx. induction cells as [|cell cells IH]; intros col_idx; [reflexivity |].
  cbn [map columnar_parts]. rewrite present_strip_undash.
  destruct (present (Py.strip cell)) eqn:E; cbn [negb]; [| apply IH].
  now rewrite (strip_undash_present cell E), IH.
Qed.

Lemma label_values_undash (cells : list string) :
  map Py.strip
    (List.filter (fun v => Py.truthy (Py.strip v) && negb (String.eqb v "-"))
       (map undash cells))
  = map Py.strip
      (List.filter (fun v => Py.truthy (Py.strip v) && negb (String.eqb v "-"))
         cells).
Proof.
  induction cells as [|cell cells IH]; [reflexivity |].
  cbn [map List.filter].
  destruct (undash_cases cell) as [[-> ->] | [Hne ->]]; [exact IH |].
  destruct (_ && _); cbn [map]; now rewrite IH.
Qed.

Lemma multi_year_row_undash (years : list string) (sect src : string)
    (row : list string) :
  multi_year_row years sect src (undash_tail row) = multi_year_row years sect src row.
Proof.
  destruct row as [|row0 [|c cells]]; [reflexivity | reflexivity |].
  unfold multi_year_row, undash_tail.
  change (map undash (c :: cells)) with (undash c :: map undash cells).
  change (undash c :: map undash cells) with (map undash (c :: cells)).
  now rewrite year_parts_undash.
Qed.

Lemma label_row_undash (sect src : string) (row : list string) :
  label_row sect src (undash_tail row) = label_row sect src row.
Proof.
  destruct row as [|row0 cells]; [reflexivity |].
  unfold label_row, undash_tail. now rewrite label_values_undash.
Qed.

Lemma columnar_row_undash (headers : list string) (sect src : string)
    (row : list string) :
  columnar_row headers sect src (undash_tail row) = columnar_row headers sect src row.
Proof.
  destruct row as [|row0 cells]; [reflexivity |].
  unfold columnar_row, undash_tail. now rewrite columnar_parts_undash.
Qed.

Lemma flat_map_map_ext {A B : Type} (f : A -> list B) (g : A -> A) (l : list A) :
  (forall x, f (g x) = f x) -> flat_map f (map g l) = flat_map f l.
Proof.
  intros H. induction l as [|x l IH]; [reflexivity |].
  cbn [map flat_map]. now rewrite H, IH.
Qed.

(** The three-mode formatter does not see a dash after the first cell. *)
Lemma add_table_to_data_static_undash (headers : list string)
    (data_rows : list (list string)) (sect src : string) (out : list DataRow) :
  add_table_to_data_static headers (map undash_tail data_rows) sect src out
  = add_table_to_data_static headers data_rows sect src out.
Proof.
  unfold add_table_to_data_static.
  destruct (year_headers_of headers) as [|y ys].
  - destruct (is_label_based headers); rewrite !for_each_extend; f_equal; f_equal;
      apply flat_map_map_ext; intros row;
      [apply label_row_undash | apply columnar_row_undash].
  - rewrite !for_each_extend. f_equal. f_equal.
    apply flat_map_map_ext. intros row. apply multi_year_row_undash.
Qed.

Lemma raw_value_undash (vals : list string) :
  raw_value (map undash vals) = raw_value vals.
Proof.
  unfold raw_value. destruct vals as [|v vals]; [reflexivity |].
  cbn [map List.tl]. rewrite map_map. f_equal.
  apply map_ext. intros x. apply blank_if_absent_undash.
Qed.

Lemma raw_row_record_undash (sect : string) (index : nat) (row_vals : list string) :
  Value (raw_row_record sect index (undash_tail row_vals))
  = Value (raw_row_record sect index row_vals).
Proof.
  destruct row_vals as [|row0 cells]; [reflexivity |].
  unfold raw_row_record, undash_tail; cbn [Value List.tl].
  rewrite map_map. do 2 f_equal.
  apply map_ext. intros x. apply blank_if_absent_undash.
Qed.

Lemma cell_value_dash (c : Cell) :
  Py.strip (cell_text c) = "-" -> cell_value c = "-".
Proof. intros H. unfold cell_value. now rewrite H. Qed.

Lemma cell_value_empty_alt (c : Cell) (img : Img) (imgs : list Img) :
  Py.strip (cell_text c) = "" ->
  cell_imgs c = img :: imgs ->
  Py.truthy (Py.strip (Py.attr_or_empty (img_alt img))) = true ->
  cell_value c = Py.strip (Py.attr_or_empty (img_alt img)).
Proof. intros H1 H2 H3. unfold cell_value. now rewrite H1, H2, H3. Qed.

(** C8, as stated, fails on two rows that differ by a dash against an empty
    text in a cell holding an image: the empty cell is searched, and
    emitted, as the alt text of the image, the dash cell is not. *)
Lemma C8_counterexample_dash_cell_with_image :
  row_cells chart_row_empty
  = [td "Graduation"; with_text "" (td_img "-" "Retention chart")]
  /\ row_cells chart_row_dash
     = [td "Graduation"; with_text "-" (td_img "" "Retention chart")]
  /\ search_row [] 0 ["retention"] [] "Outcomes" 0 chart_row_empty []
     = [ {| Category := "Graduation"; Value := "Retention chart";
            Section_ := "Outcomes"; Source := "DeepSearch - Term Match" |} ]
  /\ search_row [] 0 ["retention"] [] "Outcomes" 0 chart_row_dash [] = []
  /\ row_matches [] ["retention"] [] chart_row_empty
     <> row_matches [] ["retention"] [] chart_row_dash.
Proof. repeat split; vm_compute; congruence. Qed.

(** Without any image too: the dash is part of the searched text. *)
Lemma dash_cell_is_searched_text :
  row_matches [] ["-"] [] (tr [td "Room"; td "-"]) = true
  /\ row_matches [] ["-"] [] (tr [td "Room"; td ""]) = false.
Proof. split; reflexivity. Qed.

(** ** HeaderInference *)

Lemma find_cells_all (row : Row) :
  find_cells Th row = [] -> find_cells Td row = [] -> row_cells row = [].
Proof.
  unfold find_cells. destruct (row_cells row) as [|c cells]; [reflexivity |].
  cbn [List.filter]. destruct (cell_tag c); cbn [tag_eqb]; discriminate.
Qed.

Lemma thead_label_cells_nonempty (last_row : Row) :
  row_cells last_row <> [] -> thead_label_cells last_row <> [].
Proof.
  intros Hne H. apply Hne. unfold thead_label_cells in H.
  destruct (find_cells Th last_row) eqn:E; [| discriminate].
  now apply find_cells_all.
Qed.

Lemma headers_from_thead_some (table_element : Table)
    (thead_rows : list Row) (last_row : Row) :
  tbl_thead table_element = Some thead_rows ->
  last thead_rows = Some last_row ->
  row_cells last_row <> [] ->
  headers_from_thead table_element
  = Some (header_labels "HeadCol" (thead_label_cells last_row), length thead_rows).
Proof.
  intros Hthead Hlast Hne. unfold headers_from_thead. rewrite Hthead, Hlast.
  fold (thead_label_cells last_row).
  pose proof (thead_label_cells_nonempty last_row Hne) as H.
  destruct (thead_label_cells last_row); [now contradiction H | reflexivity].
Qed.

Lemma enumerate_lookup {A : Type} (start i : nat) (xs : list A) :
  Py.enumerate start xs !! i = (fun x => ((start + i)%nat, x)) <$> xs !! i.
Proof.
  revert start i. induction xs as [|x xs IH]; intros start i; [reflexivity |].
  destruct i as [|i]; cbn [Py.enumerate].
  - cbn. now rewrite Nat.add_0_r.
  - change ((?a :: ?l) !! S i) with (l !! i). rewrite IH.
    destruct (xs !! i); cbn; [| reflexivity].
    repeat f_equal. lia.
Qed.

(** The label of column [i]: the stripped text of the cell or, when that
    is empty, the prefix followed by [i + 1]. *)
Lemma header_labels_lookup (prefix : string) (cells : list Cell) (i : nat) :
  header_labels prefix cells !! i
  = (fun cell =>
       if Py.truthy (Py.strip (cell_text cell)) then Py.strip (cell_text cell)
       else prefix +:+ Py.of_nat (i + 1)) <$> cells !! i.
Proof.
  unfold header_labels. rewrite list_lookup_fmap, enumerate_lookup.
  destruct (cells !! i); reflexivity.
Qed.

Lemma last_length_pos {A : Type} (l : list A) (x : A) :
  last l = Some x -> l <> [].
Proof. now destruct l. Qed.

(** C9.  On a table without rows the inference returns no label and start
    index 0, whatever the table element is.  On a table whose [<thead>] has
    a last row with cells, the labels are those of that row and the start
    index is the number of [<thead>] rows, whatever the body rows are, a
    first body row of [<th>] cells included.  On a table without [<thead>]
    whose first row has no [<th>] it returns no label and start index 0. *)
Theorem C9_header_inference (table_element : Table) :
  get_table_headers_and_data_start_idx_static table_element [] = ([], 0%nat)
  /\ (forall (thead_rows : list Row) (last_row : Row),
        tbl_thead table_element = Some thead_rows ->
        last thead_rows = Some last_row ->
        row_cells last_row <> [] ->
        get_table_headers_and_data_start_idx_static table_element
          (table_rows table_element)
        = (header_labels "HeadCol" (thead_label_cells last_row),
           length thead_rows)
        /\ (length thead_rows <= length (table_rows table_element))%nat
        /\ forall i : nat,
             header_labels "HeadCol" (thead_label_cells last_row) !! i
             = (fun cell =>
                  if Py.truthy (Py.strip (cell_text cell))
                  then Py.strip (cell_text cell)
                  else "HeadCol" +:+ Py.of_nat (i + 1))
               <$> thead_label_cells last_row !! i)
  /\ (forall (first_row : Row) (rest : list Row),
        tbl_thead table_element = None ->
        find_cells Th first_row = [] ->
        get_table_headers_and_data_start_idx_static table_element
          (first_row :: rest)
        = ([], 0%nat)).
Proof.
  split; [reflexivity |]. split.
  - intros thead_rows last_row Hthead Hlast Hne.
    split; [| split].
    + unfold get_table_headers_and_data_start_idx_static, table_rows.
      rewrite Hthead.
      pose proof (last_length_pos _ _ Hlast) as Hrows.
      destruct (thead_rows ++ tbl_body table_element) as [|r rows] eqn:E.
      { apply app_eq_nil in E as [E _]. now contradiction Hrows. }
      now rewrite (headers_from_thead_some _ _ _ Hthead Hlast Hne).
    + unfold table_rows. rewrite Hthead, length_app. lia.
    + intros i. apply header_labels_lookup.
  - intros first_row rest Hthead Hth.
    unfold get_table_headers_and_data_start_idx_static, headers_from_thead.
    now rewrite Hthead, Hth.
Qed.

(** A [<thead>] whose last row has no cell gives no label: the inference
    goes on with the first row of the table, which is that empty header
    row when there is one, and the first body row otherwise. *)
Lemma thead_without_cells_falls_through :
  get_table_headers_and_data_start_idx_static empty_thead_row_table
    (table_rows empty_thead_row_table) = ([], 0%nat)
  /\ get_table_headers_and_data_start_idx_static empty_thead_table
       (table_rows empty_thead_table) = (["Level"; "Men"], 1%nat).
Proof. split; reflexivity. Qed.

Lemma C9_header_inference_witness :
  get_table_headers_and_data_start_idx_static enrollment_table
    (table_rows enrollment_table)
  = (["Level"; "HeadCol2"; "Fall 2023"], 2%nat).
Proof.
  exact (proj1 (proj1 (proj2 (C9_header_inference enrollment_table))
                  [ tr [th "Enrollment"];
                    tr [th "Level"; th ""; th " Fall 2023 "] ]
                  (tr [th "Level"; th ""; th " Fall 2023 "])
                  eq_refl eq_refl ltac:(discriminate))).
Defined.

(** ** The multi-year layout *)

Lemma filter_all {A : Type} (f : A -> bool) (l : list A) :
  Forall (fun x => f x = true) l -> List.filter f l = l.
Proof.
  induction 1 as [|x l Hx _ IH]; [reflexivity |].
  cbn [List.filter]. now rewrite Hx, IH.
Qed.

Lemma year_parts_by_column (col : nat) (years row : list string) :
  Forall (fun h => year_pattern_match (Py.strip h) = true) years ->
  Forall stripped row ->
  year_parts col years row = spec_year_pairs col years row.
Proof.
  intros Hyears Hrow. revert col.
  induction Hyears as [|year years Hy _ IH]; intros col; [reflexivity |].
  cbn [year_parts spec_year_pairs]. rewrite Hy, IH.
  destruct (row !! col) as [cell|] eqn:E; [| reflexivity].
  assert (Hs : Py.strip cell = cell).
  { rewrite Forall_forall in Hrow. apply Hrow.
    apply list_elem_of_lookup. now exists col. }
  rewrite Hs. now destruct (present cell).
Qed.

(** When every header after the first is a year header and the cells carry
    no outer white space, the record of a row is the one the specification
    describes: each year header with the cell of its own column. *)
Lemma multi_year_row_by_column (headers : list string) (sect src : string)
    (row : list string) :
  all_year_headers headers ->
  Forall stripped row ->
  map category_value (multi_year_row (year_headers_of headers) sect src row)
  = spec_multi_year_row headers row.
Proof.
  intros Hall Hrow. unfold year_headers_of.
  rewrite (filter_all _ _ Hall).
  unfold multi_year_row, spec_multi_year_row.
  destruct row as [|row0 [|c cells]]; [reflexivity | |].
  - rewrite <- (year_parts_by_column 1 (List.tl headers) [row0] Hall Hrow).
    assert (H : forall i years, year_parts (S i) years [row0] = []).
    { intros i years. revert i. induction years as [|y ys IHy]; intros i;
        [reflexivity | apply IHy]. }
    now rewrite H.
  - rewrite (year_parts_by_column 1 (List.tl headers) _ Hall Hrow).
    assert (Hs : Py.strip row0 = row0) by now inversion Hrow.
    rewrite Hs.
    now destruct (spec_year_pairs 1 (List.tl headers) (row0 :: c :: cells)).
Qed.

(** The retention table of the specification: one record, none for the
    row of dashes. *)
Lemma retention_table_formatted :
  add_table_to_data_static retention_headers retention_rows
    "Retention" "Table 1" []
  = (tt, [ {| Category := "Retention rate";
              Value := "2020-2021: 82%; 2021-2022: 85%";
              Section_ := "Retention"; Source := "Table 1 (all years)" |} ]).
Proof. reflexivity. Qed.

(** C1 on the program table.  The year headers stand in columns 2 and 3;
    the formatter pairs them with the cells of columns 1 and 2, where the
    claim pairs each with the cell of its own column. *)
Theorem C1_year_headers_paired_by_rank
    (section_name source_description : string) :
  year_headers_of program_headers = ["2019-2020"; "2020-2021"]
  /\ map category_value
       (emitted (add_table_to_data_static program_headers program_rows
                   section_name source_description))
     = [("Nursing", "2019-2020: BS; 2020-2021: 120")]
  /\ flat_map (spec_multi_year_row program_headers) program_rows
     = [("Nursing", "2019-2020: 120; 2020-2021: 135")]
  /\ map category_value
       (emitted (add_table_to_data_static program_headers program_rows
                   section_name source_description))
     <> flat_map (spec_multi_year_row program_headers) program_rows.
Proof. repeat split; try reflexivity. discriminate. Qed.

(** ** Computations that only append *)

Lemma appends_ret {A : Type} (a : A) : appends_only (ret a).
Proof. intros out. unfold ret, result, emitted; cbn. now rewrite app_nil_r. Qed.

Lemma appends_append (r : DataRow) : appends_only (append r).
Proof. intros out. reflexivity. Qed.

Lemma appends_extend (rs : list DataRow) : appends_only (extend rs).
Proof. intros out. reflexivity. Qed.

Lemma bind_run {A B : Type} (m : Emit A) (k : A -> Emit B) :
  appends_only m -> (forall a, appends_only (k a)) ->
  forall out,
    bind m k out
    = (result (k (result m)), out ++ emitted m ++ emitted (k (result m))).
Proof.
  intros Hm Hk out. unfold bind. rewrite (Hm out), (Hk (result m)).
  now rewrite app_assoc.
Qed.

Lemma appends_bind {A B : Type} (m : Emit A) (k : A -> Emit B) :
  appends_only m -> (forall a, appends_only (k a)) -> appends_only (bind m k).
Proof.
  intros Hm Hk out. rewrite (bind_run m k Hm Hk out).
  unfold result, emitted. rewrite (bind_run m k Hm Hk []). reflexivity.
Qed.

Lemma result_bind {A B : Type} (m : Emit A) (k : A -> Emit B) :
  appends_only m -> (forall a, appends_only (k a)) ->
  result (bind m k) = result (k (result m)).
Proof. intros Hm Hk. unfold result at 1. now rewrite (bind_run m k Hm Hk []). Qed.

Lemma emitted_bind {A B : Type} (m : Emit A) (k : A -> Emit B) :
  appends_only m -> (forall a, appends_only (k a)) ->
  emitted (bind m k) = emitted m ++ emitted (k (result m)).
Proof. intros Hm Hk. unfold emitted at 1. now rewrite (bind_run m k Hm Hk []). Qed.

Lemma appends_for_each {A : Type} (xs : list A) (body : A -> Emit unit) :
  (forall x, appends_only (body x)) -> appends_only (for_each xs body).
Proof.
  intros Hbody. induction xs as [|x xs IH]; cbn [for_each].
  - apply appends_ret.
  - apply appends_bind; [apply Hbody | intros _; exact IH].
Qed.

Lemma emitted_for_each {A : Type} (xs : list A) (body : A -> Emit unit) :
  (forall x, appends_only (body x)) ->
  emitted (for_each xs body) = flat_map (fun x => emitted (body x)) xs.
Proof.
  intros Hbody. induction xs as [|x xs IH]; cbn [for_each flat_map]; [reflexivity |].
  rewrite emitted_bind;
    [| apply Hbody | intros _; now apply appends_for_each].
  now rewrite IH.
Qed.

Lemma appends_for_any {A : Type} (xs : list A) (body : A -> Emit bool) :
  (forall x, appends_only (body x)) -> appends_only (for_any xs body).
Proof.
  intros Hbody. induction xs as [|x xs IH]; cbn [for_any].
  - apply appends_ret.
  - apply appends_bind; [apply Hbody |]. intros b.
    apply appends_bind; [exact IH |]. intros r. apply appends_ret.
Qed.

Lemma emitted_for_any {A : Type} (xs : list A) (body : A -> Emit bool) :
  (forall x, appends_only (body x)) ->
  emitted (for_any xs body) = flat_map (fun x => emitted (body x)) xs.
Proof.
  intros Hbody. induction xs as [|x xs IH]; cbn [for_any flat_map]; [reflexivity |].
  rewrite emitted_bind; [| apply Hbody |].
  - rewrite emitted_bind;
      [| now apply appends_for_any | intros r; apply appends_ret].
    rewrite IH. unfold emitted at 3, ret; cbn. now rewrite app_nil_r.
  - intros b. apply appends_bind; [now apply appends_for_any |].
    intros r. apply appends_ret.
Qed.

Lemma result_for_any {A : Type} (xs : list A) (body : A -> Emit bool) :
  (forall x, appends_only (body x)) ->
  result (for_any xs body) = existsb (fun x => result (body x)) xs.
Proof.
  intros Hbody. induction xs as [|x xs IH]; cbn [for_any existsb]; [reflexivity |].
  rewrite result_bind; [| apply Hbody |].
  - rewrite result_bind;
      [| now apply appends_for_any | intros r; apply appends_ret].
    rewrite IH. reflexivity.
  - intros b. apply appends_bind; [now apply appends_for_any |].
    intros r. apply appends_ret.
Qed.

(** ** The fallback for a matched table *)

Lemma process_regular_run (table_element : Table) (index : nat)
    (headers_cache : gmap nat (list string * nat)) (section_name : string)
    (out : list DataRow) :
  let hs := default ([], 0%nat) (headers_cache !! index) in
  process_regular_table_static table_element index headers_cache section_name out
  = match collect_data_rows (snd hs) (table_rows table_element) with
    | [] => (false, out)
    | data_rows =>
        (true, out ++ entire_table_marker section_name index
                   :: header_row_record (fst hs) section_name
                   :: map (raw_row_record section_name index) data_rows)
    end.
Proof.
  cbv zeta. unfold process_regular_table_static.
  destruct (default ([], 0%nat) (headers_cache !! index)) as [headers start].
  cbn [fst snd].
  destruct (table_rows table_element) as [|row rows] eqn:E.
  - unfold collect_data_rows. now rewrite drop_nil.
  - destruct (collect_data_rows start (row :: rows)) as [|r data_rows];
      [reflexivity |].
    unfold bind, append at 1, emit_cached_header_row, append at 1, ret.
    rewrite for_each_append. f_equal. now rewrite <- !app_assoc.
Qed.

Lemma appends_process_regular (table_element : Table) (index : nat)
    (headers_cache : gmap nat (list string * nat)) (section_name : string) :
  appends_only
    (process_regular_table_static table_element index headers_cache section_name).
Proof.
  intros out. unfold result, emitted. rewrite !process_regular_run. cbv zeta.
  destruct (collect_data_rows _ _); cbn [fst snd app];
    [now rewrite app_nil_r | reflexivity].
Qed.

Lemma appends_deep_search (table_element : Table) (table_index : nat)
    (headers_cache : gmap nat (list string * nat))
    (search_terms_list keywords_list : list string) (section_name : string) :
  appends_only
    (deep_search_in_table_static table_element table_index headers_cache
       search_terms_list keywords_list section_name).
Proof.
  intros out. unfold result, emitted. rewrite !deep_search_run. cbv zeta.
  destruct (search_rows _ _ _ _ _ _ _); cbn [fst snd app];
    [now rewrite app_nil_r | reflexivity].
Qed.

(** A deep search that returns [False] has emitted nothing. *)
Lemma deep_search_false_silent (table_element : Table) (table_index : nat)
    (headers_cache : gmap nat (list string * nat))
    (processing_input : Query) (section_name : string) :
  deep_search_matched table_element table_index headers_cache processing_input
    section_name = false ->
  deep_search_records table_element table_index headers_cache processing_input
    section_name = [].
Proof.
  unfold deep_search_matched, deep_search_records, result, emitted.
  rewrite deep_search_run. cbv zeta.
  destruct (search_rows _ _ _ _ _ _ _); [reflexivity | discriminate].
Qed.

Lemma appends_process_matched_table (processing_input : Query)
    (headers_cache : gmap nat (list string * nat)) (tbl : MatchInfo) :
  appends_only (process_matched_table processing_input headers_cache tbl).
Proof.
  unfold process_matched_table. apply appends_bind.
  - apply appends_deep_search.
  - intros [|]; [apply appends_ret | apply appends_process_regular].
Qed.

(** What a matched table adds: the deep-search records, or the whole-table
    records when the deep search finds nothing. *)
Lemma emitted_process_matched_table (processing_input : Query)
    (headers_cache : gmap nat (list string * nat)) (tbl : MatchInfo) :
  emitted (process_matched_table processing_input headers_cache tbl)
  = if deep_search_matched (mi_element tbl) (mi_index tbl) headers_cache
         processing_input (mi_section tbl)
    then deep_search_records (mi_element tbl) (mi_index tbl) headers_cache
           processing_input (mi_section tbl)
    else regular_table_records (mi_element tbl) (mi_index tbl) headers_cache
           (mi_section tbl).
Proof.
  unfold process_matched_table.
  rewrite emitted_bind;
    [| apply appends_deep_search
     | intros [|]; [apply appends_ret | apply appends_process_regular]].
  fold (deep_search_matched (mi_element tbl) (mi_index tbl) headers_cache
          processing_input (mi_section tbl)).
  fold (deep_search_records (mi_element tbl) (mi_index tbl) headers_cache
          processing_input (mi_section tbl)).
  destruct (deep_search_matched _ _ _ _ _) eqn:E.
  - change (emitted (ret true)) with (@nil DataRow). now rewrite app_nil_r.
  - now rewrite (deep_search_false_silent _ _ _ _ _ E).
Qed.

Lemma process_matching_tables_run (percent_after : string -> string -> option string)
    (matching_tables_info : list MatchInfo) (processing_input : Query)
    (headers_cache : gmap nat (list string * nat)) (out : list DataRow) :
  process_matching_elements_static percent_after matching_tables_info []
    processing_input headers_cache out
  = (existsb
       (fun tbl => result (process_matched_table processing_input headers_cache tbl))
       matching_tables_info,
     out ++ flat_map
              (fun tbl =>
                 emitted (process_matched_table processing_input headers_cache tbl))
              matching_tables_info).
Proof.
  unfold process_matching_elements_static. cbn [for_any].
  pose proof (appends_for_any matching_tables_info
                (process_matched_table processing_input headers_cache)
                (appends_process_matched_table processing_input headers_cache))
    as Happ.
  unfold bind at 1. rewrite (Happ out).
  rewrite result_for_any, emitted_for_any
    by apply appends_process_matched_table.
  unfold bind, ret. now rewrite orb_false_r.
Qed.

(** C2, as amended.  For every table recorded as matched, when the deep
    search of that table returns [False] the orchestrator runs
    [process_regular_table_static] on it: the records the table adds to
    the output are the whole-table records, that is the "ENTIRE TABLE"
    marker, the header summary and one raw record per data row, or nothing
    when the table has no data row. *)
Theorem C2_fallback_emits_whole_table
    (percent_after : string -> string -> option string)
    (matching_tables_info : list MatchInfo) (processing_input : Query)
    (headers_cache : gmap nat (list string * nat)) (out : list DataRow)
    (tbl : MatchInfo) :
  In tbl matching_tables_info ->
  deep_search_matched (mi_element tbl) (mi_index tbl) headers_cache
    processing_input (mi_section tbl) = false ->
  let hs := default ([], 0%nat) (headers_cache !! mi_index tbl) in
  let data_rows := collect_data_rows (snd hs) (table_rows (mi_element tbl)) in
  (exists before after : list DataRow,
      snd (process_matching_elements_static percent_after matching_tables_info
             [] processing_input headers_cache out)
      = out ++ before
            ++ regular_table_records (mi_element tbl) (mi_index tbl)
                 headers_cache (mi_section tbl)
            ++ after)
  /\ emitted (process_matched_table processing_input headers_cache tbl)
     = regular_table_records (mi_element tbl) (mi_index tbl) headers_cache
         (mi_section tbl)
  /\ regular_table_records (mi_element tbl) (mi_index tbl) headers_cache
       (mi_section tbl)
     = match data_rows with
       | [] => []
       | _ =>
           entire_table_marker (mi_section tbl) (mi_index tbl)
           :: header_row_record (fst hs) (mi_section tbl)
           :: map (raw_row_record (mi_section tbl) (mi_index tbl)) data_rows
       end.
Proof.
  intros Hin Hdeep. cbv zeta.
  assert (Hown : emitted (process_matched_table processing_input headers_cache tbl)
                 = regular_table_records (mi_element tbl) (mi_index tbl)
                     headers_cache (mi_section tbl))
    by now rewrite emitted_process_matched_table, Hdeep.
  split; [| split].
  - apply in_split in Hin as [l1 [l2 ->]].
    rewrite process_matching_tables_run. cbn [snd].
    rewrite flat_map_app. cbn [flat_map]. rewrite Hown.
    now eexists _, _.
  - exact Hown.
  - unfold regular_table_records, emitted. rewrite process_regular_run.
    cbv zeta. now destruct (collect_data_rows _ _).
Qed.

Lemma C2_fallback_emits_whole_table_witness :
  emitted (process_matched_table retention_query
             (build_headers_cache [cost_table]) cost_table_match)
  = regular_table_records cost_table 0 (build_headers_cache [cost_table])
      "Retention and Graduation Rates".
Proof.
  exact (proj1 (proj2
    (C2_fallback_emits_whole_table no_percent [cost_table_match]
       retention_query (build_headers_cache [cost_table]) []
       cost_table_match (or_introl eq_refl)
       ltac:(vm_compute; reflexivity)))).
Defined.

(** C2, as stated, fails on [retention_page]: [cost_table] is matched
    through its section name, its deep search finds nothing, and what the
    orchestrator emits for it are the four whole-table records, not the two
    records of the three-mode formatter. *)
Lemma C2_counterexample_fallback_is_not_the_formatter :
  find_matching_tables_static retention_page [cost_table]
    ["retention"] ["retention"] retention_titles
  = [cost_table_match]
  /\ deep_search_matched cost_table 0 (build_headers_cache [cost_table])
       retention_query "Retention and Graduation Rates" = false
  /\ emitted (find_and_process_tables_graphs_static no_percent retention_page
                retention_query retention_titles)
     = [ {| Category :=
              "--- Retention and Graduation Rates - ENTIRE TABLE 1 CONTENT ---";
            Value := "";
            Section_ := "Retention and Graduation Rates";
            Source := "Full Table 1 (Header)" |};
         {| Category := "blank"; Value := "blank";
            Section_ := "Retention and Graduation Rates";
            Source := "Deep Table Search – Table Headers" |};
         {| Category := "Total cost"; Value := "$25,000";
            Section_ := "Retention and Graduation Rates";
            Source := "Full Table 1" |};
         {| Category := "Net price"; Value := "$18,500";
            Section_ := "Retention and Graduation Rates";
            Source := "Full Table 1" |} ]
  /\ (forall source_description : string,
        emitted (add_table_to_data_static []
                   [ ["Total cost"; "$25,000"]; ["Net price"; "$18,500"] ]
                   "Retention and Graduation Rates" source_description)
        = [ {| Category := "Total cost"; Value := "$25,000";
               Section_ := "Retention and Graduation Rates";
               Source := source_description |};
            {| Category := "Net price"; Value := "$18,500";
               Section_ := "Retention and Graduation Rates";
               Source := source_description |} ])
  /\ (forall source_description : string,
        emitted (find_and_process_tables_graphs_static no_percent retention_page
                   retention_query retention_titles)
        <> emitted (add_table_to_data_static []
                      [ ["Total cost"; "$25,000"]; ["Net price"; "$18,500"] ]
                      "Retention and Graduation Rates" source_description)).
Proof.
  split; [vm_compute; reflexivity |].
  split; [vm_compute; reflexivity |].
  split; [vm_compute; reflexivity |].
  split; [intros src; reflexivity |].
  intros src H. apply (f_equal (@length DataRow)) in H.
  vm_compute in H. discriminate H.
Qed.

(** A matched table without data row gets no record at all from its own
    processing. *)
Lemma matched_table_without_data_rows :
  find_matching_tables_static
    {| page_tables := [heading_only_table]; page_tabtitles := [] |}
    [heading_only_table] ["retention"] [] []
  = [ {| mi_index := 0; mi_element := heading_only_table;
         mi_match_type :=
           "exact_term 'retention' in table_text/caption/thead/section";
         mi_section := "Unknown Section (No Titles Provided)" |} ]
  /\ emitted (find_and_process_tables_graphs_static no_percent
                {| page_tables := [heading_only_table]; page_tabtitles := [] |}
                {| search_terms := ["retention"]; keywords := [] |} [])
     = [].
Proof. split; vm_compute; reflexivity. Qed.

(** ** The fallback cascade *)

Lemma deep_search_true_emits (table_element : Table) (table_index : nat)
    (headers_cache : gmap nat (list string * nat))
    (processing_input : Query) (section_name : string) :
  deep_search_matched table_element table_index headers_cache processing_input
    section_name = true ->
  deep_search_records table_element table_index headers_cache processing_input
    section_name <> [].
Proof.
  unfold deep_search_matched, deep_search_records, result, emitted.
  rewrite deep_search_run. cbv zeta.
  destruct (search_rows _ _ _ _ _ _ _); [discriminate | intros _; discriminate].
Qed.

Section Cascade.

Variable driver : Driver.
Variable processing_input : Query.
Variable section_titles_on_page : list string.
Variable headers_cache : gmap nat (list string * nat).

Lemma appends_fallback_deep_search (all_page_tables : list Table) :
  appends_only
    (fallback_deep_search driver all_page_tables processing_input
       section_titles_on_page headers_cache).
Proof.
  unfold fallback_deep_search. apply appends_for_any.
  intros [i tbl]. apply appends_deep_search.
Qed.

Lemma emitted_fallback_deep_search (all_page_tables : list Table) :
  emitted (fallback_deep_search driver all_page_tables processing_input
             section_titles_on_page headers_cache)
  = fallback_deep_records driver all_page_tables processing_input
      section_titles_on_page headers_cache.
Proof.
  unfold fallback_deep_search, fallback_deep_records.
  rewrite emitted_for_any by (intros [i tbl]; apply appends_deep_search).
  apply flat_map_ext. now intros [i tbl].
Qed.

(** The deep-search pass reports a match exactly when it emitted. *)
Lemma result_fallback_deep_search (all_page_tables : list Table) :
  result (fallback_deep_search driver all_page_tables processing_input
            section_titles_on_page headers_cache) = false
  <-> fallback_deep_records driver all_page_tables processing_input
        section_titles_on_page headers_cache = [].
Proof.
  unfold fallback_deep_search, fallback_deep_records.
  rewrite result_for_any by (intros [i tbl]; apply appends_deep_search).
  generalize 0%nat.
  induction all_page_tables as [|tbl tbls IH]; intros n;
    cbn [Py.enumerate existsb flat_map]; [tauto |].
  fold (deep_search_matched tbl n headers_cache processing_input
          (determine_section_static driver tbl section_titles_on_page)).
  rewrite orb_false_iff, IH. split.
  - intros [H1 H2]. now rewrite (deep_search_false_silent _ _ _ _ _ H1), H2.
  - intros H. apply app_eq_nil in H as [H1 H2]. split; [| exact H2].
    destruct (deep_search_matched tbl n headers_cache processing_input _) eqn:E;
      [| reflexivity].
    now apply deep_search_true_emits in E.
Qed.

Lemma appends_keyword_fallback_table (entry : nat * Table * string) :
  appends_only (keyword_fallback_table headers_cache entry).
Proof.
  destruct entry as [[idx tbl] sect]. unfold keyword_fallback_table.
  apply appends_bind; [apply appends_append | intros _].
  apply appends_bind; [apply appends_process_regular | intros _].
  apply appends_ret.
Qed.

Lemma emitted_keyword_fallback_table (idx : nat) (tbl : Table) (sect : string) :
  emitted (keyword_fallback_table headers_cache (idx, tbl, sect))
  = search_section_marker sect
    :: regular_table_records tbl idx headers_cache sect.
Proof.
  unfold keyword_fallback_table.
  rewrite emitted_bind;
    [| apply appends_append
     | intros _; apply appends_bind;
       [apply appends_process_regular | intros _; apply appends_ret]].
  rewrite emitted_bind;
    [| apply appends_process_regular | intros _; apply appends_ret].
  change (emitted (ret tt)) with (@nil DataRow).
  now rewrite app_nil_r.
Qed.

Lemma emitted_keyword_pass (all_page_tables : list Table) :
  emitted (for_each
             (kw_tables_of driver all_page_tables (keywords processing_input)
                section_titles_on_page)
             (keyword_fallback_table headers_cache))
  = fallback_keyword_records driver all_page_tables processing_input
      section_titles_on_page headers_cache.
Proof.
  rewrite emitted_for_each by apply appends_keyword_fallback_table.
  unfold kw_tables_of, fallback_keyword_records.
  generalize 0%nat.
  induction all_page_tables as [|tbl tbls IH]; intros n;
    cbn [Py.enumerate flat_map]; [reflexivity |].
  rewrite flat_map_app, IH.
  destruct (keyword_match_static _ _); cbn [flat_map app]; [| reflexivity].
  now rewrite emitted_keyword_fallback_table, app_nil_r.
Qed.

(** What [handle_no_matches_static] does to the list. *)
Lemma handle_no_matches_run (all_page_tables : list Table)
    (all_page_graph_elements : list MatchInfo) (out : list DataRow) :
  handle_no_matches_static driver all_page_tables all_page_graph_elements
    processing_input section_titles_on_page headers_cache out
  = (tt,
     out ++ match fallback_deep_records driver all_page_tables processing_input
                    section_titles_on_page headers_cache,
                  keywords processing_input with
            | [], _ :: _ =>
                fallback_keyword_records driver all_page_tables processing_input
                  section_titles_on_page headers_cache
            | deep, _ => deep
            end).
Proof.
  unfold handle_no_matches_static, bind.
  rewrite (appends_fallback_deep_search all_page_tables out).
  rewrite emitted_fallback_deep_search.
  destruct (result (fallback_deep_search _ _ _ _ _)) eqn:E.
  - unfold ret.
    destruct (fallback_deep_records _ _ _ _ _) as [|r deep] eqn:D;
      [| reflexivity].
    apply result_fallback_deep_search in D. congruence.
  - apply result_fallback_deep_search in E. rewrite E.
    destruct (keywords processing_input) as [|k kws] eqn:K; [reflexivity |].
    rewrite app_nil_r.
    rewrite (appends_for_each _ _ appends_keyword_fallback_table out).
    rewrite <- K, emitted_keyword_pass.
    now destruct (result _).
Qed.

End Cascade.

(** The records of that run. *)
Lemma chart_page_fallback_records :
  emitted (find_and_process_tables_graphs_static no_percent chart_page
             {| search_terms := ["retention"]; keywords := [] |} [])
  = [ {| Category :=
           "--- Unknown Section (No Titles Provided) - SEARCH RESULTS IN TABLE ---";
         Value := "";
         Section_ := "Unknown Section (No Titles Provided)";
         Source := "Deep Table Search Section Header" |};
      {| Category := "blank"; Value := "blank";
         Section_ := "Unknown Section (No Titles Provided)";
         Source := "Deep Table Search – Table Headers" |};
      {| Category := "Graduation"; Value := "Retention chart";
         Section_ := "Unknown Section (No Titles Provided)";
         Source := "DeepSearch - Term Match" |} ].
Proof. vm_compute. reflexivity. Qed.

(** The keyword pass after a match that emitted nothing: the table gets
    the section marker, and no whole-table record since it has no data
    row. *)
Lemma keyword_pass_on_table_without_data_rows :
  emitted (find_and_process_tables_graphs_static no_percent
             {| page_tables := [heading_only_table]; page_tabtitles := [] |}
             {| search_terms := ["retention"]; keywords := ["retention"] |} [])
  = [ {| Category :=
           "--- Unknown Section (No Titles Provided) - SEARCH RESULTS IN TABLE ---";
         Value := "";
         Section_ := "Unknown Section (No Titles Provided)";
         Source := "Deep Table Search Section Header" |} ].
Proof. vm_compute. reflexivity. Qed.

(** ** Discovery of graph widgets *)

(** The first definition tests a term, then the percent sign, then any alt
    text, and stops at the first success. *)
Lemma shadowed_graph_match_type_order (terms : list string) (alt_text : string) :
  Forall (fun t => Py.truthy t = true) terms ->
  Shadowed.graph_match_type terms alt_text =
  match List.find (fun term => Py.contains (Py.lower term) alt_text) terms with
  | Some term => Some ("term_match_graph (" +:+ term +:+ ")")
  | None =>
      if Py.contains "%" alt_text then Some "percent_graph"
      else if Py.truthy alt_text then Some "any_graph_with_alt"
      else None
  end.
Proof.
  intros Hterms. unfold Shadowed.graph_match_type.
  destruct (List.find _ terms) as [term|] eqn:E; [| reflexivity].
  apply find_some in E as [Hin _].
  rewrite Forall_forall in Hterms.
  now rewrite (Hterms term (proj2 (list_elem_of_In _ _) Hin)).
Qed.

(** The definition in effect has no such heuristic: without a term and
    without keywords in the title, the alt text or the text of the widget,
    the widget is not matched, whatever its alt text. *)
Lemma graph_match_type_none (terms kws : list string)
    (title_text alt_text container_text : string) :
  List.find
    (fun term =>
       Py.contains (Py.lower term) title_text
       || Py.contains (Py.lower term) alt_text
       || Py.contains (Py.lower term) container_text) terms = None ->
  keyword_match_static container_text kws = false ->
  keyword_match_static title_text kws = false ->
  keyword_match_static alt_text kws = false ->
  graph_match_type terms kws title_text alt_text container_text = None.
Proof.
  intros Hfind H1 H2 H3. unfold graph_match_type.
  rewrite Hfind, H1, H2, H3. now destruct kws.
Qed.

(** C3 on two chart widgets.  The definition of
    [find_matching_graph_tables_static] in effect, the second one, matches
    neither the widget whose alt text holds a percent sign nor the one
    whose alt text is merely not empty; the first definition, which the
    second one replaces, records them as the claim says. *)
Theorem C3_graph_heuristics_not_in_effect
    (driver : Driver) (section_titles_on_page : list string) :
  find_matching_graph_tables_static driver [graduation_chart; enrollment_chart]
    ["retention"] ["retention"] section_titles_on_page
  = []
  /\ Shadowed.find_matching_graph_tables_static driver
       [graduation_chart; enrollment_chart] ["retention"] ["retention"]
       section_titles_on_page
     = [ {| mi_index := 0; mi_element := graduation_chart;
            mi_match_type := "percent_graph";
            mi_section :=
              determine_section_static driver graduation_chart
                section_titles_on_page |};
         {| mi_index := 1; mi_element := enrollment_chart;
            mi_match_type := "any_graph_with_alt";
            mi_section :=
              determine_section_static driver enrollment_chart
                section_titles_on_page |} ].
Proof. split; reflexivity. Qed.

(** ** The keyword pass and discovery *)

Lemma lower_append (a b : string) : Py.lower (a +:+ b) = Py.lower a +:+ Py.lower b.
Proof. induction a as [|c a IH]; simpl; [reflexivity | now rewrite IH]. Qed.

Lemma Infix_trans (a b c : string) : Py.Infix a b -> Py.Infix b c -> Py.Infix a c.
Proof.
  intros [p1 [q1 ->]] [p2 [q2 ->]].
  exists (p2 +:+ p1), (q1 +:+ q2). now rewrite !append_assoc.
Qed.

Lemma Infix_prefix (a b : string) : Py.Infix a (a +:+ b).
Proof. now exists "", b. Qed.

Lemma Infix_of_empty (a : string) : Py.Infix a "" -> a = "".
Proof.
  intros [pre [post H]]. destruct pre; [| discriminate].
  destruct a; [reflexivity | discriminate].
Qed.

(** The first text of the aggregate, when it is not empty, opens it. *)
Lemma join_filter_head (sep x : string) (xs : list string) :
  Py.truthy x = true ->
  exists rest, Py.join sep (List.filter Py.truthy (x :: xs)) = x +:+ rest.
Proof.
  intros Hx. cbn [List.filter]. rewrite Hx.
  destruct (List.filter Py.truthy xs) as [|y ys].
  - exists "". cbn. now rewrite append_empty_r.
  - now exists (sep +:+ Py.join sep (y :: ys)).
Qed.

(** A table whose own text holds all the keywords is matched on its
    aggregate text. *)
Lemma keyword_match_text_then_aggregate (table_element : Table)
    (section_name : string) (kws : list string) :
  keyword_match_static (Py.lower (tbl_text table_element)) kws = true ->
  keyword_match_static (combined_searchable_text table_element section_name) kws
  = true.
Proof.
  rewrite !keyword_match_static_iff. intros [Hne Hall]. split; [exact Hne |].
  rewrite Forall_forall in *. intros k Hk. specialize (Hall k Hk).
  unfold combined_searchable_text.
  destruct (Py.truthy (Py.lower (tbl_text table_element))) eqn:Ht.
  - cbn [app].
    destruct (join_filter_head " " (Py.lower (tbl_text table_element))
                (map Py.lower (tbl_captions table_element)
                 ++ map (fun th_element => Py.lower (cell_text th_element))
                      (thead_ths table_element)
                 ++ (if Py.truthy section_name
                        && negb (Py.contains "Unknown Section" section_name)
                     then [Py.lower section_name] else [])) Ht) as [rest ->].
    rewrite lower_append. eapply Infix_trans; [exact Hall | apply Infix_prefix].
  - assert (Hempty : Py.lower (tbl_text table_element) = "")
      by (destruct (Py.lower (tbl_text table_element)); [reflexivity | discriminate]).
    rewrite Hempty in Hall. cbn [Py.lower] in Hall.
    apply Infix_of_empty in Hall. rewrite Hall. apply Infix_empty.
Qed.

Lemma in_enumerate {A : Type} (start i : nat) (x : A) (xs : list A) :
  In (i, x) (Py.enumerate start xs) -> In x xs.
Proof.
  revert start. induction xs as [|y xs IH]; intros start; cbn [Py.enumerate];
    [tauto |].
  intros [H | H]; [injection H as _ ->; now left | right; eauto].
Qed.

(** Discovery records something as soon as one table has a match reason. *)
Lemma find_matching_tables_nonempty (driver : Driver) (tables : list Table)
    (terms kws titles : list string) (tbl : Table) :
  In tbl tables ->
  table_match_reason terms kws
    (combined_searchable_text tbl (determine_section_static driver tbl titles))
  <> None ->
  find_matching_tables_static driver tables terms kws titles <> [].
Proof.
  intros Hin Hreason. unfold find_matching_tables_static.
  assert (Hgen : forall n acc,
    acc <> [] \/ In tbl tables ->
    fold_left
      (fun matching_tables_info '(i, table_element) =>
         let section_name := determine_section_static driver table_element titles in
         let combined := combined_searchable_text table_element section_name in
         match table_match_reason terms kws combined with
         | None => matching_tables_info
         | Some match_reason =>
             if existsb (fun info => (mi_index info =? i)%nat) matching_tables_info
             then matching_tables_info
             else matching_tables_info
                  ++ [ {| mi_index := i; mi_element := table_element;
                          mi_match_type := match_reason;
                          mi_section := section_name |} ]
         end)
      (Py.enumerate n tables) acc <> []).
  { clear Hin. induction tables as [|t ts IH]; intros n acc Hor.
    - cbn. destruct Hor as [H | H]; [exact H | destruct H].
    - cbn [Py.enumerate fold_left]. apply IH.
      destruct Hor as [Hacc | [-> | Hin]].
      + left. cbv zeta.
        destruct (table_match_reason terms kws (combined_searchable_text t _));
          [| exact Hacc].
        destruct (existsb _ acc); [exact Hacc |].
        intros H. now apply app_eq_nil in H as [H _].
      + left. cbv zeta.
        destruct (table_match_reason terms kws (combined_searchable_text tbl _))
          as [reason|]; [| now contradiction Hreason].
        destruct (existsb _ acc) eqn:E.
        * intros ->. discriminate E.
        * intros H. apply app_eq_nil in H as [_ H]. discriminate H.
      + now right. }
  apply Hgen. now right.
Qed.

(** Under the premise of C4 the keyword pass selects no table: a table it
    would select is one discovery records.  The pass adds records only when
    the fallback runs after a match that emitted nothing. *)
Lemma keyword_pass_silent_after_empty_discovery (driver : Driver)
    (tables : list Table) (processing_input : Query) (titles : list string)
    (headers_cache : gmap nat (list string * nat)) :
  find_matching_tables_static driver tables (search_terms processing_input)
    (keywords processing_input) titles = [] ->
  fallback_keyword_records driver tables processing_input titles headers_cache
  = [].
Proof.
  intros Hnone. unfold fallback_keyword_records.
  assert (Hall : forall p, In p (Py.enumerate 0 tables) ->
            keyword_match_static (Py.lower (tbl_text (snd p)))
              (keywords processing_input) = false).
  { intros [i tbl] Hin. cbn [snd]. apply in_enumerate in Hin.
    destruct (keyword_match_static _ _) eqn:E; [| reflexivity].
    exfalso. revert Hnone.
    apply (find_matching_tables_nonempty driver tables _ _ titles tbl Hin).
    unfold table_match_reason. destruct (List.find _ _); [discriminate |].
    rewrite (keyword_match_text_then_aggregate tbl _ _ E).
    destruct (keywords processing_input); [discriminate E | discriminate]. }
  induction (Py.enumerate 0 tables) as [|[i tbl] l IH]; [reflexivity |].
  cbn [flat_map]. pose proof (Hall (i, tbl) (or_introl eq_refl)) as Hi.
  cbn [snd] in Hi. rewrite Hi. cbn [app].
  apply IH. intros p Hp. apply Hall. now right.
Qed.

(** * Further properties *)

(** ** Keyword matching *)

Lemma lower_upper_char (c : ascii) :
  Py.lower_char (Py.upper_char c) = Py.lower_char c.
Proof. destruct c as [[] [] [] [] [] [] [] []]; vm_compute; reflexivity. Qed.

Lemma lower_upper (s : string) : Py.lower (Py.upper s) = Py.lower s.
Proof.
  induction s as [|c s IH]; [reflexivity |].
  cbn [Py.upper Py.lower]. now rewrite lower_upper_char, IH.
Qed.

Lemma lower_lower_char (c : ascii) :
  Py.lower_char (Py.lower_char c) = Py.lower_char c.
Proof. destruct c as [[] [] [] [] [] [] [] []]; vm_compute; reflexivity. Qed.

Lemma lower_lower (s : string) : Py.lower (Py.lower s) = Py.lower s.
Proof.
  induction s as [|c s IH]; [reflexivity |].
  cbn [Py.lower]. now rewrite lower_lower_char, IH.
Qed.

(** X1.  The keywords come from a set, in no fixed order: the order of the
    list does not change the answer of [keyword_match_static]. *)
Theorem X1_keyword_match_order_free (text : string) (kws kws' : list string) :
  Permutation kws kws' ->
  keyword_match_static text kws = keyword_match_static text kws'.
Proof.
  intros Hperm.
  destruct (keyword_match_static text kws) eqn:E; symmetry.
  - apply keyword_match_static_iff in E as [Hne Hall].
    apply keyword_match_static_iff. split.
    + intros ->. apply Hne. exact (proj1 (Permutation_nil_r _) Hperm).
    + now rewrite <- Hperm.
  - destruct (keyword_match_static text kws') eqn:E'; [| reflexivity].
    apply keyword_match_static_iff in E' as [Hne Hall].
    assert (H : keyword_match_static text kws = true).
    { apply keyword_match_static_iff. split.
      - intros ->. apply Hne. symmetry.
        exact (proj1 (Permutation_nil_l _) Hperm).
      - now rewrite Hperm. }
    congruence.
Qed.

Lemma X1_keyword_match_order_free_witness :
  keyword_match_static "Retention Rate" ["retention"; "rate"]
  = keyword_match_static "Retention Rate" ["rate"; "retention"].
Proof.
  apply (X1_keyword_match_order_free "Retention Rate"
           ["retention"; "rate"] ["rate"; "retention"]).
  apply perm_swap.
Defined.

(** X2.  On ASCII text and keywords [keyword_match_static] ignores case:
    upper-casing the text and every keyword changes nothing.  (Outside
    ASCII, upper-casing can change the length of a text, so the property is
    stated for ASCII only.) *)
Theorem X2_keyword_match_ignores_case (text : string) (kws : list string) :
  string_all is_ascii text = true ->
  Forall (fun k => string_all is_ascii k = true) kws ->
  keyword_match_static (Py.upper text) (map Py.upper kws)
  = keyword_match_static text kws.
Proof.
  intros _ _.
  unfold keyword_match_static. destruct kws as [|k kws]; [reflexivity |].
  change (map Py.upper (k :: kws)) with (Py.upper k :: map Py.upper kws).
  rewrite lower_upper. cbn [forallb]. rewrite lower_upper. f_equal.
  induction kws as [|k' kws IH]; [reflexivity |].
  cbn [map forallb]. now rewrite lower_upper, IH.
Qed.

Lemma X2_keyword_match_ignores_case_witness :
  keyword_match_static "FIRST-YEAR RETENTION RATE" ["RETENTION"; "RATE"]
  = keyword_match_static "First-Year Retention rate" ["Retention"; "rate"].
Proof.
  apply (X2_keyword_match_ignores_case "First-Year Retention rate"
           ["Retention"; "rate"]).
  - vm_compute. reflexivity.
  - repeat constructor.
Defined.

(** X3.  A text that holds all the keywords still does when it is part of a
    longer text: the match of a text carries over to every text that
    contains it, whatever their case. *)
Theorem X3_keyword_match_monotone (text longer : string) (kws : list string) :
  Py.Infix (Py.lower text) (Py.lower longer) ->
  keyword_match_static text kws = true ->
  keyword_match_static longer kws = true.
Proof.
  intros Hin. rewrite !keyword_match_static_iff. intros [Hne Hall].
  split; [exact Hne |]. rewrite Forall_forall in *.
  intros k Hk. eapply Infix_trans; [apply Hall, Hk | exact Hin].
Qed.

Lemma X3_keyword_match_monotone_witness :
  keyword_match_static "First-Year RETENTION rate, 2023" ["retention"; "rate"]
  = true.
Proof.
  apply (X3_keyword_match_monotone "retention rate"
           "First-Year RETENTION rate, 2023" ["retention"; "rate"]).
  - apply contains_spec. vm_compute. reflexivity.
  - vm_compute. reflexivity.
Defined.

(** ** Section location *)

Section Locate.

Variable section_titles : list string.
Variable elem_y : Z.

#[local] Abbreviation dist_of := (marker_distance section_titles elem_y).
#[local] Abbreviation step := (closer_header section_titles elem_y).

Lemma closer_header_cases (st : string * option Z) (header : SectionHeader) :
  step st header =
  match dist_of header with
  | Some d =>
      if match snd st with None => true | Some best => (d <? best)%Z end
      then (Py.strip (hdr_text header), Some d)
      else st
  | None => st
  end.
Proof.
  unfold closer_header, marker_distance.
  destruct (Py.mem _ section_titles); cbn [negb]; [| reflexivity].
  destruct (hdr_y header) as [hy|]; [| reflexivity].
  destruct (0 <=? elem_y - hy)%Z; reflexivity.
Qed.

Lemma fold_closer_header_located (hs : list SectionHeader) :
  located section_titles elem_y hs
    (fold_left step hs ("Unknown Section (No Match)", None)).
Proof.
  induction hs as [|x hs IH] using rev_ind.
  - left. split; [reflexivity | constructor].
  - rewrite fold_left_app. cbn [fold_left]. rewrite closer_header_cases.
    destruct (dist_of x) as [d|] eqn:Ex.
    + destruct IH as [[-> Hnone] | [pre [h [post [d0 [-> [Hd0 [-> [Hpre Hpost]]]]]]]]].
      * cbn [snd]. right. exists hs, x, [], d.
        repeat split; [assumption | | constructor].
        eapply Forall_impl; [exact Hnone |].
        cbn. intros h' Hh' d' Hd'. congruence.
      * cbn [snd]. destruct (Z.ltb_spec d d0) as [Hlt | Hge].
        -- right. exists (pre ++ h :: post), x, [], d.
           repeat split; [assumption | | constructor].
           apply Forall_app. split; [| constructor].
           ++ eapply Forall_impl; [exact Hpre |].
              cbn. intros h' Hh' d' Hd'. specialize (Hh' d' Hd'). lia.
           ++ intros d' Hd'. assert (d' = d0) by congruence. lia.
           ++ eapply Forall_impl; [exact Hpost |].
              cbn. intros h' Hh' d' Hd'. specialize (Hh' d' Hd'). lia.
        -- right. exists pre, h, (post ++ [x]), d0.
           repeat split; try assumption.
           ++ now rewrite <- app_assoc.
           ++ apply Forall_app. split; [exact Hpost |].
              constructor; [| constructor].
              intros d' Hd'. assert (d' = d) by congruence. lia.
    + destruct IH as [[-> Hnone] | [pre [h [post [d0 [-> [Hd0 [-> [Hpre Hpost]]]]]]]]].
      * left. split; [reflexivity |].
        apply Forall_app. split; [exact Hnone | now constructor].
      * right. exists pre, h, (post ++ [x]), d0.
        repeat split; try assumption.
        -- now rewrite <- app_assoc.
        -- apply Forall_app. split; [exact Hpost |].
           constructor; [| constructor]. intros d' Hd'. congruence.
Qed.

End Locate.

Lemma mem_In (x : string) (xs : list string) : Py.mem x xs = true <-> In x xs.
Proof.
  unfold Py.mem. rewrite existsb_exists. split.
  - intros [y [Hy Heq]]. apply String.eqb_eq in Heq. now subst.
  - intros H. exists x. split; [exact H | apply String.eqb_refl].
Qed.

Lemma marker_distance_some (section_titles : list string) (elem_y : Z)
    (header : SectionHeader) (d : Z) :
  marker_distance section_titles elem_y header = Some d ->
  In (Py.strip (hdr_text header)) section_titles
  /\ exists hy, hdr_y header = Some hy /\ (hy <= elem_y)%Z /\ d = (elem_y - hy)%Z.
Proof.
  unfold marker_distance.
  destruct (Py.mem _ section_titles) eqn:Em; [| discriminate].
  destruct (hdr_y header) as [hy|]; [| discriminate].
  destruct (Z.leb_spec 0 (elem_y - hy)) as [Hle | Hgt]; [| discriminate].
  intros [= <-]. split; [now apply mem_In |].
  exists hy. repeat split. lia.
Qed.

(** What [determine_section_static] returns once the position of the
    element is known and there are titles and markers. *)
Lemma determine_section_located (driver : Driver) (element : Table)
    (section_titles : list string) (elem_y : Z) :
  tbl_y element = Some elem_y ->
  section_titles <> [] ->
  page_tabtitles driver <> [] ->
  exists best : option Z,
    located section_titles elem_y (page_tabtitles driver)
      (determine_section_static driver element section_titles, best).
Proof.
  intros Hy Ht Hh. unfold determine_section_static. rewrite Hy.
  destruct section_titles as [|t ts]; [now contradiction Ht |].
  destruct (page_tabtitles driver) as [|h hs] eqn:E; [now contradiction Hh |].
  pose proof (fold_closer_header_located (t :: ts) elem_y (h :: hs)) as Hloc.
  destruct (fold_left _ (h :: hs) _) as [closest best] eqn:Ef.
  exists best. exact Hloc.
Qed.

(** X4.  [determine_section_static] returns one of its four "Unknown
    Section" strings, or the stripped text of a section marker of the page
    that is one of the titles passed in and that lies at or above the
    element: it never names a section outside the list it was given. *)
Theorem X4_section_is_sentinel_or_listed_title (driver : Driver)
    (element : Table) (section_titles : list string) :
  let section := determine_section_static driver element section_titles in
  section = "Unknown Section (JS Error)"
  \/ section = "Unknown Section (No Titles Provided)"
  \/ section = "Unknown Section (No Headers On Page)"
  \/ section = "Unknown Section (No Match)"
  \/ exists (header : SectionHeader) (elem_y hy : Z),
       In header (page_tabtitles driver)
       /\ section = Py.strip (hdr_text header)
       /\ In section section_titles
       /\ tbl_y element = Some elem_y
       /\ hdr_y header = Some hy
       /\ (hy <= elem_y)%Z.
Proof.
  cbv zeta.
  destruct (tbl_y element) as [elem_y|] eqn:Hy;
    [| left; unfold determine_section_static; now rewrite Hy].
  destruct section_titles as [|t ts] eqn:Et;
    [right; left; unfold determine_section_static; now rewrite Hy |].
  destruct (page_tabtitles driver) as [|h hs] eqn:Eh;
    [right; right; left; unfold determine_section_static; now rewrite Hy, Eh |].
  destruct (determine_section_located driver element (t :: ts) elem_y Hy)
    as [best Hloc]; [discriminate | now rewrite Eh |].
  rewrite Eh in Hloc.
  destruct Hloc as [[Hst _] | [pre [x [post [d [Hsplit [Hd [Hst _]]]]]]]].
  - right; right; right; left. now injection Hst.
  - right; right; right; right.
    apply marker_distance_some in Hd as [Hin [hy [Hhy [Hle _]]]].
    injection Hst as Hsec _.
    exists x, elem_y, hy. rewrite Hsec.
    repeat split; try assumption.
    rewrite Hsplit. apply in_or_app. right. now left.
Qed.

(** X5.  With the position of the element known, [determine_section_static]
    picks the closest qualifying marker at or above the element, the first
    one in page order among equally close ones; when the page has markers
    and titles are given but no marker qualifies, it returns "Unknown
    Section (No Match)". *)
Theorem X5_section_is_closest_preceding_marker (driver : Driver)
    (element : Table) (section_titles : list string) (elem_y : Z) :
  tbl_y element = Some elem_y ->
  section_titles <> [] ->
  page_tabtitles driver <> [] ->
  (Forall (fun h => marker_distance section_titles elem_y h = None)
     (page_tabtitles driver) ->
   determine_section_static driver element section_titles
   = "Unknown Section (No Match)")
  /\ (forall (h : SectionHeader) (d : Z),
        In h (page_tabtitles driver) ->
        marker_distance section_titles elem_y h = Some d ->
        exists (pre : list SectionHeader) (best : SectionHeader)
               (post : list SectionHeader) (dbest : Z),
          page_tabtitles driver = pre ++ best :: post
          /\ marker_distance section_titles elem_y best = Some dbest
          /\ determine_section_static driver element section_titles
             = Py.strip (hdr_text best)
          /\ (dbest <= d)%Z
          /\ Forall (fun h' => forall d',
                       marker_distance section_titles elem_y h' = Some d' ->
                       (dbest < d')%Z) pre
          /\ Forall (fun h' => forall d',
                       marker_distance section_titles elem_y h' = Some d' ->
                       (dbest <= d')%Z) post).
Proof.
  intros Hy Ht Hh.
  destruct (determine_section_located driver element section_titles elem_y
              Hy Ht Hh) as [best0 Hloc].
  destruct Hloc as [[Hst Hnone] | [pre [x [post [dx [Hsplit [Hdx [Hst [Hpre Hpost]]]]]]]]].
  - split; [intros _; now injection Hst |].
    intros h d Hin Hd. rewrite Forall_forall in Hnone.
    specialize (Hnone h (proj2 (list_elem_of_In _ _) Hin)). congruence.
  - split.
    + intros Hnone. rewrite Forall_forall in Hnone.
      assert (Hx : In x (page_tabtitles driver))
        by (rewrite Hsplit; apply in_or_app; right; now left).
      specialize (Hnone x (proj2 (list_elem_of_In _ _) Hx)). congruence.
    + intros h d Hin Hd. exists pre, x, post, dx.
      injection Hst as Hsec _.
      repeat split; try assumption.
      rewrite Hsplit in Hin. apply in_app_or in Hin as [Hin | [<- | Hin]].
      * rewrite Forall_forall in Hpre.
        specialize (Hpre h (proj2 (list_elem_of_In _ _) Hin) d Hd). lia.
      * assert (d = dx) by congruence. lia.
      * rewrite Forall_forall in Hpost.
        exact (Hpost h (proj2 (list_elem_of_In _ _) Hin) d Hd).
Qed.

Lemma X5_section_is_closest_preceding_marker_witness :
  exists (pre : list SectionHeader) (best : SectionHeader)
         (post : list SectionHeader) (dbest : Z),
    page_tabtitles three_section_page = pre ++ best :: post
    /\ marker_distance ["GENERAL INFORMATION"; "Tuition, Fees"; "Enrollment"]
         100%Z best = Some dbest
    /\ determine_section_static three_section_page cost_table
         ["GENERAL INFORMATION"; "Tuition, Fees"; "Enrollment"]
       = Py.strip (hdr_text best)
    /\ (dbest <= 90)%Z
    /\ Forall (fun h' => forall d',
                 marker_distance
                   ["GENERAL INFORMATION"; "Tuition, Fees"; "Enrollment"]
                   100%Z h' = Some d' -> (dbest < d')%Z) pre
    /\ Forall (fun h' => forall d',
                 marker_distance
                   ["GENERAL INFORMATION"; "Tuition, Fees"; "Enrollment"]
                   100%Z h' = Some d' -> (dbest <= d')%Z) post.
Proof.
  exact (proj2 (X5_section_is_closest_preceding_marker three_section_page
                  cost_table
                  ["GENERAL INFORMATION"; "Tuition, Fees"; "Enrollment"]
                  100%Z eq_refl ltac:(discriminate) ltac:(discriminate))
           {| hdr_text := "GENERAL INFORMATION"; hdr_y := Some 10%Z |} 90%Z
           ltac:(left; reflexivity) eq_refl).
Defined.

(** On that page the table at offset 100 belongs to the section whose
    marker stands at offset 60. *)
Lemma three_section_page_section :
  determine_section_static three_section_page cost_table
    ["GENERAL INFORMATION"; "Tuition, Fees"; "Enrollment"]
  = "Tuition, Fees".
Proof. vm_compute. reflexivity. Qed.

(** ** Header inference and its cache *)

Lemma enumerate_labels_truthy (prefix : string) (cells : list Cell) (n : nat) :
  Py.truthy prefix = true ->
  Forall (fun label => Py.truthy label = true)
    (map (fun '(i, cell) =>
            Py.or_else (Py.strip (cell_text cell)) (prefix +:+ Py.of_nat (i + 1)))
         (Py.enumerate n cells)).
Proof.
  intros Hp. revert n.
  induction cells as [|c cells IH]; intros n; cbn [Py.enumerate map];
    [constructor |].
  constructor; [| apply IH].
  unfold Py.or_else.
  destruct (Py.truthy (Py.strip (cell_text c))) eqn:E; [exact E |].
  destruct prefix; [discriminate | reflexivity].
Qed.

Lemma header_labels_truthy (prefix : string) (cells : list Cell) :
  Py.truthy prefix = true ->
  Forall (fun label => Py.truthy label = true) (header_labels prefix cells).
Proof. apply enumerate_labels_truthy. Qed.

Lemma enumerate_length {A : Type} (n : nat) (xs : list A) :
  length (Py.enumerate n xs) = length xs.
Proof.
  revert n. induction xs as [|x xs IH]; intros n; [reflexivity |].
  cbn [Py.enumerate length]. now rewrite IH.
Qed.

Lemma header_labels_length (prefix : string) (cells : list Cell) :
  length (header_labels prefix cells) = length cells.
Proof. unfold header_labels. now rewrite length_map, enumerate_length. Qed.

Lemma headers_from_thead_inv (table_element : Table) (labels : list string)
    (start : nat) :
  headers_from_thead table_element = Some (labels, start) ->
  exists thead_rows cells,
    tbl_thead table_element = Some thead_rows
    /\ cells <> []
    /\ labels = header_labels "HeadCol" cells
    /\ start = length thead_rows
    /\ thead_rows <> [].
Proof.
  unfold headers_from_thead.
  destruct (tbl_thead table_element) as [thead_rows|]; [| discriminate].
  destruct (last thead_rows) as [last_row|] eqn:El; [| discriminate].
  fold (thead_label_cells last_row).
  destruct (thead_label_cells last_row) as [|c cells] eqn:Ec; [discriminate |].
  intros [= <- <-]. exists thead_rows, (c :: cells).
  repeat split; [discriminate | now apply (last_length_pos _ last_row)].
Qed.

(** X6.  The header inference on the rows of a table gives a start index
    that is at most the number of rows, only labels that are not empty
    (blank header cells get a placeholder), and no label exactly when the
    start index is 0. *)
Theorem X6_header_inference_invariants (table_element : Table) :
  let hs :=
    get_table_headers_and_data_start_idx_static table_element
      (table_rows table_element) in
  (snd hs <= length (table_rows table_element))%nat
  /\ Forall (fun label => Py.truthy label = true) (fst hs)
  /\ (fst hs = [] <-> snd hs = 0%nat).
Proof.
  cbv zeta. unfold get_table_headers_and_data_start_idx_static.
  destruct (table_rows table_element) as [|first_row rows] eqn:Er.
  - cbn. repeat split; try constructor; lia.
  - destruct (headers_from_thead table_element) as [[labels start]|] eqn:Eh.
    + apply headers_from_thead_inv in Eh
        as [thead_rows [cells [Ht [Hc [-> [-> Hne]]]]]].
      cbn [fst snd]. split; [| split].
      * rewrite <- Er. unfold table_rows. rewrite Ht, length_app. lia.
      * now apply header_labels_truthy.
      * split.
        -- intros H. apply (f_equal (@length string)) in H.
           rewrite header_labels_length in H. now destruct cells.
        -- intros H. now destruct thead_rows.
    + destruct (find_cells Th first_row) as [|c cells] eqn:Ec.
      * cbn. repeat split; try constructor; lia.
      * cbn [fst snd length]. split; [lia |]. split.
        -- now apply header_labels_truthy.
        -- split; [| discriminate].
           intros H. apply (f_equal (@length string)) in H.
           now rewrite header_labels_length in H.
Qed.

Lemma build_headers_cache_fold (tables : list Table) (n : nat)
    (m : gmap nat (list string * nat)) (i : nat) :
  fold_left
    (fun cache '(i, tbl) =>
       let rows := table_rows tbl in
       <[ i := get_table_headers_and_data_start_idx_static tbl rows ]> cache)
    (Py.enumerate n tables) m !! i
  = match (if (n <=? i)%nat then tables !! (i - n)%nat else None) with
    | Some tbl =>
        Some (get_table_headers_and_data_start_idx_static tbl (table_rows tbl))
    | None => m !! i
    end.
Proof.
  revert n m. induction tables as [|t ts IH]; intros n m.
  - cbn. now destruct (n <=? i)%nat.
  - cbn [Py.enumerate fold_left]. rewrite IH. cbv zeta.
    destruct (Nat.leb_spec (S n) i) as [Hle | Hgt].
    + replace (n <=? i)%nat with true by (symmetry; apply Nat.leb_le; lia).
      replace (i - n)%nat with (S (i - S n)) by lia.
      change ((t :: ts) !! S (i - S n)) with (ts !! (i - S n)%nat).
      destruct (ts !! (i - S n)%nat); [reflexivity |].
      apply lookup_insert_ne. lia.
    + destruct (Nat.leb_spec n i) as [Hle | Hlt].
      * assert (i = n) by lia. subst i.
        rewrite Nat.sub_diag. cbn. apply lookup_insert_eq.
      * apply lookup_insert_ne. lia.
Qed.

(** X7.  The header cache holds, for each data table of the page and under
    its index, the header inference of that table on its own rows, and
    nothing under any other index. *)
Theorem X7_headers_cache_lookup (data_tables : list Table) (i : nat) :
  build_headers_cache data_tables !! i
  = (fun tbl =>
       get_table_headers_and_data_start_idx_static tbl (table_rows tbl))
    <$> data_tables !! i.
Proof.
  unfold build_headers_cache. rewrite build_headers_cache_fold.
  cbn [Nat.leb]. rewrite Nat.sub_0_r.
  destruct (data_tables !! i); [reflexivity | apply lookup_empty].
Qed.

(** ** The data range of the deep search *)

Lemma search_rows_in_range (headers : list string) (start1 start2 : nat)
    (terms kws : list string) (sect : string) (rows : list Row) (i1 i2 : nat) :
  (start1 <= i1)%nat -> (start2 <= i2)%nat ->
  search_rows headers start1 terms kws sect i1 rows
  = search_rows headers start2 terms kws sect i2 rows.
Proof.
  revert i1 i2. induction rows as [|row rows IH]; intros i1 i2 H1 H2;
    [reflexivity |].
  cbn [search_rows]. rewrite !search_row_cases.
  replace (start1 <=? i1)%nat with true by (symmetry; apply Nat.leb_le; lia).
  replace (start2 <=? i2)%nat with true by (symmetry; apply Nat.leb_le; lia).
  f_equal. apply IH; lia.
Qed.

Lemma search_rows_past_start (headers : list string) (data_start_idx : nat)
    (terms kws : list string) (sect : string) (idx : nat) (rows : list Row) :
  (data_start_idx <= idx)%nat ->
  search_rows headers data_start_idx terms kws sect idx rows
  = search_rows headers 0 terms kws sect 0 rows.
Proof. intros Hle. apply search_rows_in_range; lia. Qed.

Lemma search_rows_skip (headers : list string) (data_start_idx : nat)
    (terms kws : list string) (sect : string) (idx : nat) (rows : list Row) :
  search_rows headers data_start_idx terms kws sect idx rows
  = search_rows headers 0 terms kws sect 0 (drop (data_start_idx - idx) rows).
Proof.
  revert idx. induction rows as [|row rows IH]; intros idx.
  - now rewrite drop_nil.
  - destruct (Nat.ltb_spec idx data_start_idx) as [Hlt | Hge].
    + cbn [search_rows]. rewrite search_row_cases.
      replace (data_start_idx <=? idx)%nat with false
        by (symmetry; apply Nat.leb_gt; lia).
      cbn [andb app]. rewrite IH.
      replace (data_start_idx - idx)%nat with (S (data_start_idx - S idx)) by lia.
      reflexivity.
    + replace (data_start_idx - idx)%nat with 0%nat by lia.
      rewrite drop_0. now apply search_rows_past_start.
Qed.

(** X8.  The deep search of a table looks at the rows from the start index
    on and at no other: its result is that of a search, with start index 0,
    of the table without its first [data_start_idx] rows.  A header row is
    neither matched nor emitted as a detail row. *)
Theorem X8_deep_search_skips_header_rows (headers : list string)
    (data_start_idx : nat) (search_terms_list keywords_list : list string)
    (section_name : string) (all_rows : list Row) :
  search_rows headers data_start_idx search_terms_list keywords_list
    section_name 0 all_rows
  = search_rows headers 0 search_terms_list keywords_list section_name 0
      (drop data_start_idx all_rows).
Proof. rewrite search_rows_skip. now rewrite Nat.sub_0_r. Qed.

Lemma collect_data_rows_nonempty (data_start_idx : nat) (all_rows : list Row)
    (i : nat) (row : Row) :
  all_rows !! i = Some row -> (data_start_idx <= i)%nat -> has_td row = true ->
  collect_data_rows data_start_idx all_rows <> [].
Proof.
  intros Hi Hle Htd. unfold collect_data_rows.
  assert (Hin : In row (drop data_start_idx all_rows)).
  { apply list_elem_of_In, list_elem_of_lookup. exists (i - data_start_idx)%nat.
    rewrite lookup_drop. now replace (data_start_idx + (i - data_start_idx))%nat
      with i by lia. }
  induction (drop data_start_idx all_rows) as [|r l IH]; [destruct Hin |].
  cbn [flat_map]. destruct Hin as [-> | Hin].
  - unfold has_td in Htd. now destruct (find_cells Td row).
  - intros H. apply app_eq_nil in H as [_ H]. now apply IH.
Qed.

(** X9.  A table on which the deep search matches is a table the
    whole-table emission would emit: whenever
    [deep_search_in_table_static] returns [True],
    [process_regular_table_static] on the same table and cache returns
    [True] as well. *)
Theorem X9_deep_match_implies_data_rows (table_element : Table) (index : nat)
    (headers_cache : gmap nat (list string * nat))
    (processing_input : Query) (section_name other_section : string) :
  deep_search_matched table_element index headers_cache processing_input
    section_name = true ->
  result (process_regular_table_static table_element index headers_cache
            other_section) = true.
Proof.
  unfold deep_search_matched, result.
  rewrite deep_search_run, process_regular_run. cbv zeta.
  destruct (search_rows _ _ _ _ _ 0 (table_rows table_element)) as [|r found] eqn:E;
    [discriminate |].
  intros _.
  assert (Hne : search_rows
                  (fst (default ([], 0%nat) (headers_cache !! index)))
                  (snd (default ([], 0%nat) (headers_cache !! index)))
                  (search_terms processing_input) (keywords processing_input)
                  section_name 0 (table_rows table_element) <> [])
    by (rewrite E; discriminate).
  apply search_rows_nonempty in Hne as [i [row [Hi [Hle Hm]]]].
  apply row_matches_has_td in Hm.
  pose proof (collect_data_rows_nonempty _ _ i row Hi Hle Hm) as Hrows.
  now destruct (collect_data_rows _ _).
Qed.

Lemma X9_deep_match_implies_data_rows_witness :
  result (process_regular_table_static fees_table 0 ∅ "Costs") = true.
Proof.
  apply (X9_deep_match_implies_data_rows fees_table 0 ∅
           {| search_terms := ["tuition"]; keywords := [] |} "Costs" "Costs").
  vm_compute. reflexivity.
Defined.

(** ** Section tags and placeholders *)

Lemma Forall_map_all {A B : Type} (P : B -> Prop) (f : A -> B) (l : list A) :
  (forall x, P (f x)) -> Forall P (map f l).
Proof. intros H. induction l; cbn [map]; constructor; auto. Qed.

Lemma Forall_flat_map_all {A B : Type} (P : B -> Prop) (f : A -> list B)
    (l : list A) :
  (forall x, Forall P (f x)) -> Forall P (flat_map f l).
Proof.
  intros H. induction l as [|x l IH]; cbn [flat_map]; [constructor |].
  apply Forall_app. split; [apply H | exact IH].
Qed.

Lemma search_rows_section (headers : list string) (data_start_idx : nat)
    (terms kws : list string) (sect : string) (idx : nat) (rows : list Row) :
  Forall (fun r => Section_ r = sect)
    (search_rows headers data_start_idx terms kws sect idx rows).
Proof.
  revert idx. induction rows as [|row rows IH]; intros idx; [constructor |].
  cbn [search_rows]. apply Forall_app. split; [| apply IH].
  rewrite search_row_cases.
  destruct (_ && _); [| constructor].
  destruct (is_subrow row).
  - constructor; [reflexivity |]. rewrite subrow_details_span.
    now apply Forall_map_all.
  - constructor; [reflexivity | constructor].
Qed.

(** X10.  Every record that the deep search, the whole-table emission or
    the three-mode formatter emits for a table carries, as its Section, the
    section name the function was called with. *)
Theorem X10_records_carry_the_section (table_element : Table) (index : nat)
    (headers_cache : gmap nat (list string * nat)) (processing_input : Query)
    (headers : list string) (data_rows : list (list string))
    (section_name source_description : string) :
  Forall (fun r => Section_ r = section_name)
    (deep_search_records table_element index headers_cache processing_input
       section_name)
  /\ Forall (fun r => Section_ r = section_name)
       (regular_table_records table_element index headers_cache section_name)
  /\ Forall (fun r => Section_ r = section_name)
       (emitted (add_table_to_data_static headers data_rows section_name
                   source_description)).
Proof.
  split; [| split].
  - unfold deep_search_records, emitted. rewrite deep_search_run. cbv zeta.
    pose proof (search_rows_section
                  (fst (default ([], 0%nat) (headers_cache !! index)))
                  (snd (default ([], 0%nat) (headers_cache !! index)))
                  (search_terms processing_input) (keywords processing_input)
                  section_name 0 (table_rows table_element)) as Hfound.
    destruct (search_rows _ _ _ _ _ _ _); cbn [snd app]; [constructor |].
    constructor; [reflexivity |]. constructor; [reflexivity | exact Hfound].
  - unfold regular_table_records, emitted. rewrite process_regular_run.
    cbv zeta. destruct (collect_data_rows _ _) as [|r rows]; cbn [snd app];
      [constructor |].
    constructor; [reflexivity |]. constructor; [reflexivity |].
    now apply Forall_map_all.
  - unfold emitted, add_table_to_data_static.
    destruct (year_headers_of headers) as [|y ys].
    + destruct (is_label_based headers); rewrite for_each_extend;
        cbn [snd app]; apply Forall_flat_map_all; intros row.
      * unfold label_row. destruct row; repeat constructor.
      * unfold columnar_row. destruct row as [|row0 cells]; [constructor |].
        destruct (columnar_parts _ _ _); repeat constructor.
    + rewrite for_each_extend. cbn [snd app].
      apply Forall_flat_map_all. intros row. unfold multi_year_row.
      destruct row as [|row0 [|c cells]]; try constructor.
      destruct (year_parts _ _ _); repeat constructor.
Qed.

Lemma or_else_truthy (a b : string) :
  Py.truthy b = true -> Py.truthy (Py.or_else a b) = true.
Proof. intros Hb. unfold Py.or_else. now destruct (Py.truthy a) eqn:E. Qed.

(** X11.  [process_regular_table_static] returns [True] exactly when it
    emits records; it then emits the table marker, the header summary and
    one record per data row, and after the marker no record has an empty
    Category or an empty Value, an absent text being written "blank". *)
Theorem X11_whole_table_emission_shape (table_element : Table) (index : nat)
    (headers_cache : gmap nat (list string * nat)) (section_name : string) :
  let run :=
    process_regular_table_static table_element index headers_cache section_name in
  let data_rows :=
    collect_data_rows (snd (default ([], 0%nat) (headers_cache !! index)))
      (table_rows table_element) in
  (result run = true <-> emitted run <> [])
  /\ (result run = true <-> data_rows <> [])
  /\ (data_rows <> [] ->
      exists rest : list DataRow,
        emitted run
        = entire_table_marker section_name index
          :: header_row_record
               (fst (default ([], 0%nat) (headers_cache !! index))) section_name
          :: rest
        /\ length rest = length data_rows)
  /\ Forall (fun r => Py.truthy (Category r) = true /\ Py.truthy (Value r) = true)
       (List.tl (emitted run)).
Proof.
  cbv zeta. unfold result, emitted. rewrite process_regular_run. cbv zeta.
  destruct (collect_data_rows _ _) as [|r rows]; cbn [fst snd app List.tl].
  - repeat split; try discriminate; try tauto; constructor.
  - split; [split; [discriminate | reflexivity] |].
    split; [split; [discriminate | reflexivity] |].
    split.
    + intros _. eexists. split; [reflexivity | apply length_map].
    + constructor.
      * split; unfold header_row_record; cbn [Category Value].
        -- destruct (fst (default ([], 0%nat) (headers_cache !! index)));
             [reflexivity | now apply or_else_truthy].
        -- now apply or_else_truthy.
      * apply Forall_map_all. intros x.
        split; cbn [raw_row_record Category Value]; now apply or_else_truthy.
Qed.

(** ** The three-mode formatter *)

(** The records of one row, whatever the mode. *)
Lemma add_table_to_data_static_rows (headers : list string)
    (data_rows : list (list string)) (sect src : string) :
  exists row_records : list string -> list DataRow,
    emitted (add_table_to_data_static headers data_rows sect src)
    = flat_map row_records data_rows
    /\ (forall row, row_records row = multi_year_row (year_headers_of headers) sect src row
                    \/ row_records row = label_row sect src row
                    \/ row_records row = columnar_row headers sect src row).
Proof.
  unfold emitted, add_table_to_data_static.
  destruct (year_headers_of headers) as [|y ys] eqn:Ey.
  - destruct (is_label_based headers); rewrite for_each_extend; cbn [snd app].
    + exists (label_row sect src). split; [reflexivity | now right; left].
    + exists (columnar_row headers sect src). split; [reflexivity | now right; right].
  - rewrite for_each_extend. cbn [snd app].
    exists (multi_year_row (y :: ys) sect src). split; [reflexivity | now left].
Qed.

Lemma formatter_row_shape (headers : list string) (sect src : string)
    (row : list string) (records : list DataRow) :
  records = multi_year_row (year_headers_of headers) sect src row
  \/ records = label_row sect src row
  \/ records = columnar_row headers sect src row ->
  records = []
  \/ exists value source,
       records = [ {| Category := Py.strip (List.hd "" row); Value := value;
                      Section_ := sect; Source := source |} ].
Proof.
  intros [-> | [-> | ->]].
  - unfold multi_year_row. destruct row as [|row0 [|c cells]]; [now left.. |].
    destruct (year_parts _ _ _); [now left | right; now eexists _, _].
  - unfold label_row. destruct row as [|row0 cells]; [now left |].
    right; now eexists _, _.
  - unfold columnar_row. destruct row as [|row0 cells]; [now left |].
    destruct (columnar_parts _ _ _); [now left | right; now eexists _, _].
Qed.

(** X12.  In each of its three modes [add_table_to_data_static] emits at
    most one record per data row, in the order of the rows, and the
    Category of a record is the stripped first cell of its row. *)
Theorem X12_formatter_one_record_per_row (headers : list string)
    (data_rows : list (list string)) (section_name source_description : string) :
  let records :=
    emitted (add_table_to_data_static headers data_rows section_name
               source_description) in
  (length records <= length data_rows)%nat
  /\ exists kept : list (list string),
       sublist kept data_rows
       /\ map Category records = map (fun row => Py.strip (List.hd "" row)) kept.
Proof.
  cbv zeta.
  destruct (add_table_to_data_static_rows headers data_rows section_name
              source_description) as [f [-> Hf]].
  assert (Hshape : forall row,
    f row = [] \/ exists value source,
      f row = [ {| Category := Py.strip (List.hd "" row); Value := value;
                   Section_ := section_name; Source := source |} ]).
  { intros row. eapply formatter_row_shape. apply Hf. }
  clear Hf. induction data_rows as [|row rows [IHlen [kept [Hsub Hcat]]]].
  - split; [cbn; lia |]. exists []. split; [constructor | reflexivity].
  - cbn [flat_map]. destruct (Hshape row) as [-> | [value [source ->]]].
    + cbn [app length]. split; [lia |].
      exists kept. split; [now apply sublist_cons | exact Hcat].
    + cbn [app length map Category]. split; [lia |].
      exists (row :: kept). split; [now apply sublist_skip |].
      cbn [map]. now rewrite Hcat.
Qed.

Lemma part_truthy (a b : string) : Py.truthy (a +:+ ": " +:+ b) = true.
Proof. now destruct a. Qed.

Lemma year_parts_truthy (idx : nat) (years row : list string) :
  Forall (fun part => Py.truthy part = true) (year_parts idx years row).
Proof.
  revert idx. induction years as [|y ys IH]; intros idx; cbn [year_parts];
    [constructor |].
  destruct (row !! idx); [| apply IH].
  destruct (present _); [| apply IH].
  constructor; [apply part_truthy | apply IH].
Qed.

Lemma columnar_parts_truthy (headers : list string) (col_idx : nat)
    (cells : list string) :
  Forall (fun part => Py.truthy part = true) (columnar_parts headers col_idx cells).
Proof.
  revert col_idx. induction cells as [|c cells IH]; intros col_idx;
    cbn [columnar_parts]; [constructor |].
  destruct (negb _); [apply IH |].
  constructor; [apply part_truthy | apply IH].
Qed.

Lemma join_parts_truthy (parts : list string) :
  parts <> [] -> Forall (fun part => Py.truthy part = true) parts ->
  Py.truthy (Py.join "; " parts) = true.
Proof.
  intros Hne Hall. destruct parts as [|p ps]; [now contradiction Hne |].
  apply join_truthy. now inversion Hall.
Qed.

(** X13.  Outside the label-based mode [add_table_to_data_static] never
    emits a record with an empty Value: a row all of whose value cells are
    empty or dashes gives no record.  In the label-based mode it emits one
    record for each row that is not empty, empty Value or not. *)
Theorem X13_formatter_values (headers : list string)
    (data_rows : list (list string)) (section_name source_description : string) :
  let records :=
    emitted (add_table_to_data_static headers data_rows section_name
               source_description) in
  (is_label_based headers = false ->
   Forall (fun r => Py.truthy (Value r) = true) records)
  /\ (is_label_based headers = true ->
      length records
      = length (List.filter (fun row => match row with [] => false | _ => true end)
                  data_rows)).
Proof.
  cbv zeta. unfold emitted, add_table_to_data_static. split.
  - intros Hmode. rewrite Hmode.
    destruct (year_headers_of headers) as [|y ys]; rewrite for_each_extend;
      cbn [snd app]; apply Forall_flat_map_all; intros row.
    + unfold columnar_row. destruct row as [|row0 cells]; [constructor |].
      destruct (columnar_parts headers 1 cells) as [|p ps] eqn:E; [constructor |].
      constructor; [| constructor]. cbn [Value].
      apply join_parts_truthy; [discriminate |].
      rewrite <- E. apply columnar_parts_truthy.
    + unfold multi_year_row. destruct row as [|row0 [|c cells]]; try constructor.
      destruct (year_parts 1 (y :: ys) (row0 :: c :: cells)) as [|p ps] eqn:E;
        [constructor |].
      constructor; [| constructor]. cbn [Value].
      apply join_parts_truthy; [discriminate |].
      rewrite <- E. apply year_parts_truthy.
  - intros Hmode.
    assert (Hy : year_headers_of headers = []).
    { unfold is_label_based in Hmode. unfold year_headers_of.
      destruct headers as [|h0 [|h1 hs]]; [reflexivity | reflexivity | discriminate]. }
    rewrite Hy, Hmode, for_each_extend. cbn [snd app].
    induction data_rows as [|row rows IH]; [reflexivity |].
    cbn [flat_map List.filter]. rewrite length_app, IH.
    now destruct row.
Qed.

Lemma X13_formatter_values_witness :
  Forall (fun r => Py.truthy (Value r) = true)
    (emitted (add_table_to_data_static retention_headers retention_rows
                "Retention" "Table 1")).
Proof.
  exact (proj1 (X13_formatter_values retention_headers retention_rows
                  "Retention" "Table 1") eq_refl).
Defined.

(** ** Discovery of data tables *)

Section Discovery.

Variable driver : Driver.
Variable terms kws titles : list string.

#[local] Abbreviation info_of := (table_match_info driver terms kws titles).

Lemma find_matching_tables_fold (tables : list Table) (n : nat)
    (acc : list MatchInfo) :
  Forall (fun info => (mi_index info < n)%nat) acc ->
  fold_left
    (fun matching_tables_info '(i, table_element) =>
       let section_name := determine_section_static driver table_element titles in
       let combined := combined_searchable_text table_element section_name in
       match table_match_reason terms kws combined with
       | None => matching_tables_info
       | Some match_reason =>
           if existsb (fun info => (mi_index info =? i)%nat) matching_tables_info
           then matching_tables_info
           else matching_tables_info
                ++ [ {| mi_index := i; mi_element := table_element;
                        mi_match_type := match_reason;
                        mi_section := section_name |} ]
       end)
    (Py.enumerate n tables) acc
  = acc ++ flat_map (fun '(i, tbl) => info_of i tbl) (Py.enumerate n tables).
Proof.
  revert n acc. induction tables as [|t ts IH]; intros n acc Hacc.
  - cbn. now rewrite app_nil_r.
  - cbn [Py.enumerate fold_left flat_map]. cbv zeta.
    assert (Hfresh : existsb (fun info => (mi_index info =? n)%nat) acc = false).
    { clear IH. induction Hacc as [|info acc Hi _ IHacc]; [reflexivity |].
      cbn [existsb]. rewrite IHacc, orb_false_r. apply Nat.eqb_neq. lia. }
    unfold table_match_info at 1. cbv zeta.
    destruct (table_match_reason terms kws _) as [reason|].
    + rewrite Hfresh, IH.
      * now rewrite <- app_assoc.
      * apply Forall_app. split.
        -- eapply Forall_impl; [exact Hacc |]. cbn. intros; lia.
        -- constructor; [cbn; lia | constructor].
    + rewrite IH; [reflexivity |].
      eapply Forall_impl; [exact Hacc |]. cbn. intros; lia.
Qed.

Lemma flat_map_info_indices (tables : list Table) (n : nat) :
  Forall (fun info => (n <= mi_index info)%nat
                      /\ tables !! (mi_index info - n)%nat = Some (mi_element info))
    (flat_map (fun '(i, tbl) => info_of i tbl) (Py.enumerate n tables)).
Proof.
  revert n. induction tables as [|t ts IH]; intros n; [constructor |].
  cbn [Py.enumerate flat_map]. apply Forall_app. split.
  - unfold table_match_info. cbv zeta.
    destruct (table_match_reason _ _ _); [| constructor].
    constructor; [| constructor]. cbn [mi_index mi_element].
    split; [lia |]. now rewrite Nat.sub_diag.
  - eapply Forall_impl; [apply (IH (S n)) |].
    cbn. intros info [Hle Hlook]. split; [lia |].
    replace (mi_index info - n)%nat with (S (mi_index info - S n)) by lia.
    exact Hlook.
Qed.

Lemma flat_map_info_nodup (tables : list Table) (n : nat) :
  NoDup (map mi_index
           (flat_map (fun '(i, tbl) => info_of i tbl) (Py.enumerate n tables))).
Proof.
  revert n. induction tables as [|t ts IH]; intros n; [constructor |].
  cbn [Py.enumerate flat_map]. rewrite map_app.
  unfold table_match_info at 1. cbv zeta.
  destruct (table_match_reason _ _ _); cbn [map app mi_index]; [| apply IH].
  constructor; [| apply IH].
  intros Hin. apply list_elem_of_In, in_map_iff in Hin as [info [Heq Hin]].
  pose proof (flat_map_info_indices ts (S n)) as Hall.
  rewrite Forall_forall in Hall.
  destruct (Hall info (proj2 (list_elem_of_In _ _) Hin)) as [Hle _]. lia.
Qed.

End Discovery.

(** X14.  Discovery records exactly the tables that have a match reason,
    once each and in page order: the check against an index already
    recorded never fires.  Every entry holds the table found at its index,
    and no two entries share an index. *)
Theorem X14_discovery_lists_matching_tables (driver : Driver)
    (all_tables_on_page : list Table)
    (search_terms_list keywords_list section_titles_on_page : list string) :
  let matching :=
    find_matching_tables_static driver all_tables_on_page search_terms_list
      keywords_list section_titles_on_page in
  matching
  = flat_map
      (fun '(i, tbl) =>
         table_match_info driver search_terms_list keywords_list
           section_titles_on_page i tbl)
      (Py.enumerate 0 all_tables_on_page)
  /\ Forall (fun info =>
               all_tables_on_page !! mi_index info = Some (mi_element info))
       matching
  /\ NoDup (map mi_index matching).
Proof.
  cbv zeta.
  assert (Heq : find_matching_tables_static driver all_tables_on_page
                  search_terms_list keywords_list section_titles_on_page
                = flat_map
                    (fun '(i, tbl) =>
                       table_match_info driver search_terms_list keywords_list
                         section_titles_on_page i tbl)
                    (Py.enumerate 0 all_tables_on_page)).
  { unfold find_matching_tables_static.
    now rewrite find_matching_tables_fold by constructor. }
  rewrite Heq. split; [reflexivity |]. split.
  - eapply Forall_impl; [apply flat_map_info_indices |].
    cbn. intros info [_ H]. now rewrite Nat.sub_0_r in H.
  - apply flat_map_info_nodup.
Qed.

(** ** The orchestrator as a whole *)

Section Whole.

Variable percent_after : string -> string -> option string.

Lemma appends_process_graph_table (graph_element : Table) (index : nat)
    (section_name : string) (search_terms_list : list string) :
  appends_only
    (process_graph_table_static percent_after graph_element index section_name
       search_terms_list).
Proof.
  unfold process_graph_table_static. cbv zeta.
  destruct (negb _); [apply appends_ret |].
  apply appends_bind; [apply appends_append | intros _].
  apply appends_bind;
    [destruct (negb _); [apply appends_append | apply appends_ret] | intros _].
  apply appends_bind.
  - apply appends_for_each. intros [j img].
    apply appends_bind;
      [destruct (Py.truthy _); [apply appends_append | apply appends_ret] |].
    intros _. apply appends_for_each. intros [metric val]. apply appends_append.
  - intros _. apply appends_for_each. intros [label val]. apply appends_append.
Qed.

Lemma appends_process_matching (matching_tables_info matching_graphs_info : list MatchInfo)
    (processing_input : Query) (headers_cache : gmap nat (list string * nat)) :
  appends_only
    (process_matching_elements_static percent_after matching_tables_info
       matching_graphs_info processing_input headers_cache).
Proof.
  unfold process_matching_elements_static. cbv zeta.
  apply appends_bind.
  - apply appends_for_any. apply appends_process_matched_table.
  - intros from_tables. apply appends_bind.
    + apply appends_for_any. intros g.
      apply appends_bind; [apply appends_process_graph_table | intros _].
      apply appends_ret.
    + intros from_graphs. apply appends_ret.
Qed.

Lemma appends_handle_no_matches (driver : Driver) (all_page_tables : list Table)
    (all_page_graph_elements : list MatchInfo) (processing_input : Query)
    (section_titles_on_page : list string)
    (headers_cache : gmap nat (list string * nat)) :
  appends_only
    (handle_no_matches_static driver all_page_tables all_page_graph_elements
       processing_input section_titles_on_page headers_cache).
Proof.
  unfold handle_no_matches_static. cbv zeta.
  apply appends_bind; [apply appends_fallback_deep_search |].
  intros deep_found. destruct deep_found; [apply appends_ret |].
  destruct (keywords processing_input); [apply appends_ret |].
  apply appends_for_each. apply appends_keyword_fallback_table.
Qed.

Lemma appends_find_and_process (driver : Driver) (processing_input : Query)
    (section_titles_on_page : list string) :
  appends_only
    (find_and_process_tables_graphs_static percent_after driver processing_input
       section_titles_on_page).
Proof.
  unfold find_and_process_tables_graphs_static. cbv zeta.
  apply appends_bind.
  - destruct (find_matching_tables_static _ _ _ _ _);
      [apply appends_ret | apply appends_process_matching].
  - intros added_tables. apply appends_bind.
    + destruct (find_matching_graph_tables_static _ _ _ _ _);
        [apply appends_ret | apply appends_process_matching].
    + intros added_graphs.
      destruct (added_tables || added_graphs);
        [apply appends_ret | apply appends_handle_no_matches].
Qed.

Lemma appends_add_general_info (info : InfoDict) (search_terms_list : list string) :
  appends_only (add_general_info_to_data_static info search_terms_list).
Proof.
  unfold add_general_info_to_data_static.
  destruct info as [|e info]; [apply appends_ret |].
  destruct (negb _); [apply appends_ret |].
  apply appends_bind; [apply appends_append | intros _].
  apply appends_for_each. intros entry. apply appends_append.
Qed.

End Whole.

(** X15.  What the worker collects for a page is only ever appended: the
    records already in the list stay where they are, the new ones come
    after them and do not depend on them; the general information, when it
    is added, comes before the records of the page. *)
Theorem X15_worker_only_appends
    (percent_after : string -> string -> option string) (driver : Driver)
    (info : InfoDict) (user_overall_input : Query) (out : list DataRow) :
  collect_worker_data percent_after driver info user_overall_input out
  = (tt,
     out
     ++ emitted (add_general_info_to_data_static info
                   (search_terms user_overall_input))
     ++ emitted (process_institution_page_static percent_after driver
                   user_overall_input)).
Proof.
  unfold collect_worker_data.
  rewrite bind_run;
    [| apply appends_add_general_info
     | intros _; apply appends_find_and_process].
  f_equal. now destruct (result _).
Qed.

Section WholeRuns.

Variable percent_after : string -> string -> option string.

Lemma process_matching_run (matching_tables_info matching_graphs_info : list MatchInfo)
    (processing_input : Query) (headers_cache : gmap nat (list string * nat))
    (out : list DataRow) :
  process_matching_elements_static percent_after matching_tables_info
    matching_graphs_info processing_input headers_cache out
  = (existsb
       (fun tbl => result (process_matched_table processing_input headers_cache tbl))
       matching_tables_info
     || match matching_graphs_info with [] => false | _ => true end,
     out ++ matched_tables_records processing_input headers_cache
              matching_tables_info
         ++ matched_graphs_records percent_after processing_input
              matching_graphs_info).
Proof.
  unfold process_matching_elements_static. cbv zeta.
  assert (Hbody : forall g : MatchInfo,
            appends_only
              (process_graph_table_static percent_after (mi_element g)
                 (mi_index g) (mi_section g) (search_terms processing_input) ;;
               ret true)).
  { intros g. apply appends_bind;
      [apply appends_process_graph_table | intros _; apply appends_ret]. }
  rewrite bind_run;
    [| apply appends_for_any, appends_process_matched_table
     | intros a; apply appends_bind;
       [now apply appends_for_any | intros b; apply appends_ret]].
  rewrite result_for_any, emitted_for_any by apply appends_process_matched_table.
  rewrite emitted_bind, result_bind;
    [| now apply appends_for_any | intros b; apply appends_ret
     | now apply appends_for_any | intros b; apply appends_ret].
  rewrite result_for_any, emitted_for_any by assumption.
  change (emitted (ret _)) with (@nil DataRow). rewrite app_nil_r.
  unfold matched_tables_records, matched_graphs_records.
  f_equal.
  - unfold result at 2, ret; cbn [fst]. f_equal.
    induction matching_graphs_info as [|g gs IH]; [reflexivity |].
    cbn [existsb]. rewrite result_bind;
      [| apply appends_process_graph_table | intros _; apply appends_ret].
    reflexivity.
  - do 2 f_equal. apply flat_map_ext. intros g.
    rewrite emitted_bind;
      [| apply appends_process_graph_table | intros _; apply appends_ret].
    change (emitted (ret true)) with (@nil DataRow). apply app_nil_r.
Qed.

Lemma find_and_process_no_match_run (driver : Driver) (processing_input : Query)
    (section_titles_on_page : list string) (out : list DataRow) :
  find_matching_tables_static driver
    (List.filter (fun t => negb (is_graph_table t)) (page_tables driver))
    (search_terms processing_input) (keywords processing_input)
    section_titles_on_page = [] ->
  find_matching_graph_tables_static driver
    (List.filter is_graph_table (page_tables driver))
    (search_terms processing_input) (keywords processing_input)
    section_titles_on_page = [] ->
  find_and_process_tables_graphs_static percent_after driver processing_input
    section_titles_on_page out
  = handle_no_matches_static driver
      (List.filter (fun t => negb (is_graph_table t)) (page_tables driver))
      [] processing_input section_titles_on_page
      (build_headers_cache
         (List.filter (fun t => negb (is_graph_table t)) (page_tables driver)))
      out.
Proof.
  intros Ht Hg. unfold find_and_process_tables_graphs_static.
  rewrite Ht, Hg. reflexivity.
Qed.

End WholeRuns.

Lemma flat_map_nil {A B : Type} (f : A -> list B) (l : list A) :
  (forall x, f x = []) -> flat_map f l = [].
Proof.
  intros H. induction l as [|x l IH]; [reflexivity |].
  cbn [flat_map]. now rewrite H, IH.
Qed.

Lemma search_rows_empty_query (headers : list string) (data_start_idx : nat)
    (sect : string) (idx : nat) (rows : list Row) :
  search_rows headers data_start_idx [] [] sect idx rows = [].
Proof.
  revert idx. induction rows as [|row rows IH]; intros idx; [reflexivity |].
  cbn [search_rows]. rewrite IH, app_nil_r.
  apply search_row_no_match. unfold row_matches. cbn. apply andb_false_r.
Qed.

(** X16.  With no search term and no keyword nothing matches: discovery
    records no table and no graph, the deep search matches no row, and
    [find_and_process_tables_graphs_static] leaves the list as it was, on
    every page. *)
Theorem X16_empty_query_emits_nothing
    (percent_after : string -> string -> option string) (driver : Driver)
    (section_titles_on_page : list string) (out : list DataRow) :
  let empty_query := {| search_terms := []; keywords := [] |} in
  (forall tables,
      find_matching_tables_static driver tables [] [] section_titles_on_page = [])
  /\ (forall graphs,
        find_matching_graph_tables_static driver graphs [] []
          section_titles_on_page = [])
  /\ (forall tbl i cache sect,
        deep_search_in_table_static tbl i cache [] [] sect out = (false, out))
  /\ find_and_process_tables_graphs_static percent_after driver empty_query
       section_titles_on_page out
     = (tt, out).
Proof.
  cbv zeta.
  assert (Htables : forall tables,
    find_matching_tables_static driver tables [] [] section_titles_on_page = []).
  { intros tables. unfold find_matching_tables_static.
    rewrite find_matching_tables_fold by constructor. cbn [app].
    apply flat_map_nil. now intros [i tbl]. }
  assert (Hgraphs : forall graphs,
    find_matching_graph_tables_static driver graphs [] []
      section_titles_on_page = []).
  { intros graphs. unfold find_matching_graph_tables_static.
    apply flat_map_nil. now intros [i g]. }
  assert (Hdeep : forall tbl i cache sect o,
    deep_search_in_table_static tbl i cache [] [] sect o = (false, o)).
  { intros tbl i cache sect o. rewrite deep_search_run. cbv zeta.
    now rewrite search_rows_empty_query. }
  split; [exact Htables |]. split; [exact Hgraphs |].
  split; [intros; apply Hdeep |].
  rewrite find_and_process_no_match_run by (cbn [search_terms keywords]; auto).
  rewrite handle_no_matches_run. cbn [keywords].
  assert (Hnone : fallback_deep_records driver
                    (List.filter (fun t => negb (is_graph_table t))
                       (page_tables driver))
                    {| search_terms := []; keywords := [] |}
                    section_titles_on_page
                    (build_headers_cache
                       (List.filter (fun t => negb (is_graph_table t))
                          (page_tables driver))) = []).
  { unfold fallback_deep_records. apply flat_map_nil. intros [i tbl].
    unfold deep_search_records, emitted. cbn [search_terms keywords].
    now rewrite Hdeep. }
  rewrite Hnone. now rewrite app_nil_r.
Qed.

(** X17.  As soon as discovery records a graph, the fallback cascade does
    not run, whether or not the graph gives any record: the output is what
    the matched tables add followed by what the matched graphs add. *)
Theorem X17_matched_graph_disables_fallback
    (percent_after : string -> string -> option string) (driver : Driver)
    (processing_input : Query) (section_titles_on_page : list string)
    (out : list DataRow) :
  let data_tables :=
    List.filter (fun t => negb (is_graph_table t)) (page_tables driver) in
  let graph_tables := List.filter is_graph_table (page_tables driver) in
  let matching_tables :=
    find_matching_tables_static driver data_tables
      (search_terms processing_input) (keywords processing_input)
      section_titles_on_page in
  let matching_graphs :=
    find_matching_graph_tables_static driver graph_tables
      (search_terms processing_input) (keywords processing_input)
      section_titles_on_page in
  matching_graphs <> [] ->
  find_and_process_tables_graphs_static percent_after driver processing_input
    section_titles_on_page out
  = (tt,
     out ++ matched_tables_records processing_input
              (build_headers_cache data_tables) matching_tables
         ++ matched_graphs_records percent_after processing_input
              matching_graphs).
Proof.
  cbv zeta. intros Hgraphs. unfold find_and_process_tables_graphs_static.
  cbv zeta.
  destruct (find_matching_graph_tables_static _ _ _ _ _) as [|g gs] eqn:Eg;
    [now contradiction Hgraphs |].
  unfold bind.
  destruct (find_matching_tables_static _ _ _ _ _) as [|t ts] eqn:Et.
  - unfold ret at 1. rewrite process_matching_run.
    cbn [existsb orb]. unfold ret. cbn [matched_tables_records flat_map app].
    reflexivity.
  - rewrite process_matching_run.
    cbn [matched_graphs_records flat_map]. rewrite app_nil_r.
    rewrite process_matching_run.
    cbn [existsb orb matched_tables_records flat_map app].
    rewrite orb_true_r. unfold ret. now rewrite <- !app_assoc.
Qed.

Lemma X17_matched_graph_disables_fallback_witness :
  find_and_process_tables_graphs_static no_percent chart_and_widget_page
    {| search_terms := ["retention"]; keywords := [] |} [] []
  = (tt,
     [] ++ matched_tables_records
             {| search_terms := ["retention"]; keywords := [] |}
             (build_headers_cache
                (List.filter (fun t => negb (is_graph_table t))
                   (page_tables chart_and_widget_page)))
             (find_matching_tables_static chart_and_widget_page
                (List.filter (fun t => negb (is_graph_table t))
                   (page_tables chart_and_widget_page))
                ["retention"] [] [])
        ++ matched_graphs_records no_percent
             {| search_terms := ["retention"]; keywords := [] |}
             (find_matching_graph_tables_static chart_and_widget_page
                (List.filter is_graph_table (page_tables chart_and_widget_page))
                ["retention"] [] [])).
Proof.
  apply (X17_matched_graph_disables_fallback no_percent chart_and_widget_page
           {| search_terms := ["retention"]; keywords := [] |} [] []).
  vm_compute. discriminate.
Defined.

(** On that page the widget is matched and skipped, so nothing is emitted,
    although the deep search of the table would have found a row. *)
Lemma skipped_widget_hides_deep_match :
  emitted (find_and_process_tables_graphs_static no_percent
             chart_and_widget_page
             {| search_terms := ["retention"]; keywords := [] |} [])
  = []
  /\ deep_search_matched chart_table 0 ∅
       {| search_terms := ["retention"]; keywords := [] |} "" = true.
Proof. split; vm_compute; reflexivity. Qed.

(** ** General information *)

Lemma should_add_section_iff (info : InfoDict) (terms : list string) :
  should_add_section info terms = true <->
  terms = [] \/ Exists (entry_holds_term terms) info.
Proof.
  unfold should_add_section. destruct terms as [|t ts]; [tauto |].
  rewrite existsb_exists, Exists_exists. split.
  - intros [[key value] [Hin H]]. right. exists (key, value).
    split; [now apply list_elem_of_In |].
    apply existsb_exists in H as [term [Hterm H]].
    exists term. split; [exact Hterm |].
    apply orb_true_iff in H as [H | H]; [left | right]; now apply contains_spec.
  - intros [H | [[key value] [Hin [term [Hterm H]]]]]; [discriminate |].
    exists (key, value). split; [now apply list_elem_of_In |].
    apply existsb_exists. exists term. split; [exact Hterm |].
    apply orb_true_iff.
    destruct H as [H | H]; [left | right]; now apply contains_spec.
Qed.

Lemma add_general_info_run (info : InfoDict) (terms : list string)
    (out : list DataRow) :
  add_general_info_to_data_static info terms out
  = (tt,
     out ++ match info with
            | [] => []
            | _ =>
                if should_add_section info terms
                then general_info_header :: map general_info_record info
                else []
            end).
Proof.
  unfold add_general_info_to_data_static.
  destruct info as [|e info]; [unfold ret; now rewrite app_nil_r |].
  destruct (should_add_section (e :: info) terms); cbn [negb].
  - unfold bind, append at 1. rewrite for_each_append.
    now rewrite <- app_assoc.
  - unfold ret. now rewrite app_nil_r.
Qed.

(** X18.  The general information is added whole or not at all: either
    nothing, or the "GENERAL INFORMATION" record followed by one record per
    entry of the dictionary, in its order.  It is added exactly when the
    dictionary is not empty and either there is no search term or some
    entry holds a term in its key or in its value. *)
Theorem X18_general_info_all_or_nothing (info : InfoDict)
    (search_terms_list : list string) :
  let records :=
    emitted (add_general_info_to_data_static info search_terms_list) in
  (records = [] \/ records = general_info_header :: map general_info_record info)
  /\ (records <> [] <->
      info <> []
      /\ (search_terms_list = []
          \/ Exists (entry_holds_term search_terms_list) info)).
Proof.
  cbv zeta. unfold emitted. rewrite add_general_info_run. cbn [snd app].
  destruct info as [|e info].
  - split; [now left |].
    split; [intros H; now contradiction H | intros [H _]; now contradiction H].
  - rewrite <- should_add_section_iff.
    destruct (should_add_section (e :: info) search_terms_list).
    + split; [now right |].
      split; [intros _; split; [discriminate | reflexivity] | discriminate].
    + split; [now left |].
      split; [intros H; now contradiction H | intros [_ H]; discriminate].
Qed.

Lemma check_entry_length (terms kws : list string) (entry : string * string) :
  (length (check_general_info_entry terms kws entry) <= 1)%nat.
Proof.
  unfold check_general_info_entry. destruct entry as [key value].
  destruct (List.find _ terms); [cbn; lia |].
  destruct kws; [cbn; lia |].
  destruct (keyword_match_static _ _); cbn; lia.
Qed.

(** X19.  [check_general_info_for_search_static] gives at most one
    description per entry of the dictionary, and none at all when there is
    neither a search term nor a keyword; an entry is described exactly when
    its lower-cased "key value" text holds a term or, failing that, all the
    keywords. *)
Theorem X19_general_info_check (info : InfoDict)
    (search_terms_list keywords_list : list string) :
  (length (check_general_info_for_search_static info search_terms_list
             keywords_list) <= length info)%nat
  /\ check_general_info_for_search_static info [] [] = []
  /\ (forall key value,
        check_general_info_entry search_terms_list keywords_list (key, value)
        <> []
        <-> term_match_static (Py.lower key +:+ " " +:+ Py.lower value)
              search_terms_list = true
            \/ keyword_match_static (Py.lower key +:+ " " +:+ Py.lower value)
                 keywords_list = true).
Proof.
  split; [| split].
  - unfold check_general_info_for_search_static.
    induction info as [|e info IH]; [cbn; lia |].
    cbn [flat_map length]. rewrite length_app.
    pose proof (check_entry_length search_terms_list keywords_list e). lia.
  - unfold check_general_info_for_search_static.
    apply flat_map_nil. now intros [key value].
  - intros key value. unfold check_general_info_entry, term_match_static.
    destruct (List.find _ search_terms_list) as [term|] eqn:Ef.
    + split; [intros _ | discriminate]. left.
      apply find_some in Ef as [Hin Hc].
      apply existsb_exists. now exists term.
    + assert (Hnone : existsb
                (fun term =>
                   Py.contains (Py.lower term)
                     (Py.lower key +:+ " " +:+ Py.lower value))
                search_terms_list = false).
      { destruct (existsb _ search_terms_list) eqn:Ee; [| reflexivity].
        apply existsb_exists in Ee as [term [Hin Hc]].
        pose proof (find_none _ _ Ef term Hin) as Hf. cbv beta in Hf. congruence. }
      rewrite Hnone.
      destruct keywords_list as [|k ks].
      * split; [intros H; now contradiction H | intros [H | H]; discriminate].
      * destruct (keyword_match_static _ (k :: ks)).
        -- split; [intros _; now right | discriminate].
        -- split; [intros H; now contradiction H | intros [H | H]; discriminate].
Qed.

(** ** Section titles of a page *)

Lemma titles_from_start_started (titles : list string) :
  Forall (fun t => Py.truthy t = true) titles ->
  titles_from_start true titles = titles.
Proof.
  induction 1 as [|t ts Ht _ IH]; [reflexivity |].
  cbn [titles_from_start]. rewrite Ht. cbn [negb orb]. now rewrite IH.
Qed.

Lemma titles_from_start_none (titles : list string) :
  Forall (fun t => is_start_title t = false) titles ->
  titles_from_start false titles = [].
Proof.
  induction 1 as [|t ts Ht _ IH]; [reflexivity |].
  cbn [titles_from_start]. destruct (negb (Py.truthy t)); [exact IH |].
  unfold is_start_title in Ht. rewrite Ht. exact IH.
Qed.

Lemma titles_from_start_split (pre : list string) (t : string)
    (post : list string) :
  Forall (fun t => Py.truthy t = true) (pre ++ t :: post) ->
  Forall (fun t => is_start_title t = false) pre ->
  is_start_title t = true ->
  titles_from_start false (pre ++ t :: post) = t :: post.
Proof.
  intros Hall Hpre Ht. induction Hpre as [|p pre Hp _ IH].
  - cbn [app titles_from_start]. inversion Hall as [|? ? Htt Hpost]; subst.
    rewrite Htt. unfold is_start_title in Ht. rewrite Ht. cbn [negb orb].
    now rewrite titles_from_start_started.
  - cbn [app titles_from_start]. inversion Hall as [|? ? Hpt Hrest]; subst.
    rewrite Hpt. unfold is_start_title in Hp. rewrite Hp. cbn [negb orb].
    now apply IH.
Qed.

Lemma all_page_section_titles_truthy (driver : Driver) :
  Forall (fun t => Py.truthy t = true) (all_page_section_titles driver).
Proof.
  unfold all_page_section_titles. apply Forall_forall. intros t Ht.
  apply list_elem_of_In, filter_In in Ht. tauto.
Qed.

(** X20.  The section titles a page is processed with are the non-empty
    stripped titles of its markers from the first one that reads "GENERAL
    INFORMATION" (in any case) on; when no title reads so, they are all the
    titles.  No title used is empty. *)
Theorem X20_section_titles_from_general_information (driver : Driver) :
  let all_titles := all_page_section_titles driver in
  let used := section_titles_to_use driver in
  (Forall (fun t => is_start_title t = false) all_titles -> used = all_titles)
  /\ (forall pre t post,
        all_titles = pre ++ t :: post ->
        Forall (fun t => is_start_title t = false) pre ->
        is_start_title t = true ->
        used = t :: post)
  /\ Forall (fun t => Py.truthy t = true) used.
Proof.
  cbv zeta. unfold section_titles_to_use.
  pose proof (all_page_section_titles_truthy driver) as Hall.
  split; [| split].
  - intros Hnone. now rewrite titles_from_start_none.
  - intros pre t post Hsplit Hpre Ht. rewrite Hsplit in *.
    now rewrite titles_from_start_split.
  - destruct (titles_from_start false (all_page_section_titles driver))
      as [|u us] eqn:E; [exact Hall |].
    rewrite <- E. clear E.
    generalize false.
    induction Hall as [|t ts Ht _ IH]; intros started; [constructor |].
    cbn [titles_from_start]. rewrite Ht. cbn [negb].
    destruct (started || _); [constructor; [exact Ht | apply IH] | apply IH].
Qed.

Lemma X20_section_titles_from_general_information_witness :
  section_titles_to_use
    {| page_tables := [];
       page_tabtitles :=
         [ {| hdr_text := "Overview"; hdr_y := None |};
           {| hdr_text := " General Information "; hdr_y := None |};
           {| hdr_text := "  "; hdr_y := None |};
           {| hdr_text := "Enrollment"; hdr_y := None |} ] |}
  = ["General Information"; "Enrollment"].
Proof.
  apply (proj1 (proj2 (X20_section_titles_from_general_information _))
           ["Overview"] "General Information" ["Enrollment"]).
  - reflexivity.
  - repeat constructor.
  - reflexivity.
Defined.

(** ** File names *)

Lemma filename_char_stays (c : ascii) :
  is_filename_char c = true ->
  is_word_char c = true
  /\ Py.is_space c = false /\ Ascii.eqb c "-" = false
  /\ Py.lower_char c = c.
Proof.
  destruct c as [[] [] [] [] [] [] [] []]; vm_compute;
    try discriminate; intros _; repeat split.
Qed.

Lemma kept_char_cleans (c : ascii) :
  is_ascii c = true ->
  (is_word_char c || Py.is_space c || Ascii.eqb c "-") = true ->
  (Ascii.eqb c "-" || Py.is_space c) = false ->
  is_filename_char (Py.lower_char c) = true.
Proof.
  destruct c as [[] [] [] [] [] [] [] []]; vm_compute;
    try discriminate; reflexivity.
Qed.

Lemma underscore_runs_clean (in_run : bool) (s : string) :
  string_all is_ascii s = true ->
  string_all (fun c => is_word_char c || Py.is_space c || Ascii.eqb c "-") s = true ->
  string_all is_filename_char (Py.lower (underscore_runs in_run s)) = true.
Proof.
  revert in_run. induction s as [|c s IH]; intros in_run Ha Hk; [reflexivity |].
  cbn [string_all] in Ha, Hk.
  apply andb_true_iff in Ha as [Hac Has]. apply andb_true_iff in Hk as [Hkc Hks].
  cbn [underscore_runs].
  destruct (Ascii.eqb c "-" || Py.is_space c) eqn:Esep.
  - destruct in_run; [now apply IH |].
    cbn [Py.lower string_all]. now rewrite IH.
  - cbn [Py.lower string_all]. rewrite (kept_char_cleans c Hac Hkc Esep).
    now apply IH.
Qed.

Lemma drop_punctuation_kept (s : string) :
  string_all (fun c => is_word_char c || Py.is_space c || Ascii.eqb c "-")
    (drop_punctuation s) = true.
Proof.
  induction s as [|c s IH]; [reflexivity |]. cbn [drop_punctuation].
  destruct (is_word_char c || Py.is_space c || Ascii.eqb c "-") eqn:E;
    [| exact IH].
  cbn [string_all]. now rewrite E, IH.
Qed.

Lemma drop_punctuation_ascii (s : string) :
  string_all is_ascii s = true -> string_all is_ascii (drop_punctuation s) = true.
Proof.
  induction s as [|c s IH]; [reflexivity |]. cbn [string_all drop_punctuation].
  intros [Hc Hs]%andb_true_iff.
  destruct (_ || _); [cbn [string_all]; now rewrite Hc, IH | now apply IH].
Qed.

Lemma clean_filename_fixed (s : string) :
  string_all is_filename_char s = true -> clean_filename_static s = s.
Proof.
  unfold clean_filename_static. generalize false.
  induction s as [|c s IH]; intros in_run; [reflexivity |].
  cbn [string_all]. intros [Hc Hs]%andb_true_iff.
  destruct (filename_char_stays c Hc) as [Hw [Hsp [Hd Hl]]].
  cbn [drop_punctuation]. rewrite Hw. cbn [orb underscore_runs].
  rewrite Hd, Hsp. cbn [orb Py.lower]. now rewrite Hl, IH.
Qed.

(** X21.  On a text of ASCII characters [clean_filename_static] gives a
    name made of lower-case letters, digits and underscores only, and
    cleaning a cleaned name changes nothing. *)
Theorem X21_clean_filename_is_safe_and_stable (text : string) :
  string_all is_ascii text = true ->
  string_all is_filename_char (clean_filename_static text) = true
  /\ clean_filename_static (clean_filename_static text)
     = clean_filename_static text.
Proof.
  intros Hascii.
  assert (Hsafe : string_all is_filename_char (clean_filename_static text) = true).
  { unfold clean_filename_static. apply underscore_runs_clean.
    - now apply drop_punctuation_ascii.
    - apply drop_punctuation_kept. }
  split; [exact Hsafe | now apply clean_filename_fixed].
Qed.

Lemma X21_clean_filename_is_safe_and_stable_witness :
  string_all is_filename_char
    (clean_filename_static "Average Net-Price (2023)!") = true
  /\ clean_filename_static (clean_filename_static "Average Net-Price (2023)!")
     = clean_filename_static "Average Net-Price (2023)!".
Proof.
  apply (X21_clean_filename_is_safe_and_stable "Average Net-Price (2023)!").
  vm_compute. reflexivity.
Defined.

(** The name of that witness. *)
Lemma clean_filename_sample :
  clean_filename_static "Average Net-Price (2023)!" = "average_net_price_2023".
Proof. vm_compute. reflexivity. Qed.

(** ** Graph widgets *)

Section Graphs.

Variable percent_after : string -> string -> option string.

Lemma dict_set_nonempty (k v : string) (d : list (string * string)) :
  dict_set k v d <> [].
Proof.
  destruct d as [|[k' v'] d]; cbn [dict_set]; [discriminate |].
  destruct (String.eqb k k'); discriminate.
Qed.

Lemma extracted_data_empty (alt_upper : string) (terms : list string)
    (d0 : list (string * string)) :
  fold_left
    (fun d metric_term =>
       match percent_after (Py.upper metric_term) alt_upper with
       | Some group1 => dict_set metric_term group1 d
       | None => d
       end)
    terms d0 = []
  <-> d0 = []
      /\ Forall (fun term => percent_after (Py.upper term) alt_upper = None) terms.
Proof.
  revert d0. induction terms as [|t ts IH]; intros d0; cbn [fold_left].
  - split; [intros ->; split; [reflexivity | constructor] | tauto].
  - rewrite IH. destruct (percent_after (Py.upper t) alt_upper) as [v|] eqn:E.
    + split.
      * intros [H _]. now apply dict_set_nonempty in H.
      * intros [_ H]. inversion H; congruence.
    + split.
      * intros [H1 H2]. split; [exact H1 | now constructor].
      * intros [H1 H2]. split; [exact H1 | now inversion H2].
Qed.

Lemma graph_images_empty (g : Table) (terms : list string) :
  graph_images (extract_graph_data_static percent_after g terms) = []
  <-> Forall (silent_image percent_after terms) (table_imgs g).
Proof.
  unfold extract_graph_data_static. cbn [graph_images].
  induction (table_imgs g) as [|img imgs IH]; cbn [flat_map].
  - split; [constructor | reflexivity].
  - split.
    + intros H. apply app_eq_nil in H as [H1 H2].
      constructor; [| now apply IH].
      unfold silent_image.
      destruct (fold_left _ terms []) as [|e d] eqn:Ed; [| discriminate].
      destruct (Py.attr_or_empty (img_alt img)) as [|c alt] eqn:Ea;
        [| discriminate].
      split; [reflexivity |]. now apply extracted_data_empty in Ed.
    + intros H. inversion H as [|? ? [Halt Hterms] Hrest]; subst.
      apply IH in Hrest. rewrite Hrest, app_nil_r.
      assert (Hd : fold_left
                (fun d metric_term =>
                   match percent_after (Py.upper metric_term)
                           (Py.upper (Py.attr_or_empty (img_alt img))) with
                   | Some group1 => dict_set metric_term group1 d
                   | None => d
                   end) terms [] = [])
        by now apply extracted_data_empty.
      rewrite Hd, Halt. reflexivity.
Qed.

Lemma process_graph_emits (g : Table) (index : nat) (sect : string)
    (terms : list string) :
  let data := extract_graph_data_static percent_after g terms in
  let records :=
    emitted (process_graph_table_static percent_after g index sect terms) in
  if String.eqb (graph_title data) "Unknown Graph"
     && match graph_images data with [] => true | _ => false end
  then records = []
  else exists rest,
      records
      = {| Category := "--- " +:+ sect +:+ " - "
                       +:+ ("Graph " +:+ Py.of_nat (index + 1) +:+ " ("
                            +:+ graph_title data +:+ ")")
                       +:+ " ---";
           Value := ""; Section_ := sect;
           Source := ("Graph " +:+ Py.of_nat (index + 1) +:+ " ("
                      +:+ graph_title data +:+ ")") +:+ " (Header)" |}
        :: rest.
Proof.
  cbv zeta. unfold process_graph_table_static. cbv zeta.
  change (graph_text_data (extract_graph_data_static percent_after g terms))
    with (@nil (string * string)).
  rewrite orb_false_r.
  destruct (String.eqb _ "Unknown Graph") eqn:Et; cbn [negb orb andb].
  - destruct (graph_images _) as [|im ims]; [reflexivity |].
    cbn [negb]. rewrite emitted_bind.
    + now eexists.
    + apply appends_append.
    + intros _. apply appends_bind; [apply appends_ret | intros _].
      apply appends_bind; [| intros _; apply appends_for_each;
                              intros [label val]; apply appends_append].
      apply appends_for_each. intros [j img].
      apply appends_bind;
        [destruct (Py.truthy _); [apply appends_append | apply appends_ret] |].
      intros _. apply appends_for_each. intros [metric val]. apply appends_append.
  - rewrite emitted_bind.
    + now eexists.
    + apply appends_append.
    + intros _. apply appends_bind; [apply appends_append | intros _].
      apply appends_bind; [| intros _; apply appends_for_each;
                              intros [label val]; apply appends_append].
      apply appends_for_each. intros [j img].
      apply appends_bind;
        [destruct (Py.truthy _); [apply appends_append | apply appends_ret] |].
      intros _. apply appends_for_each. intros [metric val]. apply appends_append.
Qed.

End Graphs.

(** X22.  A matched graph widget is skipped, with no record, exactly when
    its title is "Unknown Graph" and none of its images has an alt text or
    gives a percentage for a search term; the title is "Unknown Graph" when
    the widget has no header cell in a [<thead>], and the stripped text of
    the first such cell otherwise.  A widget that is not skipped starts with
    its marker record. *)
Theorem X22_graph_widget_skipped_or_marked
    (percent_after : string -> string -> option string) (graph_element : Table)
    (index : nat) (section_name : string) (search_terms_list : list string) :
  let data :=
    extract_graph_data_static percent_after graph_element search_terms_list in
  let records :=
    emitted (process_graph_table_static percent_after graph_element index
               section_name search_terms_list) in
  (records = [] <->
   graph_title data = "Unknown Graph"
   /\ Forall (silent_image percent_after search_terms_list)
        (table_imgs graph_element))
  /\ (records <> [] ->
      exists rest,
        records
        = {| Category := "--- " +:+ section_name +:+ " - Graph "
                         +:+ Py.of_nat (index + 1) +:+ " ("
                         +:+ graph_title data +:+ ") ---";
             Value := ""; Section_ := section_name;
             Source := "Graph " +:+ Py.of_nat (index + 1) +:+ " ("
                       +:+ graph_title data +:+ ") (Header)" |}
          :: rest)
  /\ graph_title data
     = match thead_ths graph_element with
       | th :: _ => Py.strip (cell_text th)
       | [] => "Unknown Graph"
       end.
Proof.
  cbv zeta.
  pose proof (process_graph_emits percent_after graph_element index
                section_name search_terms_list) as H.
  cbv zeta in H.
  pose proof (graph_images_empty percent_after graph_element search_terms_list)
    as Himgs.
  split; [| split].
  - destruct (String.eqb_spec
                (graph_title (extract_graph_data_static percent_after
                                graph_element search_terms_list))
                "Unknown Graph") as [Ht | Ht]; cbn [andb] in H.
    + destruct (graph_images _) as [|im ims] eqn:Ei.
      * split; [intros _; split; [exact Ht | now apply Himgs] | intros _; exact H].
      * destruct H as [rest ->]. split; [discriminate |].
        intros [_ Hs]. apply Himgs in Hs. discriminate.
    + destruct H as [rest ->]. split; [discriminate | intros [Ht' _]; contradiction].
  - intros Hne.
    destruct (String.eqb _ "Unknown Graph" && _); [contradiction |].
    destruct H as [rest ->]. exists rest. f_equal. f_equal.
    + now rewrite !append_assoc.
    + now rewrite !append_assoc.
  - reflexivity.
Qed.

(** ** Keywords of a query *)

Lemma split_words_head (c : ascii) (s : string) :
  Py.is_space c = false -> split_words (String c s) <> [].
Proof.
  intros Hc. cbn [split_words]. rewrite Hc.
  destruct s as [|c' s']; [discriminate |].
  destruct (Py.is_space c'); [discriminate |].
  destruct (split_words (String c' s')); discriminate.
Qed.

(** A word of a phrase is a run of the phrase without white space. *)
Lemma split_words_spec (s : string) :
  Forall (fun word =>
            Py.Infix word s
            /\ string_all (fun c => negb (Py.is_space c)) word = true
            /\ word <> "")
    (split_words s)
  /\ (forall word words, split_words s = word :: words ->
        exists post, s = word +:+ post \/
                     exists c s', s = String c s' /\ Py.is_space c = true).
Proof.
  induction s as [|c s [IH IHhead]]; [split; [constructor | discriminate] |].
  assert (Hlift : forall word, Py.Infix word s -> Py.Infix word (String c s)).
  { intros word [pre [post ->]]. now exists (String c pre), post. }
  destruct (Py.is_space c) eqn:Ec.
  - cbn [split_words]. rewrite Ec. split.
    + eapply Forall_impl; [exact IH |]. cbn. intros w [H1 H2]. split; auto.
    + intros word words _. exists "". right. now exists c, s.
  - cbn [split_words]. rewrite Ec.
    destruct s as [|c' s'].
    + split.
      * constructor; [| constructor].
        split; [apply Infix_refl | split; [cbn; now rewrite Ec | discriminate]].
      * intros word words [= <- <-]. exists "". now left.
    + destruct (Py.is_space c') eqn:Ec'.
      * split.
        -- constructor.
           ++ split; [now exists "", (String c' s') |].
              split; [cbn; now rewrite Ec | discriminate].
           ++ eapply Forall_impl; [exact IH |]. cbn. intros w [H1 H2]. split; auto.
        -- intros word words [= <- <-]. exists (String c' s'). now left.
      * destruct (split_words (String c' s')) as [|w ws] eqn:Ew.
        { now apply split_words_head in Ew. }
        destruct (IHhead w ws eq_refl) as [post [Hpost | [x [y [Hxy Hsp]]]]];
          [| injection Hxy as -> ->; congruence].
        inversion IH as [|? ? [Hw1 [Hw2 Hw3]] Hws]; subst.
        split.
        -- constructor.
           ++ split; [| split; [cbn; now rewrite Ec, Hw2 | discriminate]].
              exists "", post. cbn. now rewrite Hpost.
           ++ eapply Forall_impl; [exact Hws |]. cbn. intros w' [H1 H2]. split; auto.
        -- intros word words [= <- <-]. exists post. left. cbn. now rewrite Hpost.
Qed.

(** X23.  Every keyword drawn from the search terms is a run without white
    space of one of the terms, is longer than two characters and is not a
    stop word; there is no keyword without a term. *)
Theorem X23_keywords_come_from_terms (search_terms_list : list string)
    (keyword : string) :
  keyword ∈ extract_keywords search_terms_list ->
  (exists term, In term search_terms_list /\ Py.Infix keyword term)
  /\ (2 < String.length keyword)%nat
  /\ ~ In keyword stop_words
  /\ string_all (fun c => negb (Py.is_space c)) keyword = true.
Proof.
  unfold extract_keywords. rewrite elem_of_list_to_set.
  intros Hin. apply list_elem_of_In, in_flat_map in Hin as [term [Hterm Hin]].
  unfold meaningful_words in Hin. apply filter_In in Hin as [Hword Hkeep].
  apply andb_true_iff in Hkeep as [Hlen Hstop].
  destruct (split_words_spec term) as [Hall _].
  rewrite Forall_forall in Hall.
  destruct (Hall keyword (proj2 (list_elem_of_In _ _) Hword)) as [Hinfix [Hns _]].
  split; [now exists term |]. split; [now apply Nat.ltb_lt |].
  split; [| exact Hns].
  intros Hs. apply mem_In in Hs. now rewrite Hs in Hstop.
Qed.

Lemma X23_keywords_come_from_terms_witness :
  (exists term,
      In term ["retention rate of the students"] /\ Py.Infix "retention" term)
  /\ (2 < String.length "retention")%nat
  /\ ~ In "retention" stop_words
  /\ string_all (fun c => negb (Py.is_space c)) "retention" = true.
Proof.
  apply (X23_keywords_come_from_terms ["retention rate of the students"]
           "retention").
  vm_compute. reflexivity.
Defined.

(** ** When the fallback runs *)

Lemma regular_flag_iff_records (table_element : Table) (index : nat)
    (headers_cache : gmap nat (list string * nat)) (section_name : string) :
  result (process_regular_table_static table_element index headers_cache
            section_name) = true
  <-> regular_table_records table_element index headers_cache section_name <> [].
Proof.
  unfold regular_table_records, result, emitted. rewrite process_regular_run.
  cbv zeta. destruct (collect_data_rows _ _); cbn [fst snd app].
  - split; [discriminate | intros H; now contradiction H].
  - split; [discriminate | reflexivity].
Qed.

Lemma matched_table_flag_iff_records (processing_input : Query)
    (headers_cache : gmap nat (list string * nat)) (tbl : MatchInfo) :
  result (process_matched_table processing_input headers_cache tbl) = true
  <-> emitted (process_matched_table processing_input headers_cache tbl) <> [].
Proof.
  rewrite emitted_process_matched_table.
  unfold process_matched_table.
  rewrite result_bind;
    [| apply appends_deep_search
     | intros [|]; [apply appends_ret | apply appends_process_regular]].
  fold (deep_search_matched (mi_element tbl) (mi_index tbl) headers_cache
          processing_input (mi_section tbl)).
  destruct (deep_search_matched _ _ _ _ _) eqn:E.
  - split; [intros _; now apply deep_search_true_emits | reflexivity].
  - apply regular_flag_iff_records.
Qed.

Lemma matched_tables_flag_iff_records (processing_input : Query)
    (headers_cache : gmap nat (list string * nat)) (tables : list MatchInfo) :
  existsb
    (fun tbl => result (process_matched_table processing_input headers_cache tbl))
    tables = false
  <-> matched_tables_records processing_input headers_cache tables = [].
Proof.
  unfold matched_tables_records.
  induction tables as [|t ts IH]; cbn [existsb flat_map]; [tauto |].
  rewrite orb_false_iff, IH. split.
  - intros [H1 H2]. rewrite H2, app_nil_r.
    destruct (emitted (process_matched_table processing_input headers_cache t))
      eqn:E; [reflexivity |].
    assert (Hne : emitted (process_matched_table processing_input
                             headers_cache t) <> []) by (rewrite E; discriminate).
    apply matched_table_flag_iff_records in Hne. congruence.
  - intros H. apply app_eq_nil in H as [H1 H2]. split; [| exact H2].
    destruct (result (process_matched_table processing_input headers_cache t))
      eqn:E; [| reflexivity].
    apply matched_table_flag_iff_records in E. contradiction.
Qed.

(** X24.  When discovery records no graph, the fallback cascade runs exactly
    when the matched tables added no record, be it that no table matched or
    that no matched table has a data row; otherwise the output is what the
    matched tables added. *)
Theorem X24_fallback_runs_iff_nothing_added
    (percent_after : string -> string -> option string) (driver : Driver)
    (processing_input : Query) (section_titles_on_page : list string)
    (out : list DataRow) :
  let data_tables :=
    List.filter (fun t => negb (is_graph_table t)) (page_tables driver) in
  let headers_cache := build_headers_cache data_tables in
  let added :=
    matched_tables_records processing_input headers_cache
      (find_matching_tables_static driver data_tables
         (search_terms processing_input) (keywords processing_input)
         section_titles_on_page) in
  find_matching_graph_tables_static driver
    (List.filter is_graph_table (page_tables driver))
    (search_terms processing_input) (keywords processing_input)
    section_titles_on_page = [] ->
  find_and_process_tables_graphs_static percent_after driver processing_input
    section_titles_on_page out
  = match added with
    | [] =>
        handle_no_matches_static driver data_tables [] processing_input
          section_titles_on_page headers_cache out
    | _ => (tt, out ++ added)
    end.
Proof.
  cbv zeta. intros Hg. unfold find_and_process_tables_graphs_static.
  cbv zeta. rewrite Hg. unfold bind.
  destruct (find_matching_tables_static _ _ _ _ _) as [|t ts] eqn:Et.
  - reflexivity.
  - rewrite process_matching_run.
    cbn [matched_graphs_records flat_map]. rewrite app_nil_r, orb_false_r.
    unfold ret at 1.
    destruct (existsb _ (t :: ts)) eqn:E.
    + cbn [orb]. unfold ret.
      destruct (matched_tables_records _ _ (t :: ts)) eqn:Er; [| reflexivity].
      apply matched_tables_flag_iff_records in Er. congruence.
    + cbn [orb]. apply matched_tables_flag_iff_records in E.
      now rewrite E, app_nil_r.
Qed.

Lemma X24_fallback_runs_iff_nothing_added_witness :
  find_and_process_tables_graphs_static no_percent retention_page
    retention_query retention_titles []
  = match
      matched_tables_records retention_query
        (build_headers_cache
           (List.filter (fun t => negb (is_graph_table t))
              (page_tables retention_page)))
        (find_matching_tables_static retention_page
           (List.filter (fun t => negb (is_graph_table t))
              (page_tables retention_page))
           (search_terms retention_query) (keywords retention_query)
           retention_titles)
    with
    | [] =>
        handle_no_matches_static retention_page
          (List.filter (fun t => negb (is_graph_table t))
             (page_tables retention_page))
          [] retention_query retention_titles
          (build_headers_cache
             (List.filter (fun t => negb (is_graph_table t))
                (page_tables retention_page)))
          []
    | added => (tt, [] ++ added)
    end.
Proof.
  apply (X24_fallback_runs_iff_nothing_added no_percent retention_page
           retention_query retention_titles []).
  vm_compute. reflexivity.
Defined.

(** * The cascade and the absent values, over whole pages and tables *)

(** ** The fallback cascade *)

(** When discovery records no graph and the matched tables add no record,
    the orchestrator hands the page to [handle_no_matches_static]. *)
Lemma orchestrator_falls_back
    (percent_after : string -> string -> option string) (driver : Driver)
    (processing_input : Query) (section_titles_on_page : list string)
    (out : list DataRow) :
  let data_tables :=
    List.filter (fun t => negb (is_graph_table t)) (page_tables driver) in
  let headers_cache := build_headers_cache data_tables in
  find_matching_graph_tables_static driver
    (List.filter is_graph_table (page_tables driver))
    (search_terms processing_input) (keywords processing_input)
    section_titles_on_page = [] ->
  matched_tables_records processing_input headers_cache
    (find_matching_tables_static driver data_tables
       (search_terms processing_input) (keywords processing_input)
       section_titles_on_page) = [] ->
  find_and_process_tables_graphs_static percent_after driver processing_input
    section_titles_on_page out
  = handle_no_matches_static driver data_tables [] processing_input
      section_titles_on_page headers_cache out.
Proof.
  cbv zeta. intros Hg Hadded. unfold find_and_process_tables_graphs_static.
  cbv zeta. rewrite Hg. unfold bind.
  destruct (find_matching_tables_static _ _ _ _ _) as [|t ts] eqn:Et.
  - reflexivity.
  - rewrite process_matching_run.
    cbn [matched_graphs_records flat_map]. rewrite app_nil_r, orb_false_r.
    unfold ret at 1. rewrite Hadded, app_nil_r.
    apply matched_tables_flag_iff_records in Hadded. now rewrite Hadded.
Qed.

(** Through the orchestrator the keyword pass adds section markers only.
    A table whose text holds all the keywords is one discovery records; the
    fallback runs only when the matched tables added no record, so such a
    table has no data row and its whole-table emission is empty. *)
Lemma keyword_pass_adds_markers_only (driver : Driver) (tables : list Table)
    (processing_input : Query) (titles : list string)
    (headers_cache : gmap nat (list string * nat)) :
  matched_tables_records processing_input headers_cache
    (find_matching_tables_static driver tables (search_terms processing_input)
       (keywords processing_input) titles) = [] ->
  fallback_keyword_records driver tables processing_input titles headers_cache
  = flat_map
      (fun '(i, tbl) =>
         if keyword_match_static (Py.lower (tbl_text tbl))
              (keywords processing_input)
         then [search_section_marker (determine_section_static driver tbl titles)]
         else [])
      (Py.enumerate 0 tables).
Proof.
  unfold find_matching_tables_static, fallback_keyword_records.
  rewrite find_matching_tables_fold by constructor. cbn [app].
  unfold matched_tables_records.
  induction (Py.enumerate 0 tables) as [|[i tbl] l IH]; [reflexivity |].
  cbn [flat_map]. rewrite flat_map_app. intros H.
  apply app_eq_nil in H as [H1 H2]. rewrite (IH H2). f_equal.
  destruct (keyword_match_static (Py.lower (tbl_text tbl))
              (keywords processing_input)) eqn:E; [| reflexivity].
  f_equal. revert H1. unfold table_match_info.
  assert (Hreason :
    table_match_reason (search_terms processing_input)
      (keywords processing_input)
      (combined_searchable_text tbl (determine_section_static driver tbl titles))
    <> None).
  { unfold table_match_reason. destruct (List.find _ _); [discriminate |].
    rewrite (keyword_match_text_then_aggregate tbl _ _ E).
    destruct (keywords processing_input); [discriminate E | discriminate]. }
  destruct (table_match_reason _ _ _) as [reason|]; [| now contradiction Hreason].
  cbn [flat_map]. rewrite app_nil_r, emitted_process_matched_table.
  cbn [mi_element mi_index mi_section].
  destruct (deep_search_matched _ _ _ _ _) eqn:D; [| trivial].
  intros H. now apply deep_search_true_emits in D.
Qed.

(** C4.  [handle_no_matches_static] runs the deep search on every table it
    is given, in page order; if that pass emits records they are all it
    adds; if it emits none and there are keywords, every table whose text
    holds all the keywords gets the section marker followed by its
    whole-table records; if it emits none and there is no keyword, nothing
    is added.  The orchestrator runs this cascade on the data tables
    whenever no graph matched and the matched tables added no record, so in
    particular when discovery matched no table and no graph; in that
    particular case no data table holds all the keywords, and the keyword
    pass selects none. *)
Theorem C4_fallback_cascade
    (percent_after : string -> string -> option string)
    (driver : Driver) (processing_input : Query)
    (section_titles_on_page : list string) (out : list DataRow) :
  let data_tables :=
    List.filter (fun t => negb (is_graph_table t)) (page_tables driver) in
  let graph_tables := List.filter is_graph_table (page_tables driver) in
  let headers_cache := build_headers_cache data_tables in
  let matching_tables :=
    find_matching_tables_static driver data_tables
      (search_terms processing_input) (keywords processing_input)
      section_titles_on_page in
  let matching_graphs :=
    find_matching_graph_tables_static driver graph_tables
      (search_terms processing_input) (keywords processing_input)
      section_titles_on_page in
  let cascade tables cache :=
    match fallback_deep_records driver tables processing_input
            section_titles_on_page cache,
          keywords processing_input with
    | [], _ :: _ =>
        fallback_keyword_records driver tables processing_input
          section_titles_on_page cache
    | deep, _ => deep
    end in
  let deep :=
    fallback_deep_records driver data_tables processing_input
      section_titles_on_page headers_cache in
  let by_keyword :=
    fallback_keyword_records driver data_tables processing_input
      section_titles_on_page headers_cache in
  let run :=
    find_and_process_tables_graphs_static percent_after driver processing_input
      section_titles_on_page out in
  (forall (all_page_tables : list Table) (all_page_graph_elements : list MatchInfo)
          (cache : gmap nat (list string * nat)) (out' : list DataRow),
      handle_no_matches_static driver all_page_tables all_page_graph_elements
        processing_input section_titles_on_page cache out'
      = (tt, out' ++ cascade all_page_tables cache))
  /\ (matching_graphs = [] ->
      matched_tables_records processing_input headers_cache matching_tables = [] ->
      run = (tt, out ++ cascade data_tables headers_cache))
  /\ (matching_tables = [] -> matching_graphs = [] ->
      (deep <> [] -> run = (tt, out ++ deep))
      /\ (deep = [] -> keywords processing_input <> [] ->
          run = (tt, out ++ by_keyword))
      /\ (deep = [] -> keywords processing_input = [] -> run = (tt, out))
      /\ by_keyword = []).
Proof.
  cbv zeta. split; [| split].
  - intros all_page_tables all_page_graph_elements cache out'.
    apply handle_no_matches_run.
  - intros Hg Hadded.
    rewrite (orchestrator_falls_back percent_after driver processing_input
               section_titles_on_page out Hg Hadded).
    apply handle_no_matches_run.
  - intros Ht Hg.
    assert (Hadded :
      matched_tables_records processing_input
        (build_headers_cache
           (List.filter (fun t => negb (is_graph_table t)) (page_tables driver)))
        (find_matching_tables_static driver
           (List.filter (fun t => negb (is_graph_table t)) (page_tables driver))
           (search_terms processing_input) (keywords processing_input)
           section_titles_on_page) = []) by now rewrite Ht.
    rewrite (orchestrator_falls_back percent_after driver processing_input
               section_titles_on_page out Hg Hadded).
    rewrite handle_no_matches_run.
    rewrite (keyword_pass_silent_after_empty_discovery driver _ processing_input
               section_titles_on_page _ Ht).
    destruct (fallback_deep_records _ _ _ _ _) as [|r deep];
      destruct (keywords processing_input) as [|k kws];
      repeat split; intros; try congruence; now rewrite ?app_nil_r.
Qed.

Lemma C4_fallback_cascade_witness :
  handle_no_matches_static rates_page [rates_table] [] rates_query []
    (build_headers_cache [rates_table]) []
  = (tt,
     [] ++ [ search_section_marker "Unknown Section (No Titles Provided)";
             entire_table_marker "Unknown Section (No Titles Provided)" 0;
             header_row_record [] "Unknown Section (No Titles Provided)";
             raw_row_record "Unknown Section (No Titles Provided)" 0
               ["Retention"; "82%"];
             raw_row_record "Unknown Section (No Titles Provided)" 0
               ["Rate"; "-"] ])
  /\ find_and_process_tables_graphs_static no_percent heading_only_page
       retention_query [] []
     = (tt, [] ++ [ search_section_marker "Unknown Section (No Titles Provided)" ])
  /\ find_and_process_tables_graphs_static no_percent chart_page
       {| search_terms := ["retention"]; keywords := [] |} [] []
     = (tt,
        [] ++ fallback_deep_records chart_page
                (List.filter (fun t => negb (is_graph_table t))
                   (page_tables chart_page))
                {| search_terms := ["retention"]; keywords := [] |} []
                (build_headers_cache
                   (List.filter (fun t => negb (is_graph_table t))
                      (page_tables chart_page)))).
Proof.
  split; [| split].
  - exact (proj1 (C4_fallback_cascade no_percent rates_page rates_query [] [])
             [rates_table] [] (build_headers_cache [rates_table]) []).
  - refine (proj1 (proj2 (C4_fallback_cascade no_percent heading_only_page
                            retention_query [] [])) _ _).
    + vm_compute; reflexivity.
    + vm_compute; reflexivity.
  - refine (proj1 (proj2 (proj2 (C4_fallback_cascade no_percent chart_page
                     {| search_terms := ["retention"]; keywords := [] |} [] []))
                     _ _) _).
    + vm_compute; reflexivity.
    + vm_compute; reflexivity.
    + vm_compute; discriminate.
Defined.

(** The records of the keyword pass on the table of rates: the section
    marker, then the whole table. *)
Lemma keyword_pass_emits_whole_table :
  emitted (handle_no_matches_static rates_page [rates_table] [] rates_query []
             (build_headers_cache [rates_table]))
  = [ {| Category :=
           "--- Unknown Section (No Titles Provided) - SEARCH RESULTS IN TABLE ---";
         Value := "";
         Section_ := "Unknown Section (No Titles Provided)";
         Source := "Deep Table Search Section Header" |};
      {| Category :=
           "--- Unknown Section (No Titles Provided) - ENTIRE TABLE 1 CONTENT ---";
         Value := "";
         Section_ := "Unknown Section (No Titles Provided)";
         Source := "Full Table 1 (Header)" |};
      {| Category := "blank"; Value := "blank";
         Section_ := "Unknown Section (No Titles Provided)";
         Source := "Deep Table Search – Table Headers" |};
      {| Category := "Retention"; Value := "82%";
         Section_ := "Unknown Section (No Titles Provided)";
         Source := "Full Table 1" |};
      {| Category := "Rate"; Value := "blank";
         Section_ := "Unknown Section (No Titles Provided)";
         Source := "Full Table 1" |} ].
Proof. vm_compute. reflexivity. Qed.

(** Through the orchestrator the same table is matched by discovery, on
    its keywords, and emitted whole without the section marker: the
    fallback does not run. *)
Lemma rates_page_matched_by_discovery :
  emitted (find_and_process_tables_graphs_static no_percent rates_page
             rates_query [])
  = regular_table_records rates_table 0 (build_headers_cache [rates_table])
      "Unknown Section (No Titles Provided)".
Proof. vm_compute. reflexivity. Qed.

(** ** Dash and empty cells, over whole tables *)

Lemma piece_of_blank_if_absent (v : string) : piece_of v (blank_if_absent v).
Proof.
  unfold piece_of, blank_if_absent.
  destruct v as [|c v]; [left; now split; [left |] |].
  cbn [Py.truthy andb].
  destruct (String.eqb_spec (String c v) "-") as [-> | Hne]; cbn [negb].
  - left. now split; [right |].
  - right. repeat split; [discriminate | exact Hne].
Qed.

Lemma pieces_of_cells (cells : list string) :
  Forall2 piece_of cells (map blank_if_absent cells).
Proof.
  induction cells as [|v cells IH]; cbn [map]; constructor;
    [apply piece_of_blank_if_absent | exact IH].
Qed.

Lemma raw_value_of_cells (vals : list string) :
  value_of_cells vals (raw_value vals).
Proof.
  exists (map blank_if_absent (List.tl vals)).
  split; [apply pieces_of_cells | reflexivity].
Qed.

Lemma blank_if_absent_truthy (v : string) : Py.truthy (blank_if_absent v) = true.
Proof.
  unfold blank_if_absent. destruct (Py.truthy v) eqn:E; cbn [andb]; [| reflexivity].
  now destruct (negb _).
Qed.

Lemma raw_row_value_of_cells (section_name : string) (index : nat)
    (row_vals : list string) :
  value_or_blank_of_cells row_vals
    (Value (raw_row_record section_name index row_vals)).
Proof.
  exists (map blank_if_absent (List.tl row_vals)).
  split; [apply pieces_of_cells |].
  cbn [raw_row_record Value].
  destruct (List.tl row_vals) as [|v cells]; [reflexivity |].
  cbn [map]. unfold Py.or_else.
  now rewrite (join_truthy "; " _ _ (blank_if_absent_truthy v)).
Qed.

Lemma in_detail_span (det : Row) (following : list Row) :
  In det (detail_span following) -> In det following.
Proof.
  induction following as [|r following IH]; cbn [detail_span]; [tauto |].
  destruct (is_subrow r); [intros [] |].
  intros [-> | H]; [now left | right; auto].
Qed.

Lemma has_td_of_matches (headers terms kws : list string) (row : Row) :
  row_matches headers terms kws row = true -> has_td row = true.
Proof. unfold row_matches. now intros [H _]%andb_true_iff. Qed.

(** Every record of [found] comes from a row with a [<td>]: the group
    record with an empty Value, the others with the cells after the first
    written piece by piece. *)
Lemma search_rows_values (headers : list string) (data_start_idx : nat)
    (terms kws : list string) (sect : string) (idx : nat) (rows : list Row) :
  Forall
    (fun r =>
       exists row,
         In row rows /\ has_td row = true
         /\ ((Source r = "DeepSearch - Subrow Group" /\ Value r = "")
             \/ value_of_cells (row_values row) (Value r)
             \/ value_of_cells (row_texts row) (Value r)))
    (search_rows headers data_start_idx terms kws sect idx rows).
Proof.
  revert idx. induction rows as [|row rows IH]; intros idx; [constructor |].
  cbn [search_rows]. apply Forall_app. split.
  - rewrite search_row_cases.
    destruct (_ <=? _)%nat; cbn [andb]; [| constructor].
    destruct (row_matches headers terms kws row) eqn:Hm; [| constructor].
    apply has_td_of_matches in Hm.
    destruct (is_subrow row).
    + constructor.
      * exists row. split; [now left |]. split; [exact Hm |]. left. now split.
      * rewrite subrow_details_span. apply Forall_forall.
        intros r Hr. apply list_elem_of_In, in_map_iff in Hr as [det [<- Hdet]].
        apply filter_In in Hdet as [Hspan Htd].
        exists det. split; [right; now apply in_detail_span |].
        split; [exact Htd |]. right. right. apply raw_value_of_cells.
    + constructor; [| constructor].
      exists row. split; [now left |]. split; [exact Hm |].
      right. left. apply raw_value_of_cells.
  - eapply Forall_impl; [apply IH |]. cbn.
    intros r [row' [Hin H]]. exists row'. split; [now right | exact H].
Qed.

Lemma in_drop {A : Type} (n : nat) (x : A) (l : list A) :
  In x (drop n l) -> In x l.
Proof.
  intros H. rewrite <- (take_drop n l). apply in_or_app. now right.
Qed.

(** Every data row comes from a row with a [<td>]. *)
Lemma collect_data_rows_from (data_start_idx : nat) (all_rows : list Row) :
  Forall
    (fun row_vals =>
       exists row, In row all_rows /\ has_td row = true /\ row_vals = row_texts row)
    (collect_data_rows data_start_idx all_rows).
Proof.
  unfold collect_data_rows. apply Forall_forall. intros row_vals Hin.
  apply list_elem_of_In, in_flat_map in Hin as [row [Hrow Hin]].
  exists row. split; [now apply in_drop in Hrow |].
  unfold has_td, row_texts.
  destruct (find_cells Td row) as [|c cells]; [destruct Hin |].
  destruct Hin as [<- | []]. now split.
Qed.

Lemma Infix_join_elem (sep x : string) (xs : list string) :
  In x xs -> Py.Infix x (Py.join sep xs).
Proof.
  induction xs as [|y xs IH]; [intros [] |].
  intros [-> | Hin].
  - destruct xs as [|z xs]; [apply Infix_refl | apply Infix_prefix].
  - destruct xs as [|z xs]; [destruct Hin |].
    change (Py.join sep (y :: z :: xs)) with (y +:+ sep +:+ Py.join sep (z :: xs)).
    destruct (IH Hin) as [pre [post ->]].
    exists (y +:+ sep +:+ pre), post. now rewrite !append_assoc.
Qed.

(** A row with a dash cell answers the search term "-". *)
Lemma dash_row_matches (headers kws : list string) (row : Row) (c : Cell) :
  In c (find_cells Td row) ->
  Py.strip (cell_text c) = "-" ->
  row_matches headers ["-"] kws row = true.
Proof.
  intros Hin Hdash. unfold row_matches, has_td, row_hits, row_values.
  destruct (find_cells Td row) as [|c0 cells] eqn:E; [destruct Hin |].
  cbn [andb fst]. apply orb_true_iff. left.
  unfold term_hit. cbn [existsb]. rewrite orb_false_r.
  apply orb_true_iff. right. apply contains_spec.
  unfold simple_text. apply Infix_join_elem.
  apply in_map_iff. exists "-". split; [reflexivity |].
  apply in_map_iff. exists c. split; [now apply cell_value_dash | exact Hin].
Qed.

(** C8, as amended.  For every table: the three-mode formatter gives the
    same records when the dashes after the first cell of its rows are
    emptied; every record [deep_search_in_table_static] emits after the
    section marker and the header summary comes from a row of the table and
    has as Value either the empty text (a group record) or the cells of
    that row after the first joined by "; ", an empty text and a dash both
    written "blank"; every record [process_regular_table_static] emits
    after its marker and the header summary has such a Value too ("blank"
    when the row has one cell).  The search keeps the dash: a row of the
    data range with a dash cell answers the search term "-", the value of a
    dash cell is the dash whatever images it holds, and the value of an
    empty cell is the alt text of its first image when that is not
    blank. *)
Theorem C8_dash_cells_in_values :
  (forall headers data_rows sect src out,
      add_table_to_data_static headers (map undash_tail data_rows) sect src out
      = add_table_to_data_static headers data_rows sect src out)
  /\ (forall table_element table_index headers_cache processing_input
             section_name,
        Forall
          (fun r =>
             exists row,
               In row (table_rows table_element) /\ has_td row = true
               /\ ((Source r = "DeepSearch - Subrow Group" /\ Value r = "")
                   \/ value_of_cells (row_values row) (Value r)
                   \/ value_of_cells (row_texts row) (Value r)))
          (drop 2 (deep_search_records table_element table_index headers_cache
                     processing_input section_name)))
  /\ (forall table_element index headers_cache section_name,
        Forall
          (fun r =>
             exists row,
               In row (table_rows table_element) /\ has_td row = true
               /\ value_or_blank_of_cells (row_texts row) (Value r))
          (drop 2 (regular_table_records table_element index headers_cache
                     section_name)))
  /\ (forall table_element table_index headers_cache kws section_name i row c,
        table_rows table_element !! i = Some row ->
        (snd (default ([], 0%nat) (headers_cache !! table_index)) <= i)%nat ->
        In c (find_cells Td row) ->
        Py.strip (cell_text c) = "-" ->
        deep_search_matched table_element table_index headers_cache
          {| search_terms := ["-"]; keywords := kws |} section_name = true)
  /\ (forall c, Py.strip (cell_text c) = "-" -> cell_value c = "-")
  /\ (forall c img imgs,
        Py.strip (cell_text c) = "" ->
        cell_imgs c = img :: imgs ->
        Py.truthy (Py.strip (Py.attr_or_empty (img_alt img))) = true ->
        cell_value c = Py.strip (Py.attr_or_empty (img_alt img))).
Proof.
  split; [exact add_table_to_data_static_undash |].
  split.
  { intros table_element table_index headers_cache processing_input section_name.
    unfold deep_search_records, emitted. rewrite deep_search_run. cbv zeta.
    pose proof (search_rows_values
                  (fst (default ([], 0%nat) (headers_cache !! table_index)))
                  (snd (default ([], 0%nat) (headers_cache !! table_index)))
                  (search_terms processing_input) (keywords processing_input)
                  section_name 0 (table_rows table_element)) as Hfound.
    destruct (search_rows _ _ _ _ _ _ _); [constructor | exact Hfound]. }
  split.
  { intros table_element index headers_cache section_name.
    unfold regular_table_records, emitted. rewrite process_regular_run.
    cbv zeta.
    pose proof (collect_data_rows_from
                  (snd (default ([], 0%nat) (headers_cache !! index)))
                  (table_rows table_element)) as Hrows.
    destruct (collect_data_rows _ _) as [|r0 rows]; [constructor |].
    cbn [snd app drop]. apply Forall_forall. intros r Hr.
    apply list_elem_of_In, in_map_iff in Hr as [row_vals [<- Hin]].
    rewrite Forall_forall in Hrows.
    destruct (Hrows row_vals (proj2 (list_elem_of_In _ _) Hin))
      as [row [Hrow [Htd ->]]].
    exists row. split; [exact Hrow |]. split; [exact Htd |].
    apply raw_row_value_of_cells. }
  split.
  { intros table_element table_index headers_cache kws section_name i row c
      Hi Hle Hin Hdash.
    unfold deep_search_matched, result. rewrite deep_search_run. cbv zeta.
    cbn [search_terms keywords].
    destruct (search_rows _ _ _ _ _ _ _) eqn:E; [| reflexivity].
    exfalso. revert E. apply search_rows_nonempty.
    exists i, row. split; [exact Hi |]. split; [exact Hle |].
    now apply (dash_row_matches _ _ row c). }
  split; [exact cell_value_dash | exact cell_value_empty_alt].
Qed.

Lemma C8_dash_cells_in_values_witness :
  deep_search_matched fees_table 0 (build_headers_cache [fees_table])
    {| search_terms := ["-"]; keywords := [] |} "Costs" = true.
Proof.
  refine (proj1 (proj2 (proj2 (proj2 C8_dash_cells_in_values)))
            fees_table 0 (build_headers_cache [fees_table]) [] "Costs"
            4%nat (tr [td "Room"; td "-"]) (td "-") _ _ _ _).
  - reflexivity.
  - vm_compute. lia.
  - right. now left.
  - reflexivity.
Defined.

(** The records of the deep search of the table of rates for the term "-":
    the row of the dash, its dash written "blank". *)
Lemma dash_row_found_and_written_blank :
  drop 2 (deep_search_records rates_table 0 (build_headers_cache [rates_table])
            {| search_terms := ["-"]; keywords := [] |} "Outcomes")
  = [ {| Category := "Rate"; Value := "blank"; Section_ := "Outcomes";
         Source := "DeepSearch - Term Match" |} ].
Proof. vm_compute. reflexivity. Qed.
